(** * The tutoring marketplace schema: tables, row-level policies, triggers

    A shallow embedding of the two schema revisions of the repository
    (src/unnamed/part_000 and src/unnamed/part_001), of the queries the
    landing page issues (HomePage.fetchSubjects, HomePage.fetchStats)
    and of the submit handler of the registration form
    (src/unnamed/part_002).

    - A table with a primary key is a finite map from the key to the row.
      [reviews] is kept as the list of its rows in insertion order, because
      the rating trigger aggregates over all of them.
    - DECIMAL(p,s) values are stored as their unscaled integer (for s = 2:
      hundredths); arithmetic on them is exact rational arithmetic and a value
      is rounded half away from zero when it is assigned to a column.
    - A statement either commits and returns the new store or raises an error
      and leaves the store as it was.
    - Row-level security: the role owning the tables is exempt (ENABLE, not
      FORCE, ROW LEVEL SECURITY). For every other caller a statement is first
      rewritten with the policies of its table, and the sub-selects of these
      policies with the SELECT policies of the tables they read, and so on;
      when this expansion comes back to a table it is already expanding, the
      statement fails with 42P17 (infinite recursion detected in policy)
      before it reads or writes a row. The admin policies on profiles of
      part_001 read profiles, so there every statement whose policies reach
      profiles fails in this way. A statement that is rewritten without error
      applies its policies row by row. A sub-select of a policy and the
      statements of a trigger function that is not SECURITY DEFINER run with
      the caller's rights.
    - The values of a statement are taken as values of the column types
      (a NEW row is the row after the casts). *)

From Stdlib Require Import ZArith QArith Qround Qabs Lia Bool Ascii String.
From stdpp Require Import base option list gmap strings relations.

Open Scope Z_scope.

(** ** Identifiers, time, errors *)

Abbreviation uuid := N.
Abbreviation timestamptz := Z.

Inductive sql_error :=
  | unique_violation
  | not_null_violation
  | check_violation
  | foreign_key_violation
  | invalid_text_representation
  | string_data_right_truncation
  | numeric_value_out_of_range
  | insufficient_privilege
  | infinite_recursion              (* 42P17 *)
  | undefined_table.                (* 42P01 *)

Inductive outcome (A : Type) :=
  | Ok (a : A)
  | Err (e : sql_error).
Arguments Ok {A} a.
Arguments Err {A} e.

Definition obind {A B} (x : outcome A) (f : A -> outcome B) : outcome B :=
  match x with
  | Ok a => f a
  | Err e => Err e
  end.

Definition require (b : bool) (e : sql_error) : outcome unit :=
  if b then Ok tt else Err e.

Notation "x <- c ;; k" := (obind c (fun x => k))
  (at level 100, c at next level, right associativity).
Notation "'ensure' b 'else' e ;; k" := (obind (require b e) (fun _ => k))
  (at level 100, b at next level, e at next level, right associativity).

(** ** NUMERIC(p,s) *)

(** The rational denoted by an unscaled integer at scale 2. *)
Definition numeric2 (v : Z) : Q := v # 100.

(** Rounding to [scale] fractional digits, half away from zero; the result
    is the unscaled integer. *)
Definition numeric_round (scale : nat) (x : Q) : Z :=
  let m := inject_Z (10 ^ Z.of_nat scale) in
  if Qle_bool 0 x
  then Qfloor (x * m + (1 # 2))
  else - Qfloor ((- x) * m + (1 # 2)).

(** Assignment of a numeric value to a NUMERIC(precision, scale) column. *)
Definition coerce_numeric (precision scale : nat) (x : Q) : outcome Z :=
  let v := numeric_round scale x in
  ensure (Z.abs v <? 10 ^ Z.of_nat precision) else numeric_value_out_of_range ;;
  Ok v.

(** ** Enumerations *)

Inductive user_type := teacher | student | admin.
Inductive difficulty_level := beginner | intermediate | advanced.
Inductive booking_status := pending | confirmed | completed | cancelled.
Inductive payment_status := pay_pending | pay_completed | pay_failed | pay_refunded.

Global Instance user_type_eq_dec : EqDecision user_type.
Proof. solve_decision. Defined.
Global Instance booking_status_eq_dec : EqDecision booking_status.
Proof. solve_decision. Defined.
Global Instance payment_status_eq_dec : EqDecision payment_status.
Proof. solve_decision. Defined.

(** The two schema revisions: [Rev000] is src/unnamed/part_000, [Rev001] is
    src/unnamed/part_001. *)
Inductive revision := Rev000 | Rev001.

(** ** Rows *)

(** profiles; the key of the map is the column id. The columns avatar_url,
    phone, bio, experience_years and hourly_rate are written by no statement
    of the schema and are left out. *)
Record profile := {
  email : string;
  full_name : string;
  p_user_type : user_type;
  is_verified : bool;
  rating : Z;                       (* DECIMAL(3,2), hundredths *)
  total_students : Z;
  total_lessons : Z;
  p_created_at : timestamptz;
  p_updated_at : timestamptz
}.

Record lesson := {
  l_teacher_id : uuid;
  l_subject_id : uuid;
  title : string;
  description : string;
  duration_minutes : Z;
  price : Z;                        (* DECIMAL(10,2), hundredths *)
  max_students : Z;
  l_difficulty_level : option difficulty_level;
  is_active : bool;
  l_created_at : timestamptz;
  l_updated_at : timestamptz
}.

Record booking := {
  b_lesson_id : uuid;
  b_student_id : uuid;
  b_teacher_id : uuid;
  scheduled_at : timestamptz;
  status : booking_status;
  meeting_link : option string;
  notes : option string;
  b_created_at : timestamptz;
  b_updated_at : timestamptz
}.

Record transaction := {
  t_booking_id : uuid;
  t_student_id : uuid;
  t_teacher_id : uuid;
  total_amount : Z;                 (* DECIMAL(10,2), hundredths *)
  platform_commission : Z;
  teacher_amount : Z;
  t_payment_status : payment_status;
  payment_method : option string;
  transaction_ref : option string;
  t_created_at : timestamptz
}.

Record review := {
  r_id : uuid;
  r_booking_id : uuid;
  r_student_id : uuid;
  r_teacher_id : uuid;
  r_rating : Z;                     (* INTEGER *)
  comment : option string;
  r_created_at : timestamptz
}.

Record subject := {
  s_name : string;
  s_description : option string;
  icon_name : option string;
  s_created_at : timestamptz
}.

(** lesson_materials, a table of part_000 only. *)
Record lesson_material := {
  m_lesson_id : uuid;
  m_title : string;
  file_url : option string;
  file_type : option string;
  m_created_at : timestamptz
}.

Record db := {
  profiles : gmap N profile;
  subjects : gmap N subject;
  lessons : gmap N lesson;
  bookings : gmap N booking;
  transactions : gmap N transaction;
  reviews : list review;
  lesson_materials : gmap N lesson_material
}.

Definition empty_db : db :=
  {| profiles := ∅; subjects := ∅; lessons := ∅; bookings := ∅;
     transactions := ∅; reviews := []; lesson_materials := ∅ |}.

(** ** handle_updated_at *)

(** Rows that carry the column updated_at. *)
Class UpdatedAt (row : Type) := with_updated_at : row -> timestamptz -> row.

Global Instance profile_updated_at : UpdatedAt profile := fun p now =>
  {| email := email p; full_name := full_name p; p_user_type := p_user_type p;
     is_verified := is_verified p; rating := rating p;
     total_students := total_students p; total_lessons := total_lessons p;
     p_created_at := p_created_at p; p_updated_at := now |}.

Global Instance lesson_updated_at : UpdatedAt lesson := fun l now =>
  {| l_teacher_id := l_teacher_id l; l_subject_id := l_subject_id l;
     title := title l; description := description l;
     duration_minutes := duration_minutes l; price := price l;
     max_students := max_students l;
     l_difficulty_level := l_difficulty_level l; is_active := is_active l;
     l_created_at := l_created_at l; l_updated_at := now |}.

Global Instance booking_updated_at : UpdatedAt booking := fun b now =>
  {| b_lesson_id := b_lesson_id b; b_student_id := b_student_id b;
     b_teacher_id := b_teacher_id b; scheduled_at := scheduled_at b;
     status := status b; meeting_link := meeting_link b; notes := notes b;
     b_created_at := b_created_at b; b_updated_at := now |}.

(** part_001 lines 296-302: [NEW.updated_at = timezone('utc', now())], the
    function of the BEFORE UPDATE triggers on profiles, lessons and bookings
    (lines 305-312). part_000 has neither the function nor the triggers. *)
Definition handle_updated_at {row} `{UpdatedAt row} (NEW : row)
  (now : timestamptz) : row :=
  with_updated_at NEW now.

Definition before_update {row} `{UpdatedAt row} (rev : revision) (NEW : row)
  (now : timestamptz) : row :=
  match rev with
  | Rev000 => NEW
  | Rev001 => handle_updated_at NEW now
  end.

(** ** Callers *)

(** [table_owner] is the role that owns the tables (it runs the migration
    and the SECURITY DEFINER function); row security does not apply to it.
    [authenticated u] and [anon] are the roles of the GRANT statements. *)
Inductive caller :=
  | table_owner
  | anon
  | authenticated (u : uuid).

(** auth.uid() *)
Definition auth_uid (c : caller) : option uuid :=
  match c with
  | authenticated u => Some u
  | _ => None
  end.

Definition rls_exempt (c : caller) : bool :=
  match c with
  | table_owner => true
  | _ => false
  end.

(** [x = auth.uid()]; a comparison with NULL does not pass a policy. *)
Definition is_uid (c : caller) (x : uuid) : bool :=
  match auth_uid c with
  | Some u => bool_decide (x = u)
  | None => false
  end.

(** ** Row security: how the policies of a statement are expanded *)

Inductive table :=
  | t_profiles | t_subjects | t_lessons | t_bookings | t_transactions
  | t_reviews | t_lesson_materials.

Inductive command := Select | Insert | Update | Delete.

Global Instance table_eq_dec : EqDecision table.
Proof. solve_decision. Defined.

(** The tables read by the sub-selects of the policies a revision declares
    ON [t] for the command [cmd]; a FOR ALL policy counts for every command.
    part_000: "Only admins can manage subjects" (l.179-181) and "System can
    manage transactions" (l.200-202) are FOR ALL and read profiles; the INSERT
    policy on reviews (l.206-209) reads bookings; "Teachers can manage
    materials for own lessons" (l.213-215) is FOR ALL and reads lessons.
    part_001: the admin policies on profiles (l.161-167 FOR SELECT, l.169-175
    FOR UPDATE), on subjects (l.180-186 FOR INSERT, l.188-194 FOR UPDATE), on
    lessons (l.209-215), bookings (l.233-239) and transactions (l.251-257),
    all three FOR SELECT, read profiles; the INSERT policy on reviews
    (l.262-269) reads bookings. No other policy has a sub-select. *)
Definition policy_reads (rev : revision) (t : table) (cmd : command)
  : list table :=
  match rev, t, cmd with
  | Rev000, t_subjects, _ => [t_profiles]
  | Rev000, t_transactions, _ => [t_profiles]
  | Rev000, t_reviews, Insert => [t_bookings]
  | Rev000, t_lesson_materials, _ => [t_lessons]
  | Rev001, t_profiles, Select => [t_profiles]
  | Rev001, t_profiles, Update => [t_profiles]
  | Rev001, t_subjects, Insert => [t_profiles]
  | Rev001, t_subjects, Update => [t_profiles]
  | Rev001, t_lessons, Select => [t_profiles]
  | Rev001, t_bookings, Select => [t_profiles]
  | Rev001, t_transactions, Select => [t_profiles]
  | Rev001, t_reviews, Insert => [t_bookings]
  | _, _, _ => []
  end.

(** The policies a statement is rewritten with: those of its command and,
    for an UPDATE or DELETE with a WHERE clause, which reads the rows it
    changes, the SELECT policies as well. An INSERT without RETURNING has
    the INSERT policies only. *)
Definition applied_reads (rev : revision) (t : table) (cmd : command)
  : list table :=
  policy_reads rev t cmd ++
  match cmd with
  | Update | Delete => policy_reads rev t Select
  | Select | Insert => []
  end.

(** The rewriter expands the policies of [t], then the SELECT policies of
    every table their sub-selects read, and so on. [active] lists the tables
    whose policies are being expanded; coming back to one of them is the
    error. The result is [true] when the expansion ends without it. No chain
    is longer than the number of tables, which [fuel] bounds. *)
Fixpoint expands (fuel : nat) (rev : revision) (active : list table)
  (t : table) (cmd : command) : bool :=
  match fuel with
  | O => false
  | S n =>
      negb (bool_decide (t ∈ active)) &&
      forallb (fun t' => expands n rev (t :: active) t' Select)
              (applied_reads rev t cmd)
  end.

(** Whether the statement [cmd] on [t] of the caller [c] is rewritten
    without error; a statement for which this fails raises 42P17. Row
    security is not applied to the owner of the tables. *)
Definition policies_expand (rev : revision) (c : caller) (t : table)
  (cmd : command) : bool :=
  rls_exempt c || expands 8 rev [] t cmd.

(** The statements of part_001 whose policies lead to profiles, and from
    there to profiles again: every SELECT, UPDATE and DELETE on profiles,
    lessons, bookings and transactions, INSERT and UPDATE on subjects, and
    INSERT on reviews. Read off the policies; [policies_expand] is compared
    with it below. *)
Definition reaches_profiles (t : table) (cmd : command) : Prop :=
  ((t = t_profiles \/ t = t_lessons \/ t = t_bookings \/ t = t_transactions) /\
   cmd <> Insert) \/
  (t = t_subjects /\ (cmd = Insert \/ cmd = Update)) \/
  (t = t_reviews /\ cmd = Insert).

(** The value, on the stored rows, of
    [EXISTS (SELECT 1 FROM profiles WHERE id = auth.uid() AND user_type = 'admin')].
    The sub-select is a query on profiles with the caller's rights: a
    statement evaluates it only after its policies were expanded without
    error ([policies_expand]), which in part_001 is never the case for a
    policy that contains it. In part_000 the SELECT policy on profiles is
    USING (true), so the sub-select finds the caller's row when it is stored. *)
Definition is_admin (c : caller) (d : db) : bool :=
  match auth_uid c with
  | Some u =>
      match profiles d !! u with
      | Some p => bool_decide (p_user_type p = admin)
      | None => false
      end
  | None => false
  end.

(** ** transactions *)

(** The NEW row of [transactions] as a BEFORE trigger sees it: the values of
    the statement, already cast to the column types (a supplied amount is a
    NUMERIC(10,2) value, below 10^8 in absolute value). The statement may
    leave the two derived columns out (NULL); the NOT NULL constraints are
    checked after the trigger. *)
Record new_transaction := {
  n_booking_id : uuid;
  n_student_id : uuid;
  n_teacher_id : uuid;
  n_total_amount : Z;
  n_platform_commission : option Z;
  n_teacher_amount : option Z;
  n_payment_status : payment_status;
  n_payment_method : option string;
  n_transaction_ref : option string;
  n_created_at : timestamptz
}.

Definition set_amounts (NEW : new_transaction) (c t : Z) : new_transaction :=
  {| n_booking_id := n_booking_id NEW;
     n_student_id := n_student_id NEW;
     n_teacher_id := n_teacher_id NEW;
     n_total_amount := n_total_amount NEW;
     n_platform_commission := Some c;
     n_teacher_amount := Some t;
     n_payment_status := n_payment_status NEW;
     n_payment_method := n_payment_method NEW;
     n_transaction_ref := n_transaction_ref NEW;
     n_created_at := n_created_at NEW |}.

(** part_001, lines 315-322:
      NEW.platform_commission = NEW.total_amount * 0.10;
      NEW.teacher_amount = NEW.total_amount - NEW.platform_commission;
    Each assignment casts the value to the column type NUMERIC(10,2). *)
Definition calculate_transaction_amounts (NEW : new_transaction)
  : outcome new_transaction :=
  c <- coerce_numeric 10 2 (numeric2 (n_total_amount NEW) * (10 # 100)) ;;
  t <- coerce_numeric 10 2 (numeric2 (n_total_amount NEW) - numeric2 c) ;;
  Ok (set_amounts NEW c t).

(** part_001, lines 325-327: BEFORE INSERT OR UPDATE ON transactions FOR EACH
    ROW. part_000 declares no trigger on transactions. *)
Definition transactions_before_row (rev : revision) (NEW : new_transaction)
  : outcome new_transaction :=
  match rev with
  | Rev001 => calculate_transaction_amounts NEW
  | Rev000 => Ok NEW
  end.

(** platform_commission and teacher_amount are NOT NULL. *)
Definition transactions_not_null (NEW : new_transaction) : outcome transaction :=
  match n_platform_commission NEW, n_teacher_amount NEW with
  | Some c, Some t =>
      Ok {| t_booking_id := n_booking_id NEW;
            t_student_id := n_student_id NEW;
            t_teacher_id := n_teacher_id NEW;
            total_amount := n_total_amount NEW;
            platform_commission := c;
            teacher_amount := t;
            t_payment_status := n_payment_status NEW;
            payment_method := n_payment_method NEW;
            transaction_ref := n_transaction_ref NEW;
            t_created_at := n_created_at NEW |}
  | _, _ => Err not_null_violation
  end.

Definition as_new (old : transaction) : new_transaction :=
  {| n_booking_id := t_booking_id old;
     n_student_id := t_student_id old;
     n_teacher_id := t_teacher_id old;
     n_total_amount := total_amount old;
     n_platform_commission := Some (platform_commission old);
     n_teacher_amount := Some (teacher_amount old);
     n_payment_status := t_payment_status old;
     n_payment_method := payment_method old;
     n_transaction_ref := transaction_ref old;
     n_created_at := t_created_at old |}.

(** The policies below are the expressions a statement applies to a row
    once it has been rewritten without error; each statement asks
    [policies_expand] first.

    SELECT policies.
    part_000: "Users can view own transactions", and the FOR ALL policy
    "System can manage transactions".
    part_001: "Students can view their transactions", "Teachers can view their
    transactions", "Admins can view all transactions". *)
Definition transactions_select (rev : revision) (c : caller) (d : db)
  (t : transaction) : bool :=
  rls_exempt c ||
  match rev with
  | Rev000 => (is_uid c (t_student_id t) || is_uid c (t_teacher_id t)) || is_admin c d
  | Rev001 => is_uid c (t_student_id t) || is_uid c (t_teacher_id t) || is_admin c d
  end.

(** INSERT policies (WITH CHECK).
    part_000: "System can manage transactions" FOR ALL USING (admin).
    part_001: "System can insert transactions" FOR INSERT WITH CHECK (true). *)
Definition transactions_insert_check (rev : revision) (c : caller) (d : db) : bool :=
  rls_exempt c ||
  match rev with
  | Rev000 => is_admin c d
  | Rev001 => true
  end.

(** UPDATE and DELETE policies: the FOR ALL policy of part_000; part_001
    declares none, so no row is visible to such a statement. *)
Definition transactions_modify (rev : revision) (c : caller) (d : db) : bool :=
  rls_exempt c ||
  match rev with
  | Rev000 => is_admin c d
  | Rev001 => false
  end.

Definition with_transactions (d : db) (ts : gmap N transaction) : db :=
  {| profiles := profiles d; subjects := subjects d; lessons := lessons d;
     bookings := bookings d; transactions := ts; reviews := reviews d;
     lesson_materials := lesson_materials d |}.

Definition has_key {A} (m : gmap N A) (k : N) : bool :=
  match m !! k with Some _ => true | None => false end.

(** booking_id, student_id and teacher_id are foreign keys. *)
Definition transactions_fk (d : db) (t : transaction) : bool :=
  has_key (bookings d) (t_booking_id t) &&
  has_key (profiles d) (t_student_id t) &&
  has_key (profiles d) (t_teacher_id t).

(** INSERT INTO transactions, one row, with primary key [id]. *)
Definition insert_transaction (rev : revision) (c : caller) (d : db)
  (id : uuid) (NEW : new_transaction) : outcome db :=
  ensure (policies_expand rev c t_transactions Insert) else infinite_recursion ;;
  NEW' <- transactions_before_row rev NEW ;;
  ensure (transactions_insert_check rev c d) else insufficient_privilege ;;
  row <- transactions_not_null NEW' ;;
  ensure (negb (has_key (transactions d) id)) else unique_violation ;;
  ensure (transactions_fk d row) else foreign_key_violation ;;
  Ok (with_transactions d (<[id := row]> (transactions d))).

(** UPDATE transactions SET ... WHERE id = [id]; [set] is the SET clause.
    A row the caller's policies hide is not updated and no error is raised. *)
Definition update_transaction (rev : revision) (c : caller) (d : db)
  (id : uuid) (set : new_transaction -> new_transaction) : outcome db :=
  ensure (policies_expand rev c t_transactions Update) else infinite_recursion ;;
  match transactions d !! id with
  | None => Ok d
  | Some old =>
      if transactions_modify rev c d && transactions_select rev c d old
      then
        NEW' <- transactions_before_row rev (set (as_new old)) ;;
        row <- transactions_not_null NEW' ;;
        ensure (transactions_fk d row) else foreign_key_violation ;;
        Ok (with_transactions d (<[id := row]> (transactions d)))
      else Ok d
  end.

(** DELETE FROM transactions WHERE id = [id]. *)
Definition delete_transaction (rev : revision) (c : caller) (d : db)
  (id : uuid) : outcome db :=
  ensure (policies_expand rev c t_transactions Delete) else infinite_recursion ;;
  match transactions d !! id with
  | None => Ok d
  | Some old =>
      if transactions_modify rev c d && transactions_select rev c d old
      then Ok (with_transactions d (delete id (transactions d)))
      else Ok d
  end.


(** ** profiles *)

(** The row of auth.users a new identity arrives with; the two metadata
    fields are [raw_user_meta_data->>'full_name'] and
    [raw_user_meta_data->>'user_type'], NULL when the key is missing. *)
Record auth_user := {
  au_id : uuid;
  au_email : option string;
  raw_full_name : option string;
  raw_user_type : option string
}.

Definition COALESCE {A} (x : option A) (y : A) : A :=
  match x with Some a => a | None => y end.

(** Input of the enum [user_type] (part_001), and membership in the CHECK
    list of part_000. *)
Definition cast_user_type (s : string) : option user_type :=
  if String.eqb s "teacher" then Some teacher
  else if String.eqb s "student" then Some student
  else if String.eqb s "admin" then Some admin
  else None.

Fixpoint all_spaces (s : string) : bool :=
  match s with
  | EmptyString => true
  | String a s' => Ascii.eqb a " "%char && all_spaces s'
  end.

(** A string is the sequence of the bytes of its UTF-8 encoding; VARCHAR(n)
    counts characters. A byte 10xxxxxx continues the character before it. *)
Definition continuation (a : ascii) : bool :=
  (128 <=? nat_of_ascii a)%nat && (nat_of_ascii a <? 192)%nat.

Fixpoint char_length (s : string) : nat :=
  match s with
  | EmptyString => O
  | String a s' => ((if continuation a then 0 else 1) + char_length s')%nat
  end.

(** The first [n] characters of a string, and what follows them. *)
Fixpoint chars_prefix (n : nat) (s : string) : string :=
  match s with
  | EmptyString => EmptyString
  | String a s' =>
      if continuation a then String a (chars_prefix n s')
      else match n with
           | O => EmptyString
           | S n' => String a (chars_prefix n' s')
           end
  end.

Fixpoint chars_suffix (n : nat) (s : string) : string :=
  match s with
  | EmptyString => EmptyString
  | String a s' =>
      if continuation a then chars_suffix n s'
      else match n with
           | O => s
           | S n' => chars_suffix n' s'
           end
  end.

(** Assignment to a VARCHAR(n) column: a value of more than n characters is
    an error unless the excess is spaces, which are cut off. *)
Definition varchar (n : nat) (s : string) : outcome string :=
  if (char_length s <=? n)%nat then Ok s
  else if all_spaces (chars_suffix n s)
       then Ok (chars_prefix n s)
       else Err string_data_right_truncation.

Definition not_null {A} (x : option A) : outcome A :=
  match x with Some a => Ok a | None => Err not_null_violation end.

Definition default_full_name (rev : revision) : string :=
  match rev with
  | Rev000 => "User"
  | Rev001 => "مستخدم جديد"
  end.

(** The column values of the row [handle_new_user] inserts, after the casts
    and the NOT NULL and CHECK constraints of the revision. *)
Definition new_profile (rev : revision) (NEW : auth_user) (now : timestamptz)
  : outcome profile :=
  let name := COALESCE (raw_full_name NEW) (default_full_name rev) in
  let ut := COALESCE (raw_user_type NEW) "student" in
  let row e n u :=
    {| email := e; full_name := n; p_user_type := u; is_verified := false;
       rating := 0; total_students := 0; total_lessons := 0;
       p_created_at := now; p_updated_at := now |} in
  match rev with
  | Rev000 =>
      e <- match au_email NEW with
           | Some e => e' <- varchar 255 e ;; Ok (Some e')
           | None => Ok None
           end ;;
      n <- varchar 100 name ;;
      u <- varchar 20 ut ;;
      e <- not_null e ;;
      match cast_user_type u with
      | Some u => Ok (row e n u)
      | None => Err check_violation
      end
  | Rev001 =>
      match cast_user_type ut with
      | Some u => e <- not_null (au_email NEW) ;; Ok (row e name u)
      | None => Err invalid_text_representation
      end
  end.

(** part_001 declares [email TEXT UNIQUE NOT NULL]; part_000 has no unique
    constraint on email. [except] is the row being updated, if any. *)
Definition email_taken (rev : revision) (d : db) (except : option uuid)
  (e : string) : bool :=
  match rev with
  | Rev000 => false
  | Rev001 =>
      existsb (fun kp => negb (bool_decide (Some kp.1 = except)) &&
                         String.eqb (email kp.2) e)
              (map_to_list (profiles d))
  end.

Definition with_profiles (d : db) (ps : gmap N profile) : db :=
  {| profiles := ps; subjects := subjects d; lessons := lessons d;
     bookings := bookings d; transactions := transactions d;
     reviews := reviews d; lesson_materials := lesson_materials d |}.

(** part_000 lines 146-158, part_001 lines 275-287: SECURITY DEFINER, so the
    INSERT runs as the owner of the function and no policy is consulted. *)
Definition handle_new_user (rev : revision) (d : db) (NEW : auth_user)
  (now : timestamptz) : outcome db :=
  row <- new_profile rev NEW now ;;
  ensure (negb (has_key (profiles d) (au_id NEW))) else unique_violation ;;
  ensure (negb (email_taken rev d None (email row))) else unique_violation ;;
  Ok (with_profiles d (<[au_id NEW := row]> (profiles d))).

(** SELECT policies on profiles.
    part_000: "Users can view all profiles" USING (true).
    part_001: verified teachers, the caller's own row, everything for admins. *)
Definition profiles_select (rev : revision) (c : caller) (d : db)
  (id : uuid) (p : profile) : bool :=
  rls_exempt c ||
  match rev with
  | Rev000 => true
  | Rev001 =>
      (bool_decide (p_user_type p = teacher) && is_verified p)
      || is_uid c id || is_admin c d
  end.

(** UPDATE policies on profiles.
    part_000: "Users can update own profile".
    part_001: "Users can update their own profile", "Admins can update all
    profiles". *)
Definition profiles_update (rev : revision) (c : caller) (d : db)
  (id : uuid) : bool :=
  rls_exempt c ||
  match rev with
  | Rev000 => is_uid c id
  | Rev001 => is_uid c id || is_admin c d
  end.

(** The column types re-checked when a row of profiles is written. *)
Definition profiles_columns (rev : revision) (p : profile) : outcome profile :=
  ensure (Z.abs (rating p) <? 10 ^ 3) else numeric_value_out_of_range ;;
  match rev with
  | Rev000 =>
      ensure ((char_length (email p) <=? 255)%nat &&
              (char_length (full_name p) <=? 100)%nat)
        else string_data_right_truncation ;;
      Ok p
  | Rev001 => Ok p
  end.

(** UPDATE profiles SET ... WHERE id = [id]. [set] computes the SET clause
    from the old row and may raise. A row hidden from the caller by the
    UPDATE or SELECT policies is not updated and no error is raised. The
    unique index on email is consulted when the email changes. *)
Definition update_profile (rev : revision) (c : caller) (d : db) (id : uuid)
  (set : profile -> outcome profile) (now : timestamptz) : outcome db :=
  ensure (policies_expand rev c t_profiles Update) else infinite_recursion ;;
  match profiles d !! id with
  | None => Ok d
  | Some old =>
      if profiles_update rev c d id && profiles_select rev c d id old
      then
        NEW <- set old ;;
        NEW <- profiles_columns rev (before_update rev NEW now) ;;
        ensure (String.eqb (email NEW) (email old) ||
                negb (email_taken rev d (Some id) (email NEW)))
          else unique_violation ;;
        Ok (with_profiles d (<[id := NEW]> (profiles d)))
      else Ok d
  end.

(** ** lessons *)

(** SELECT policies on lessons.
    part_000: "Anyone can view active lessons", and the FOR ALL policy
    "Teachers can manage own lessons".
    part_001: "Anyone can view active lessons", "Teachers can view their own
    lessons", "Admins can view all lessons". *)
Definition lessons_select (rev : revision) (c : caller) (d : db)
  (l : lesson) : bool :=
  rls_exempt c ||
  match rev with
  | Rev000 => is_active l || is_uid c (l_teacher_id l)
  | Rev001 => is_active l || is_uid c (l_teacher_id l) || is_admin c d
  end.

(** INSERT and UPDATE policies on lessons: [teacher_id = auth.uid()] in both
    revisions. *)
Definition lessons_write (c : caller) (l : lesson) : bool :=
  rls_exempt c || is_uid c (l_teacher_id l).

(** SELECT * FROM lessons: the rows the caller sees. *)
Definition select_lessons (rev : revision) (c : caller) (d : db)
  : outcome (gmap N lesson) :=
  ensure (policies_expand rev c t_lessons Select) else infinite_recursion ;;
  Ok (filter (fun kl => lessons_select rev c d kl.2 = true) (lessons d)).

(** HomePage.fetchStats, Header.tsx line 241:
    [supabase.from('lessons').select('id').eq('is_active', true)]. *)
Definition fetchStats_lessons (rev : revision) (c : caller) (d : db)
  : outcome (gmap N lesson) :=
  ensure (policies_expand rev c t_lessons Select) else infinite_recursion ;;
  Ok (filter (fun kl => is_active kl.2 = true)
        (filter (fun kl => lessons_select rev c d kl.2 = true) (lessons d))).

Definition with_lessons (d : db) (ls : gmap N lesson) : db :=
  {| profiles := profiles d; subjects := subjects d; lessons := ls;
     bookings := bookings d; transactions := transactions d;
     reviews := reviews d; lesson_materials := lesson_materials d |}.

(** teacher_id and subject_id are foreign keys. *)
Definition lessons_fk (d : db) (l : lesson) : bool :=
  has_key (profiles d) (l_teacher_id l) && has_key (subjects d) (l_subject_id l).

(** INSERT INTO lessons, one row, with primary key [id]. *)
Definition insert_lesson (rev : revision) (c : caller) (d : db) (id : uuid)
  (NEW : lesson) : outcome db :=
  ensure (policies_expand rev c t_lessons Insert) else infinite_recursion ;;
  ensure (lessons_write c NEW) else insufficient_privilege ;;
  ensure (negb (has_key (lessons d) id)) else unique_violation ;;
  ensure (lessons_fk d NEW) else foreign_key_violation ;;
  Ok (with_lessons d (<[id := NEW]> (lessons d))).

(** UPDATE lessons SET ... WHERE id = [id]; handle_updated_at runs before
    the row is written in part_001. *)
Definition update_lesson (rev : revision) (c : caller) (d : db) (id : uuid)
  (set : lesson -> lesson) (now : timestamptz) : outcome db :=
  ensure (policies_expand rev c t_lessons Update) else infinite_recursion ;;
  match lessons d !! id with
  | None => Ok d
  | Some old =>
      if lessons_write c old && lessons_select rev c d old
      then
        let NEW := before_update rev (set old) now in
        ensure (lessons_write c NEW) else insufficient_privilege ;;
        ensure (lessons_fk d NEW) else foreign_key_violation ;;
        Ok (with_lessons d (<[id := NEW]> (lessons d)))
      else Ok d
  end.

(** ** bookings *)

(** The values an INSERT INTO bookings supplies; [bv_status] is NULL when the
    statement leaves the column to its DEFAULT 'pending'. *)
Record booking_values := {
  bv_lesson_id : uuid;
  bv_student_id : uuid;
  bv_teacher_id : uuid;
  bv_scheduled_at : timestamptz;
  bv_status : option booking_status;
  bv_meeting_link : option string;
  bv_notes : option string
}.

Definition new_booking (v : booking_values) (now : timestamptz) : booking :=
  {| b_lesson_id := bv_lesson_id v;
     b_student_id := bv_student_id v;
     b_teacher_id := bv_teacher_id v;
     scheduled_at := bv_scheduled_at v;
     status := COALESCE (bv_status v) pending;
     meeting_link := bv_meeting_link v;
     notes := bv_notes v;
     b_created_at := now;
     b_updated_at := now |}.

(** SELECT policies on bookings: the student, the teacher, and in part_001
    also admins. *)
Definition bookings_select (rev : revision) (c : caller) (d : db)
  (b : booking) : bool :=
  rls_exempt c ||
  match rev with
  | Rev000 => is_uid c (b_student_id b) || is_uid c (b_teacher_id b)
  | Rev001 => is_uid c (b_student_id b) || is_uid c (b_teacher_id b) || is_admin c d
  end.

(** INSERT policy on bookings, both revisions:
    WITH CHECK (student_id = auth.uid()). *)
Definition bookings_insert_check (c : caller) (b : booking) : bool :=
  rls_exempt c || is_uid c (b_student_id b).

(** UPDATE policies on bookings, both revisions: the student or the teacher. *)
Definition bookings_update (c : caller) (b : booking) : bool :=
  rls_exempt c || is_uid c (b_student_id b) || is_uid c (b_teacher_id b).

Definition bookings_fk (d : db) (b : booking) : bool :=
  has_key (lessons d) (b_lesson_id b) &&
  has_key (profiles d) (b_student_id b) &&
  has_key (profiles d) (b_teacher_id b).

Definition with_bookings (d : db) (bs : gmap N booking) : db :=
  {| profiles := profiles d; subjects := subjects d; lessons := lessons d;
     bookings := bs; transactions := transactions d; reviews := reviews d;
     lesson_materials := lesson_materials d |}.

(** INSERT INTO bookings, one row, with primary key [id]. *)
Definition insert_booking (rev : revision) (c : caller) (d : db) (id : uuid)
  (v : booking_values) (now : timestamptz) : outcome db :=
  let NEW := new_booking v now in
  ensure (policies_expand rev c t_bookings Insert) else infinite_recursion ;;
  ensure (bookings_insert_check c NEW) else insufficient_privilege ;;
  ensure (negb (has_key (bookings d) id)) else unique_violation ;;
  ensure (bookings_fk d NEW) else foreign_key_violation ;;
  Ok (with_bookings d (<[id := NEW]> (bookings d))).

Definition set_status (b : booking) (s : booking_status) : booking :=
  {| b_lesson_id := b_lesson_id b; b_student_id := b_student_id b;
     b_teacher_id := b_teacher_id b; scheduled_at := scheduled_at b;
     status := s; meeting_link := meeting_link b; notes := notes b;
     b_created_at := b_created_at b; b_updated_at := b_updated_at b |}.

(** UPDATE bookings SET status = [s] WHERE id = [id]; handle_updated_at runs
    before the row is written in part_001. *)
Definition update_booking_status (rev : revision) (c : caller) (d : db)
  (id : uuid) (s : booking_status) (now : timestamptz) : outcome db :=
  ensure (policies_expand rev c t_bookings Update) else infinite_recursion ;;
  match bookings d !! id with
  | None => Ok d
  | Some old =>
      if bookings_update c old && bookings_select rev c d old
      then
        let NEW := before_update rev (set_status old s) now in
        Ok (with_bookings d (<[id := NEW]> (bookings d)))
      else Ok d
  end.

(** ** reviews *)

(** [SELECT ... FROM reviews WHERE teacher_id = tid], the ratings only.
    "Anyone can view reviews" USING (true): every row is visible to every
    caller. *)
Definition teacher_ratings (d : db) (tid : uuid) : list Z :=
  map r_rating (filter (fun r => r_teacher_id r = tid) (reviews d)).

Definition sum_Z (xs : list Z) : Z := foldr Z.add 0 xs.

(** AVG over numeric values: NULL for no rows, else the quotient, taken
    here as the exact rational (PostgreSQL carries it to at least 16
    significant digits). *)
Definition AVG (xs : list Z) : option Q :=
  match xs with
  | [] => None
  | _ => Some (inject_Z (sum_Z xs) / inject_Z (Z.of_nat (length xs)))%Q
  end.

Definition set_rating (p : profile) (r : Z) (now : timestamptz) : profile :=
  {| email := email p; full_name := full_name p; p_user_type := p_user_type p;
     is_verified := is_verified p; rating := r;
     total_students := total_students p; total_lessons := total_lessons p;
     p_created_at := p_created_at p; p_updated_at := now |}.

(** [SELECT COALESCE(AVG(rating::decimal), 0) FROM reviews WHERE teacher_id =
    tid], assigned to the column rating DECIMAL(3,2). *)
Definition rating_of_reviews (d : db) (tid : uuid) : outcome Z :=
  coerce_numeric 3 2 (COALESCE (AVG (teacher_ratings d tid)) 0%Q).

(** The statement both branches of update_teacher_stats run:
      UPDATE profiles SET rating = (SELECT COALESCE(AVG(rating::decimal), 0)
                                    FROM reviews WHERE teacher_id = NEW.teacher_id),
                          updated_at = timezone('utc', now())
      WHERE id = NEW.teacher_id;
    The function is declared without SECURITY DEFINER (handle_new_user has
    it), so this UPDATE is a statement of the caller who wrote the review:
    it is rewritten with the policies on profiles, and an error it raises
    fails the write of the review. *)
Definition update_teacher_rating (c : caller) (d : db) (NEW : review)
  (now : timestamptz) : outcome db :=
  update_profile Rev001 c d (r_teacher_id NEW)
    (fun p => r <- rating_of_reviews d (r_teacher_id NEW) ;; Ok (set_rating p r now))
    now.

Inductive tg_op := INSERT | UPDATE | DELETE.

(** part_001 lines 330-363. *)
Definition update_teacher_stats (TG_OP : tg_op) (c : caller) (d : db)
  (NEW : review) (now : timestamptz) : outcome db :=
  match TG_OP with
  | INSERT => update_teacher_rating c d NEW now
  | UPDATE => update_teacher_rating c d NEW now
  | DELETE => Ok d
  end.

(** part_001 lines 366-368: AFTER INSERT OR UPDATE ON reviews FOR EACH ROW.
    part_000 declares no trigger on reviews. *)
Definition reviews_after_row (rev : revision) (TG_OP : tg_op) (c : caller)
  (d : db) (NEW : review) (now : timestamptz) : outcome db :=
  match rev with
  | Rev000 => Ok d
  | Rev001 => update_teacher_stats TG_OP c d NEW now
  end.

(** INSERT policies on reviews (WITH CHECK).
    part_000, "Students can create reviews for completed bookings":
      student_id = auth.uid() AND
      EXISTS (SELECT 1 FROM bookings WHERE id = booking_id AND status = 'completed')
    part_001, "Students can insert reviews for their bookings":
      student_id = auth.uid() AND
      EXISTS (SELECT 1 FROM bookings
              WHERE id = booking_id AND student_id = auth.uid() AND status = 'completed')
    In the sub-select [id], [student_id] and [status] are columns of bookings
    and [booking_id] is the column of the new review; the sub-select sees the
    bookings the caller may view. *)
Definition reviews_insert_check (rev : revision) (c : caller) (d : db)
  (NEW : review) : bool :=
  rls_exempt c ||
  is_uid c (r_student_id NEW) &&
  match bookings d !! r_booking_id NEW with
  | Some b =>
      bookings_select rev c d b &&
      match rev with
      | Rev000 => bool_decide (status b = completed)
      | Rev001 => is_uid c (b_student_id b) && bool_decide (status b = completed)
      end
  | None => false
  end.

(** UPDATE policy on reviews. part_001: "Students can update their own
    reviews" USING (student_id = auth.uid()); part_000 declares none. *)
Definition reviews_update (rev : revision) (c : caller) (r : review) : bool :=
  rls_exempt c ||
  match rev with
  | Rev000 => false
  | Rev001 => is_uid c (r_student_id r)
  end.

(** CHECK (rating >= 1 AND rating <= 5) *)
Definition reviews_check (r : review) : bool :=
  (1 <=? r_rating r) && (r_rating r <=? 5).

Definition reviews_fk (d : db) (r : review) : bool :=
  has_key (bookings d) (r_booking_id r) &&
  has_key (profiles d) (r_student_id r) &&
  has_key (profiles d) (r_teacher_id r).

Definition has_review (d : db) (id : uuid) : bool :=
  existsb (fun r => bool_decide (r_id r = id)) (reviews d).

Definition with_reviews (d : db) (rs : list review) : db :=
  {| profiles := profiles d; subjects := subjects d; lessons := lessons d;
     bookings := bookings d; transactions := transactions d; reviews := rs;
     lesson_materials := lesson_materials d |}.

Definition with_subjects (d : db) (ss : gmap N subject) : db :=
  {| profiles := profiles d; subjects := ss; lessons := lessons d;
     bookings := bookings d; transactions := transactions d;
     reviews := reviews d; lesson_materials := lesson_materials d |}.

Definition with_lesson_materials (d : db) (ms : gmap N lesson_material) : db :=
  {| profiles := profiles d; subjects := subjects d; lessons := lessons d;
     bookings := bookings d; transactions := transactions d;
     reviews := reviews d; lesson_materials := ms |}.

(** INSERT INTO reviews, one row. *)
Definition insert_review (rev : revision) (c : caller) (d : db) (NEW : review)
  (now : timestamptz) : outcome db :=
  ensure (policies_expand rev c t_reviews Insert) else infinite_recursion ;;
  ensure (reviews_insert_check rev c d NEW) else insufficient_privilege ;;
  ensure (reviews_check NEW) else check_violation ;;
  ensure (negb (has_review d (r_id NEW))) else unique_violation ;;
  ensure (reviews_fk d NEW) else foreign_key_violation ;;
  reviews_after_row rev INSERT c (with_reviews d (reviews d ++ [NEW])) NEW now.

Definition with_r_id (r : review) (id : uuid) : review :=
  {| r_id := id; r_booking_id := r_booking_id r; r_student_id := r_student_id r;
     r_teacher_id := r_teacher_id r; r_rating := r_rating r;
     comment := comment r; r_created_at := r_created_at r |}.

Definition replace_review (id : uuid) (NEW : review) (rs : list review)
  : list review :=
  map (fun r => if bool_decide (r_id r = id) then NEW else r) rs.

Definition find_review (d : db) (id : uuid) : option review :=
  List.find (fun r => bool_decide (r_id r = id)) (reviews d).

(** UPDATE reviews SET ... WHERE id = [id]; [set] is the SET clause, which
    does not assign the primary key. *)
Definition update_review (rev : revision) (c : caller) (d : db) (id : uuid)
  (set : review -> review) (now : timestamptz) : outcome db :=
  ensure (policies_expand rev c t_reviews Update) else infinite_recursion ;;
  match find_review d id with
  | None => Ok d
  | Some old =>
      if reviews_update rev c old
      then
        let NEW := with_r_id (set old) id in
        ensure (reviews_update rev c NEW) else insufficient_privilege ;;
        ensure (reviews_check NEW) else check_violation ;;
        ensure (reviews_fk d NEW) else foreign_key_violation ;;
        reviews_after_row rev UPDATE c
          (with_reviews d (replace_review id NEW (reviews d))) NEW now
      else Ok d
  end.

(** ** Reads of bookings and profiles *)

(** SELECT * FROM bookings: the rows the caller sees. *)
Definition select_bookings (rev : revision) (c : caller) (d : db)
  : outcome (gmap N booking) :=
  ensure (policies_expand rev c t_bookings Select) else infinite_recursion ;;
  Ok (filter (fun kb => bookings_select rev c d kb.2 = true) (bookings d)).

(** SELECT * FROM profiles: the rows the caller sees. *)
Definition select_profiles (rev : revision) (c : caller) (d : db)
  : outcome (gmap N profile) :=
  ensure (policies_expand rev c t_profiles Select) else infinite_recursion ;;
  Ok (filter (fun kp => profiles_select rev c d kp.1 kp.2 = true) (profiles d)).

(** ** subjects *)

(** The functions of this section work on the table alone; [execute] puts
    the table they return into the store. *)
(** The column types of subjects: part_000 has name VARCHAR(100) and
    icon_name VARCHAR(50), part_001 has TEXT. *)
Definition subjects_columns (rev : revision) (NEW : subject) : outcome subject :=
  match rev with
  | Rev000 =>
      n <- varchar 100 (s_name NEW) ;;
      i <- match icon_name NEW with
           | Some i => i' <- varchar 50 i ;; Ok (Some i')
           | None => Ok None
           end ;;
      Ok {| s_name := n; s_description := s_description NEW; icon_name := i;
            s_created_at := s_created_at NEW |}
  | Rev001 => Ok NEW
  end.

(** INSERT, UPDATE (and in part_000 DELETE) policies on subjects: admins
    only. part_000: "Only admins can manage subjects" FOR ALL; part_001:
    "Admins can insert subjects", "Admins can update subjects", which no
    statement of a caller under row security gets to apply. *)
Definition subjects_write (c : caller) (d : db) : bool :=
  rls_exempt c || is_admin c d.

(** part_000 declares name UNIQUE; part_001 does not. *)
Definition subject_name_taken (rev : revision) (ss : gmap N subject)
  (except : option uuid) (n : string) : bool :=
  match rev with
  | Rev000 =>
      existsb (fun ks => negb (bool_decide (Some ks.1 = except)) &&
                         String.eqb (s_name ks.2) n)
              (map_to_list ss)
  | Rev001 => false
  end.

(** INSERT INTO subjects, one row, with primary key [id]. *)
Definition insert_subject (rev : revision) (c : caller) (d : db)
  (ss : gmap N subject) (id : uuid) (NEW : subject) : outcome (gmap N subject) :=
  ensure (policies_expand rev c t_subjects Insert) else infinite_recursion ;;
  row <- subjects_columns rev NEW ;;
  ensure (subjects_write c d) else insufficient_privilege ;;
  ensure (negb (has_key ss id)) else unique_violation ;;
  ensure (negb (subject_name_taken rev ss None (s_name row))) else unique_violation ;;
  Ok (<[id := row]> ss).

(** UPDATE subjects SET ... WHERE id = [id]. "Anyone can view subjects"
    USING (true), so only the UPDATE policy filters the row. *)
Definition update_subject (rev : revision) (c : caller) (d : db)
  (ss : gmap N subject) (id : uuid) (set : subject -> subject)
  : outcome (gmap N subject) :=
  ensure (policies_expand rev c t_subjects Update) else infinite_recursion ;;
  match ss !! id with
  | None => Ok ss
  | Some old =>
      if subjects_write c d
      then
        row <- subjects_columns rev (set old) ;;
        ensure (negb (subject_name_taken rev ss (Some id) (s_name row)))
          else unique_violation ;;
        Ok (<[id := row]> ss)
      else Ok ss
  end.

(** SELECT * FROM subjects: "Anyone can view subjects" USING (true). *)
Definition select_subjects (rev : revision) (c : caller) (ss : gmap N subject)
  : outcome (gmap N subject) :=
  ensure (policies_expand rev c t_subjects Select) else infinite_recursion ;;
  Ok (filter (fun _ => True) ss).

(** name VARCHAR(100) NOT NULL UNIQUE of part_000, as a property of the
    table. *)
Definition names_unique (ss : gmap N subject) : Prop :=
  forall i j s t, ss !! i = Some s -> ss !! j = Some t ->
                  s_name s = s_name t -> i = j.

(** ** lesson_materials (part_000 only) *)

(** part_000 lines 213-215, "Teachers can manage materials for own lessons":
      EXISTS (SELECT 1 FROM lessons WHERE id = lesson_id AND teacher_id = auth.uid())
    The sub-select sees the lessons the caller may view. *)
Definition lesson_materials_write (c : caller) (d : db) (m : lesson_material)
  : bool :=
  rls_exempt c ||
  match lessons d !! m_lesson_id m with
  | Some l => lessons_select Rev000 c d l && is_uid c (l_teacher_id l)
  | None => false
  end.

(** title VARCHAR(200), file_type VARCHAR(50). *)
Definition lesson_materials_columns (NEW : lesson_material)
  : outcome lesson_material :=
  t <- varchar 200 (m_title NEW) ;;
  f <- match file_type NEW with
       | Some f => f' <- varchar 50 f ;; Ok (Some f')
       | None => Ok None
       end ;;
  Ok {| m_lesson_id := m_lesson_id NEW; m_title := t; file_url := file_url NEW;
        file_type := f; m_created_at := m_created_at NEW |}.

(** INSERT INTO lesson_materials, one row, with primary key [id]. *)
Definition insert_lesson_material (c : caller) (d : db)
  (ms : gmap N lesson_material) (id : uuid) (NEW : lesson_material)
  : outcome (gmap N lesson_material) :=
  ensure (policies_expand Rev000 c t_lesson_materials Insert) else infinite_recursion ;;
  row <- lesson_materials_columns NEW ;;
  ensure (lesson_materials_write c d row) else insufficient_privilege ;;
  ensure (negb (has_key ms id)) else unique_violation ;;
  ensure (has_key (lessons d) (m_lesson_id row)) else foreign_key_violation ;;
  Ok (<[id := row]> ms).

(** ** DELETE and ON DELETE CASCADE *)

Definition nobody (k : uuid) : bool := false.
Definition only (id k : uuid) : bool := bool_decide (k = id).

(** Every foreign key of both revisions is declared ON DELETE CASCADE:
    lessons refer to profiles (teacher_id) and subjects, bookings to lessons
    and profiles (student_id, teacher_id), transactions and reviews to
    bookings and profiles, lesson_materials to lessons. [gone_p], [gone_s],
    [gone_l] and [gone_b] say which profiles, subjects, lessons and bookings
    a DELETE removes; every row that refers to a removed row goes with it,
    and so on down the references. The policies are not applied to these
    deletions, and no trigger of the schema fires on DELETE. *)
Section Cascade.
Variables gone_p gone_s gone_l gone_b : uuid -> bool.
Variable d : db.

Definition lesson_goes (k : uuid) (l : lesson) : bool :=
  gone_l k || gone_p (l_teacher_id l) || gone_s (l_subject_id l).

Definition lesson_gone (k : uuid) : bool :=
  match lessons d !! k with
  | Some l => lesson_goes k l
  | None => false
  end.

Definition booking_goes (k : uuid) (b : booking) : bool :=
  gone_b k || lesson_gone (b_lesson_id b) ||
  gone_p (b_student_id b) || gone_p (b_teacher_id b).

Definition booking_gone (k : uuid) : bool :=
  match bookings d !! k with
  | Some b => booking_goes k b
  | None => false
  end.

Definition cascade : db :=
  {| profiles := filter (fun kp => gone_p kp.1 = false) (profiles d);
     subjects := filter (fun ks => gone_s ks.1 = false) (subjects d);
     lessons := filter (fun kl => lesson_goes kl.1 kl.2 = false) (lessons d);
     bookings := filter (fun kb => booking_goes kb.1 kb.2 = false) (bookings d);
     transactions :=
       filter (fun kt => booking_gone (t_booking_id kt.2) ||
                         gone_p (t_student_id kt.2) ||
                         gone_p (t_teacher_id kt.2) = false)
              (transactions d);
     reviews :=
       filter (fun r => booking_gone (r_booking_id r) ||
                        gone_p (r_student_id r) ||
                        gone_p (r_teacher_id r) = false)
              (reviews d);
     lesson_materials :=
       filter (fun km => lesson_gone (m_lesson_id km.2) = false)
              (lesson_materials d) |}.
End Cascade.

(** DELETE FROM profiles WHERE id = [id]. Neither revision declares a DELETE
    policy on profiles, so under row security no row is visible to the
    statement. For the owner of the tables it also stands for the deletion of
    the identity, which profiles.id follows ON DELETE CASCADE. *)
Definition delete_profile (rev : revision) (c : caller) (d : db) (id : uuid)
  : outcome db :=
  ensure (policies_expand rev c t_profiles Delete) else infinite_recursion ;;
  match profiles d !! id with
  | None => Ok d
  | Some old =>
      if rls_exempt c
      then Ok (cascade (only id) nobody nobody nobody d)
      else Ok d
  end.

(** DELETE policies on subjects: the FOR ALL policy of part_000; part_001
    declares none. *)
Definition subjects_delete (rev : revision) (c : caller) (d : db) : bool :=
  rls_exempt c ||
  match rev with
  | Rev000 => is_admin c d
  | Rev001 => false
  end.

Definition delete_subject (rev : revision) (c : caller) (d : db) (id : uuid)
  : outcome db :=
  ensure (policies_expand rev c t_subjects Delete) else infinite_recursion ;;
  match subjects d !! id with
  | None => Ok d
  | Some old =>
      if subjects_delete rev c d
      then Ok (cascade nobody (only id) nobody nobody d)
      else Ok d
  end.

(** DELETE policies on lessons: "Teachers can manage own lessons" FOR ALL of
    part_000; part_001 declares none. *)
Definition lessons_delete (rev : revision) (c : caller) (l : lesson) : bool :=
  rls_exempt c ||
  match rev with
  | Rev000 => is_uid c (l_teacher_id l)
  | Rev001 => false
  end.

Definition delete_lesson (rev : revision) (c : caller) (d : db) (id : uuid)
  : outcome db :=
  ensure (policies_expand rev c t_lessons Delete) else infinite_recursion ;;
  match lessons d !! id with
  | None => Ok d
  | Some old =>
      if lessons_delete rev c old && lessons_select rev c d old
      then Ok (cascade nobody nobody (only id) nobody d)
      else Ok d
  end.

(** Neither revision declares a DELETE policy on bookings or on reviews. *)
Definition delete_booking (rev : revision) (c : caller) (d : db) (id : uuid)
  : outcome db :=
  ensure (policies_expand rev c t_bookings Delete) else infinite_recursion ;;
  match bookings d !! id with
  | None => Ok d
  | Some old =>
      if rls_exempt c
      then Ok (cascade nobody nobody nobody (only id) d)
      else Ok d
  end.

(** DELETE FROM reviews WHERE id = [id]; update_teacher_stats is a trigger
    AFTER INSERT OR UPDATE and does not run. *)
Definition delete_review (rev : revision) (c : caller) (d : db) (id : uuid)
  : outcome db :=
  ensure (policies_expand rev c t_reviews Delete) else infinite_recursion ;;
  if rls_exempt c
  then Ok (with_reviews d (filter (fun r => r_id r <> id) (reviews d)))
  else Ok d.

(** DELETE FROM lesson_materials WHERE id = [id], under the FOR ALL policy. *)
Definition delete_lesson_material (c : caller) (d : db) (id : uuid)
  : outcome db :=
  ensure (policies_expand Rev000 c t_lesson_materials Delete) else infinite_recursion ;;
  match lesson_materials d !! id with
  | None => Ok d
  | Some old =>
      if lesson_materials_write c d old
      then Ok (with_lesson_materials d (delete id (lesson_materials d)))
      else Ok d
  end.

(** ** Statements as data *)

(** One statement of a client or one new-identity event, with the caller and
    the clock reading it runs at. An UPDATE of bookings is the one that sets
    the status, and lesson_materials are inserted and deleted. *)
Inductive statement :=
  | NewUser (NEW : auth_user)
  | UpdateProfile (id : uuid) (set : profile -> outcome profile)
  | InsertLesson (id : uuid) (NEW : lesson)
  | UpdateLesson (id : uuid) (set : lesson -> lesson)
  | InsertBooking (id : uuid) (v : booking_values)
  | UpdateBookingStatus (id : uuid) (s : booking_status)
  | InsertTransaction (id : uuid) (NEW : new_transaction)
  | UpdateTransaction (id : uuid) (set : new_transaction -> new_transaction)
  | DeleteTransaction (id : uuid)
  | InsertReview (NEW : review)
  | UpdateReview (id : uuid) (set : review -> review)
  | InsertSubject (id : uuid) (NEW : subject)
  | UpdateSubject (id : uuid) (set : subject -> subject)
  | InsertLessonMaterial (id : uuid) (NEW : lesson_material)
  | DeleteProfile (id : uuid)
  | DeleteSubject (id : uuid)
  | DeleteLesson (id : uuid)
  | DeleteBooking (id : uuid)
  | DeleteReview (id : uuid)
  | DeleteLessonMaterial (id : uuid).

Definition execute (rev : revision) (c : caller) (now : timestamptz) (d : db)
  (s : statement) : outcome db :=
  match s with
  | NewUser NEW => handle_new_user rev d NEW now
  | UpdateProfile id set => update_profile rev c d id set now
  | InsertLesson id NEW => insert_lesson rev c d id NEW
  | UpdateLesson id set => update_lesson rev c d id set now
  | InsertBooking id v => insert_booking rev c d id v now
  | UpdateBookingStatus id s => update_booking_status rev c d id s now
  | InsertTransaction id NEW => insert_transaction rev c d id NEW
  | UpdateTransaction id set => update_transaction rev c d id set
  | DeleteTransaction id => delete_transaction rev c d id
  | InsertReview NEW => insert_review rev c d NEW now
  | UpdateReview id set => update_review rev c d id set now
  | InsertSubject id NEW =>
      ss <- insert_subject rev c d (subjects d) id NEW ;;
      Ok (with_subjects d ss)
  | UpdateSubject id set =>
      ss <- update_subject rev c d (subjects d) id set ;;
      Ok (with_subjects d ss)
  | InsertLessonMaterial id NEW =>
      match rev with
      | Rev000 =>
          ms <- insert_lesson_material c d (lesson_materials d) id NEW ;;
          Ok (with_lesson_materials d ms)
      | Rev001 => Err undefined_table
      end
  | DeleteProfile id => delete_profile rev c d id
  | DeleteSubject id => delete_subject rev c d id
  | DeleteLesson id => delete_lesson rev c d id
  | DeleteBooking id => delete_booking rev c d id
  | DeleteReview id => delete_review rev c d id
  | DeleteLessonMaterial id =>
      match rev with
      | Rev000 => delete_lesson_material c d id
      | Rev001 => Err undefined_table
      end
  end.

(** A statement that raises is rolled back: the store stays as it was. *)
Definition commit (rev : revision) (c : caller) (now : timestamptz) (d : db)
  (s : statement) : db :=
  match execute rev c now d s with
  | Ok d' => d'
  | Err _ => d
  end.

(** A history: statements with their callers and clock readings, in order. *)
Fixpoint run (rev : revision) (d : db)
  (h : list (caller * timestamptz * statement)) : db :=
  match h with
  | [] => d
  | (c, now, s) :: h' => run rev (commit rev c now d s) h'
  end.

(** A statement that writes the row [id] of transactions with the NEW row
    [NEW]: an INSERT, or an UPDATE of a row the caller may modify, whose NEW
    row is the old row with the SET clause applied. *)
Inductive transaction_write (rev : revision) (c : caller) (d : db) (id : uuid)
  : new_transaction -> db -> Prop :=
  | write_insert NEW d' :
      insert_transaction rev c d id NEW = Ok d' ->
      transaction_write rev c d id NEW d'
  | write_update old set d' :
      transactions d !! id = Some old ->
      transactions_modify rev c d && transactions_select rev c d old = true ->
      update_transaction rev c d id set = Ok d' ->
      transaction_write rev c d id (set (as_new old)) d'.

(** The NEW row with other values supplied for the two derived columns. *)
Definition supply (NEW : new_transaction) (c t : option Z) : new_transaction :=
  {| n_booking_id := n_booking_id NEW;
     n_student_id := n_student_id NEW;
     n_teacher_id := n_teacher_id NEW;
     n_total_amount := n_total_amount NEW;
     n_platform_commission := c;
     n_teacher_amount := t;
     n_payment_status := n_payment_status NEW;
     n_payment_method := n_payment_method NEW;
     n_transaction_ref := n_transaction_ref NEW;
     n_created_at := n_created_at NEW |}.

(** A supplied amount is a value of the column type NUMERIC(10,2), or NULL. *)
Definition numeric_10_2 (v : option Z) : Prop :=
  forall x, v = Some x -> Z.abs x < 10 ^ 10.

(** A statement that writes a row of reviews with the NEW row [NEW] at clock
    reading [now]: an INSERT, or an UPDATE of a row the caller may update. *)
Inductive review_write (rev : revision) (c : caller) (now : timestamptz)
  (d : db) : review -> db -> Prop :=
  | review_insert NEW d' :
      insert_review rev c d NEW now = Ok d' ->
      review_write rev c now d NEW d'
  | review_update id old set d' :
      find_review d id = Some old ->
      reviews_update rev c old = true ->
      update_review rev c d id set now = Ok d' ->
      review_write rev c now d (with_r_id (set old) id) d'.

(** Every stored rating passed CHECK (rating >= 1 AND rating <= 5). *)
Definition reviews_checked (d : db) : Prop :=
  Forall (fun r => reviews_check r = true) (reviews d).

(** Every profile's rating lies between 0.00 and 5.00. *)
Definition ratings_in_range (d : db) : Prop :=
  forall id p, profiles d !! id = Some p -> 0 <= rating p <= 500.

(** A statement that does not assign the column rating of profiles itself:
    every statement but an UPDATE of profiles whose SET clause changes it. *)
Definition keeps_rating (s : statement) : Prop :=
  match s with
  | UpdateProfile _ set => forall p p', set p = Ok p' -> rating p' = rating p
  | _ => True
  end.

(** ** A worked store *)

(** The scenario of the specification, a little larger: the subject 100,
    teacher 1, students 2 and 4, an admin 3 who also books lessons, lesson 10
    (active, price 100.00) and lesson 11 (inactive) of teacher 1, and the
    completed bookings 20, 21 and 22 of lesson 10 by users 2, 3 and 4. *)
Definition mathematics : subject :=
  {| s_name := "Mathematics"; s_description := None;
     icon_name := Some "Calculator"; s_created_at := 0 |}.

Definition user (id : uuid) (mail : string) (ut : string) : auth_user :=
  {| au_id := id; au_email := Some mail; raw_full_name := None;
     raw_user_type := Some ut |}.

Definition lesson_of (tid : uuid) (active : bool) : lesson :=
  {| l_teacher_id := tid; l_subject_id := 100%N; title := "Algebra";
     description := "Linear equations"; duration_minutes := 60; price := 10000;
     max_students := 1; l_difficulty_level := Some beginner;
     is_active := active; l_created_at := 0; l_updated_at := 0 |}.

Definition booking_of (lid sid tid : uuid) : booking_values :=
  {| bv_lesson_id := lid; bv_student_id := sid; bv_teacher_id := tid;
     bv_scheduled_at := 50; bv_status := None; bv_meeting_link := None;
     bv_notes := None |}.

Definition scenario : list (caller * timestamptz * statement) :=
  [ (table_owner, 0, InsertSubject 100 mathematics);
    (table_owner, 1, NewUser (user 1 "t1@example.org" "teacher"));
    (table_owner, 2, NewUser (user 2 "s1@example.org" "student"));
    (table_owner, 3, NewUser (user 3 "a1@example.org" "admin"));
    (table_owner, 3, NewUser (user 4 "s2@example.org" "student"));
    (authenticated 1, 4, InsertLesson 10 (lesson_of 1 true));
    (authenticated 1, 5, InsertLesson 11 (lesson_of 1 false));
    (authenticated 2, 6, InsertBooking 20 (booking_of 10 2 1));
    (authenticated 3, 7, InsertBooking 21 (booking_of 10 3 1));
    (authenticated 4, 7, InsertBooking 22 (booking_of 10 4 1));
    (table_owner, 8, UpdateBookingStatus 20 completed);
    (table_owner, 9, UpdateBookingStatus 21 completed);
    (table_owner, 9, UpdateBookingStatus 22 completed) ].

Definition scenario_db (rev : revision) : db := run rev empty_db scenario.

Definition payment (bid sid tid : uuid) (total : Z) (c t : option Z)
  : new_transaction :=
  {| n_booking_id := bid; n_student_id := sid; n_teacher_id := tid;
     n_total_amount := total; n_platform_commission := c;
     n_teacher_amount := t; n_payment_status := pay_pending;
     n_payment_method := Some "card"; n_transaction_ref := None;
     n_created_at := 10 |}.

Definition review_of (id bid sid tid : uuid) (r : Z) : review :=
  {| r_id := id; r_booking_id := bid; r_student_id := sid;
     r_teacher_id := tid; r_rating := r; comment := None; r_created_at := 11 |}.

(** Reviews of teacher 1 for the bookings 20, 21 and 22 with the ratings 1,
    1 and 2; the first two as statements of the owner of the tables. *)
Definition two_reviews : list (caller * timestamptz * statement) :=
  [ (table_owner, 12, InsertReview (review_of 40 20 2 1 1));
    (table_owner, 13, InsertReview (review_of 41 21 3 1 1)) ].

Definition third_review : review := review_of 42 22 4 1 2.

(** The worked store with the three reviews of teacher 1. *)
Definition full_history : list (caller * timestamptz * statement) :=
  scenario ++ two_reviews ++ [(table_owner, 14, InsertReview third_review)].

(** SET clauses used below: [SET is_active = b] on lessons and
    [SET user_type = ut] on profiles. *)
Definition with_is_active (l : lesson) (b : bool) : lesson :=
  {| l_teacher_id := l_teacher_id l; l_subject_id := l_subject_id l;
     title := title l; description := description l;
     duration_minutes := duration_minutes l; price := price l;
     max_students := max_students l;
     l_difficulty_level := l_difficulty_level l; is_active := b;
     l_created_at := l_created_at l; l_updated_at := l_updated_at l |}.

Definition with_user_type (p : profile) (ut : user_type) : profile :=
  {| email := email p; full_name := full_name p; p_user_type := ut;
     is_verified := is_verified p; rating := rating p;
     total_students := total_students p; total_lessons := total_lessons p;
     p_created_at := p_created_at p; p_updated_at := p_updated_at p |}.

(** ** HomePage: the queries of the landing page *)

(** HomePage.fetchSubjects, Header.tsx lines 208-219:
    from('subjects').select('*').limit(8), in no stated order; on an error
    the list shown stays the empty one of useState. *)
Definition fetchSubjects (rev : revision) (c : caller) (ss : gmap N subject)
  : list (N * subject) :=
  match select_subjects rev c ss with
  | Ok data => take 8 (map_to_list data)
  | Err _ => []
  end.

Record stats := {
  totalTeachers : nat;
  totalStudents : nat;
  totalLessons : nat;
  totalSubjects : nat
}.

(** [res.data?.length || 0]: a query that failed has no data. *)
Definition data_length {A} (res : outcome (gmap N A)) : nat :=
  match res with
  | Ok data => size data
  | Err _ => O
  end.

(** from('profiles').select('id').eq('user_type', ut) *)
Definition profiles_of_type (rev : revision) (c : caller) (d : db)
  (ut : user_type) : outcome (gmap N profile) :=
  data <- select_profiles rev c d ;;
  Ok (filter (fun kp => p_user_type kp.2 = ut) data).

(** HomePage.fetchStats, Header.tsx lines 237-251. *)
Definition fetchStats (rev : revision) (c : caller) (d : db)
  (ss : gmap N subject) : stats :=
  {| totalTeachers := data_length (profiles_of_type rev c d teacher);
     totalStudents := data_length (profiles_of_type rev c d student);
     totalLessons := data_length (fetchStats_lessons rev c d);
     totalSubjects := data_length (select_subjects rev c ss) |}.

(** ** RegisterForm.handleSubmit *)

Section RegisterForm.
(** The two numeric fields hold JavaScript numbers. *)
Context {number : Type}.

Record formData := {
  fd_email : string;
  fd_password : string;
  fd_confirmPassword : string;
  fd_full_name : string;
  fd_phone : string;
  fd_user_type : string;
  fd_bio : string;
  fd_experience_years : number;
  fd_hourly_rate : number
}.

(** [const { confirmPassword, ...userData } = formData]: every field but
    confirmPassword. *)
Record userData := {
  ud_email : string;
  ud_password : string;
  ud_full_name : string;
  ud_phone : string;
  ud_user_type : string;
  ud_bio : string;
  ud_experience_years : number;
  ud_hourly_rate : number
}.

Definition rest_of (fd : formData) : userData :=
  {| ud_email := fd_email fd; ud_password := fd_password fd;
     ud_full_name := fd_full_name fd; ud_phone := fd_phone fd;
     ud_user_type := fd_user_type fd; ud_bio := fd_bio fd;
     ud_experience_years := fd_experience_years fd;
     ud_hourly_rate := fd_hourly_rate fd |}.

(** What the handler does to the outside, in order. *)
Inductive effect :=
  | preventDefault
  | setLoading (b : bool)
  | alert (msg : string)
  | signUp (email password : string) (u : userData)
  | navigate (path : string)
  | console_error.

(** part_002 lines 32-53. [signUp] comes from AuthContext, which is not
    part of the sources read here; [resolves] says whether the awaited call
    returns or throws. *)
Definition handleSubmit (fd : formData) (resolves : bool) : list effect :=
  [preventDefault; setLoading true] ++
  if negb (String.eqb (fd_password fd) (fd_confirmPassword fd))
  then [alert "كلمات المرور غير متطابقة"; setLoading false]
  else
    [signUp (fd_email fd) (fd_password fd) (rest_of fd)] ++
    (if resolves then [navigate "/"] else [console_error]) ++
    [setLoading false].
End RegisterForm.

(** ** Integrity of the store *)

(** Every foreign key of the store resolves. *)
Definition foreign_keys_hold (d : db) : Prop :=
  (forall id l, lessons d !! id = Some l -> lessons_fk d l = true) /\
  (forall id b, bookings d !! id = Some b -> bookings_fk d b = true) /\
  (forall id t, transactions d !! id = Some t -> transactions_fk d t = true) /\
  Forall (fun r => reviews_fk d r = true) (reviews d) /\
  (forall id m, lesson_materials d !! id = Some m ->
                has_key (lessons d) (m_lesson_id m) = true).

(** The primary key of reviews. *)
Definition review_keys_unique (d : db) : Prop := NoDup (map r_id (reviews d)).

(** The two derived columns of a transaction, as the trigger computes them. *)
Definition amounts_derived (t : transaction) : Prop :=
  platform_commission t = numeric_round 2 (numeric2 (total_amount t) * (10 # 100)) /\
  teacher_amount t = total_amount t - platform_commission t.

(** What a committed statement does to the store, step by step: one row
    written or deleted (a review write is followed by the profile update of
    its trigger), or a deletion with its cascade. *)
Inductive change (d : db) : db -> Prop :=
  | change_profile k p :
      change d (with_profiles d (<[k := p]> (profiles d)))
  | change_lesson k l :
      lessons_fk d l = true ->
      change d (with_lessons d (<[k := l]> (lessons d)))
  | change_booking k b :
      bookings_fk d b = true ->
      change d (with_bookings d (<[k := b]> (bookings d)))
  | change_transaction k t :
      transactions_fk d t = true ->
      change d (with_transactions d (<[k := t]> (transactions d)))
  | change_transaction_delete k :
      change d (with_transactions d (delete k (transactions d)))
  | change_review_add NEW :
      reviews_fk d NEW = true -> reviews_check NEW = true ->
      has_review d (r_id NEW) = false ->
      change d (with_reviews d (reviews d ++ [NEW]))
  | change_review_replace NEW :
      reviews_fk d NEW = true -> reviews_check NEW = true ->
      change d (with_reviews d (replace_review (r_id NEW) NEW (reviews d)))
  | change_review_delete id :
      change d (with_reviews d (filter (fun r => r_id r <> id) (reviews d)))
  | change_subject k s :
      change d (with_subjects d (<[k := s]> (subjects d)))
  | change_material k m :
      has_key (lessons d) (m_lesson_id m) = true ->
      change d (with_lesson_materials d (<[k := m]> (lesson_materials d)))
  | change_material_delete k :
      change d (with_lesson_materials d (delete k (lesson_materials d)))
  | change_cascade gone_p gone_s gone_l gone_b :
      change d (cascade gone_p gone_s gone_l gone_b d).

(** The three integrity properties together. *)
Definition store_ok (d : db) : Prop :=
  foreign_keys_hold d /\ reviews_checked d /\ review_keys_unique d.

(** No key of profiles, subjects, lessons or bookings goes away. *)
Definition grows (d d' : db) : Prop :=
  (forall k, is_Some (profiles d !! k) -> is_Some (profiles d' !! k)) /\
  (forall k, is_Some (subjects d !! k) -> is_Some (subjects d' !! k)) /\
  (forall k, is_Some (lessons d !! k) -> is_Some (lessons d' !! k)) /\
  (forall k, is_Some (bookings d !! k) -> is_Some (bookings d' !! k)).

(** * Properties *)

(** ** The error monad *)

Lemma obind_Ok {A B} (x : outcome A) (f : A -> outcome B) b :
  obind x f = Ok b -> exists a, x = Ok a /\ f a = Ok b.
Proof. destruct x as [a|e]; simpl; [eauto | discriminate]. Qed.

Lemma require_Ok b e : require b e = Ok tt <-> b = true.
Proof. destruct b; simpl; split; congruence. Qed.

Lemma ensure_Ok {B} b e (k : outcome B) r :
  obind (require b e) (fun _ => k) = Ok r -> b = true /\ k = Ok r.
Proof. destruct b; simpl; [auto | discriminate]. Qed.

Ltac invert_ok :=
  repeat match goal with
  | H : obind (require _ _) _ = Ok _ |- _ => apply ensure_Ok in H as [? H]
  | H : obind _ _ = Ok _ |- _ => apply obind_Ok in H as (? & ? & H)
  | H : Ok _ = Ok _ |- _ => injection H as <-
  | H : Err _ = Ok _ |- _ => discriminate H
  end.

(** Inversion of a statement that returned: every check passed, and every
    case distinction of the statement is made. *)
Ltac step_inv H :=
  repeat first
    [ apply ensure_Ok in H as [? H]
    | apply obind_Ok in H as (? & ? & H)
    | match type of H with
      | match ?x with _ => _ end = Ok _ => destruct x eqn:?
      | Ok _ = Ok _ => injection H as <-
      | Err _ = Ok _ => discriminate H
      end ].

(** ** The expansion of the policies *)

(** No policy of part_000 leads back to its own table. *)
Lemma policies_expand_part_000 c t cmd : policies_expand Rev000 c t cmd = true.
Proof.
  unfold policies_expand. destruct (rls_exempt c); [reflexivity|].
  destruct t, cmd; reflexivity.
Qed.

Lemma policies_expand_exempt rev c t cmd :
  rls_exempt c = true -> policies_expand rev c t cmd = true.
Proof. intros H. unfold policies_expand. rewrite H. reflexivity. Qed.

(** In part_001 the INSERT policies of lessons, bookings and transactions
    have no sub-select. *)
Lemma policies_expand_insert rev c t :
  t = t_lessons \/ t = t_bookings \/ t = t_transactions ->
  policies_expand rev c t Insert = true.
Proof.
  intros H. unfold policies_expand. destruct (rls_exempt c); [reflexivity|].
  destruct H as [-> | [-> | ->]]; destruct rev; reflexivity.
Qed.

(** The policies on reviews that an UPDATE, a DELETE or a SELECT applies
    have no sub-select either. *)
Lemma policies_expand_reviews rev c cmd :
  cmd <> Insert -> policies_expand rev c t_reviews cmd = true.
Proof.
  intros H. unfold policies_expand. destruct (rls_exempt c); [reflexivity|].
  destruct rev, cmd; try reflexivity; congruence.
Qed.

Lemma policies_expand_part_001 c t cmd :
  rls_exempt c = false ->
  reaches_profiles t cmd -> policies_expand Rev001 c t cmd = false.
Proof.
  intros Hc H. unfold policies_expand. rewrite Hc. simpl orb.
  destruct H as [[Ht Hcmd] | [[-> Hcmd] | [-> ->]]].
  - destruct Ht as [-> | [-> | [-> | ->]]]; destruct cmd; try reflexivity; congruence.
  - destruct Hcmd as [-> | ->]; reflexivity.
  - reflexivity.
Qed.

Global Instance numeric_round_comp scale : Proper (Qeq ==> eq) (numeric_round scale).
Proof.
  intros x y Hxy. unfold numeric_round.
  assert (Hb : Qle_bool 0 x = Qle_bool 0 y).
  { destruct (Qle_bool 0 x) eqn:Hx, (Qle_bool 0 y) eqn:Hy; try reflexivity.
    - apply Qle_bool_iff in Hx. rewrite Hxy in Hx. apply Qle_bool_iff in Hx. congruence.
    - apply Qle_bool_iff in Hy. rewrite <- Hxy in Hy. apply Qle_bool_iff in Hy. congruence. }
  rewrite Hb. destruct (Qle_bool 0 y); rewrite Hxy; reflexivity.
Qed.

Lemma numeric_round2_Qmake n d :
  0 <= n -> numeric_round 2 (n # d) = (200 * n + Zpos d) / (2 * Zpos d).
Proof.
  intros Hn. unfold numeric_round.
  assert (Hle : Qle_bool 0 (n # d) = true).
  { apply Qle_bool_iff. unfold Qle. simpl. lia. }
  rewrite Hle. unfold Qfloor, Qplus, Qmult. simpl Qnum. simpl Qden.
  change (10 ^ Z.of_nat 2) with 100.
  rewrite !Pos2Z.inj_mul. f_equal; lia.
Qed.

Lemma numeric_round2_neg n d :
  n < 0 -> numeric_round 2 (n # d) = - ((200 * (- n) + Zpos d) / (2 * Zpos d)).
Proof.
  intros Hn. unfold numeric_round.
  assert (Hle : Qle_bool 0 (n # d) = false).
  { destruct (Qle_bool 0 (n # d)) eqn:H; [|reflexivity].
    apply Qle_bool_iff in H. unfold Qle in H. simpl in H. lia. }
  rewrite Hle. unfold Qfloor, Qplus, Qmult, Qopp. simpl Qnum. simpl Qden.
  change (10 ^ Z.of_nat 2) with 100.
  rewrite !Pos2Z.inj_mul. f_equal. f_equal; lia.
Qed.

Lemma numeric_round2_exact z : numeric_round 2 (numeric2 z) = z.
Proof.
  unfold numeric2. destruct (Z_lt_le_dec z 0).
  - rewrite numeric_round2_neg by lia.
    change (Z.pos 100) with 100. 
    assert ((200 * - z + 100) / (2 * 100) = - z); [|lia].
    symmetry. apply (Z.div_unique _ _ _ 100); lia.
  - rewrite numeric_round2_Qmake by lia.
    symmetry. apply (Z.div_unique _ _ _ 100); lia.
Qed.

Lemma commission_round t :
  0 <= t -> numeric_round 2 (numeric2 t * (10 # 100)) = (t + 5) / 10.
Proof.
  intros Ht. unfold numeric2, Qmult. simpl Qnum. simpl Qden.
  rewrite numeric_round2_Qmake by lia.
  change (Z.pos (100 * 100)) with 10000.
  replace (200 * (t * 10) + 10000) with ((t + 5) * 2000) by lia.
  change (2 * 10000) with (10 * 2000).
  apply Z.div_mul_cancel_r; lia.
Qed.

Lemma numeric2_sub a b : (numeric2 a - numeric2 b == numeric2 (a - b))%Q.
Proof. unfold numeric2, Qeq, Qminus, Qplus, Qopp. simpl. lia. Qed.

(** ** transactions: the commission trigger *)

Lemma coerce_numeric_Ok precision scale x v :
  numeric_round scale x = v ->
  Z.abs v < 10 ^ Z.of_nat precision ->
  coerce_numeric precision scale x = Ok v.
Proof.
  intros Hv Hlt. unfold coerce_numeric. rewrite Hv.
  apply Z.ltb_lt in Hlt. rewrite Hlt. reflexivity.
Qed.

Lemma calculate_transaction_amounts_ok NEW :
  0 <= n_total_amount NEW < 10 ^ 10 ->
  calculate_transaction_amounts NEW =
    Ok (set_amounts NEW ((n_total_amount NEW + 5) / 10)
          (n_total_amount NEW - (n_total_amount NEW + 5) / 10)).
Proof.
  intros Ht. unfold calculate_transaction_amounts.
  set (t := n_total_amount NEW) in *.
  assert (Hc : 0 <= (t + 5) / 10 <= t).
  { split; [apply Z.div_pos; lia|].
    destruct (Z.eq_dec t 0) as [->|]; [reflexivity|].
    apply Z.div_le_upper_bound; lia. }
  rewrite (coerce_numeric_Ok 10 2 _ ((t + 5) / 10));
    [|apply commission_round; lia | change (Z.of_nat 10) with 10; lia].
  simpl obind.
  rewrite (coerce_numeric_Ok 10 2 _ (t - (t + 5) / 10));
    [reflexivity | | change (Z.of_nat 10) with 10; lia].
  rewrite numeric2_sub. apply numeric_round2_exact.
Qed.

Lemma transaction_write_row rev c d id NEW d' :
  transaction_write rev c d id NEW d' ->
  exists NEW' row,
    transactions_before_row rev NEW = Ok NEW' /\
    transactions_not_null NEW' = Ok row /\
    transactions d' !! id = Some row.
Proof.
  intros [NEW0 d0 H | old set d0 Hold Hvis H].
  - unfold insert_transaction in H. invert_ok.
    eexists. eexists. simpl. rewrite lookup_insert_eq. eauto.
  - unfold update_transaction in H. apply ensure_Ok in H as [_ H].
    rewrite Hold, Hvis in H. invert_ok.
    eexists. eexists. simpl. rewrite lookup_insert_eq. eauto.
Qed.

(** C1. In part_001, for a total amount t >= 0 (hundredths, within
    NUMERIC(10,2)) the trigger does not raise, and every INSERT into
    transactions and every UPDATE that writes a row stores the commission
    round(t * 0.10) (rounded to the two decimals of the column, i.e.
    (t + 5) / 10 in hundredths, at most half a hundredth away from a tenth of
    the total) and the teacher amount t - commission, so that the two add up
    to the total exactly. *)
Theorem commission_split_on_every_write (NEW : new_transaction) :
  0 <= n_total_amount NEW < 10 ^ 10 ->
  (exists c t, calculate_transaction_amounts NEW = Ok (set_amounts NEW c t)) /\
  forall (c : caller) (d d' : db) (id : uuid),
    transaction_write Rev001 c d id NEW d' ->
    exists row,
      transactions d' !! id = Some row /\
      total_amount row = n_total_amount NEW /\
      platform_commission row =
        numeric_round 2 (numeric2 (total_amount row) * (10 # 100)) /\
      platform_commission row = (total_amount row + 5) / 10 /\
      (Qabs (numeric2 (platform_commission row)
             - numeric2 (total_amount row) * (10 # 100)) <= 1 # 200)%Q /\
      teacher_amount row = total_amount row - platform_commission row /\
      platform_commission row + teacher_amount row = total_amount row.
Proof.
  intros Ht. split.
  { eexists. eexists. apply calculate_transaction_amounts_ok. exact Ht. }
  intros c d d' id Hw.
  destruct (transaction_write_row _ _ _ _ _ _ Hw) as (NEW' & row & HN & Hrow & Hlk).
  simpl in HN. rewrite calculate_transaction_amounts_ok in HN by exact Ht.
  injection HN as <-. simpl in Hrow. injection Hrow as <-.
  eexists. split; [exact Hlk|]. simpl.
  set (t := n_total_amount NEW) in *.
  split; [reflexivity|].
  split; [symmetry; apply commission_round; lia|].
  split; [reflexivity|].
  split; [|lia].
  unfold Qle. simpl. Z.div_mod_to_equations. lia.
Qed.

(** An INSERT by the student of booking 20: total 100.00, with 0.01 and 0.02
    supplied for the derived columns. *)
Lemma commission_split_on_every_write_witness :
  exists row,
    transactions
      (commit Rev001 (authenticated 2) 10 (scenario_db Rev001)
         (InsertTransaction 30 (payment 20 2 1 10000 (Some 1) (Some 2)))) !! 30%N
      = Some row /\
    total_amount row = 10000 /\
    platform_commission row = numeric_round 2 (numeric2 (total_amount row) * (10 # 100)) /\
    platform_commission row = (total_amount row + 5) / 10 /\
    (Qabs (numeric2 (platform_commission row)
           - numeric2 (total_amount row) * (10 # 100)) <= 1 # 200)%Q /\
    teacher_amount row = total_amount row - platform_commission row /\
    platform_commission row + teacher_amount row = total_amount row.
Proof.
  apply (proj2 (commission_split_on_every_write
                  (payment 20 2 1 10000 (Some 1) (Some 2))
                  ltac:(simpl; lia))
           (authenticated 2) (scenario_db Rev001) _ 30%N).
  apply write_insert. vm_compute. reflexivity.
Defined.

(** The scenario of the specification: total 100.00 gives commission 10.00
    and teacher amount 90.00; an UPDATE by the table owner to 100.05 gives
    10.01 and 90.04. *)
Example payment_of_100 :
  (fun d => (platform_commission <$> transactions d !! 30%N,
             teacher_amount <$> transactions d !! 30%N))
    (run Rev001 (scenario_db Rev001)
       [(authenticated 2, 10, InsertTransaction 30 (payment 20 2 1 10000 None None))])
  = (Some 1000, Some 9000) /\
  (fun d => (platform_commission <$> transactions d !! 30%N,
             teacher_amount <$> transactions d !! 30%N))
    (run Rev001 (scenario_db Rev001)
       [(authenticated 2, 10, InsertTransaction 30 (payment 20 2 1 10000 None None));
        (table_owner, 11, UpdateTransaction 30
           (fun n => payment 20 2 1 10005 (Some 7) (n_teacher_amount n)))])
  = (Some 1001, Some 9004).
Proof. split; vm_compute; reflexivity. Qed.

Lemma set_amounts_supply NEW pc ta c t :
  set_amounts (supply NEW pc ta) c t = set_amounts NEW c t.
Proof. reflexivity. Qed.

Lemma calculate_transaction_amounts_supply NEW pc ta :
  calculate_transaction_amounts (supply NEW pc ta) =
  calculate_transaction_amounts NEW.
Proof. reflexivity. Qed.

(** C2, the counterexample. part_000 declares the table transactions
    without the trigger: two INSERTs of admin 3 that agree on the total 100.00
    and differ in the supplied commission, 50.00 and 10.00, store different
    commissions. *)
Lemma part_000_stores_the_supplied_commission :
  exists d1 d2 t1 t2,
    insert_transaction Rev000 (authenticated 3) (scenario_db Rev000) 30
      (payment 20 2 1 10000 (Some 5000) (Some 1)) = Ok d1 /\
    insert_transaction Rev000 (authenticated 3) (scenario_db Rev000) 30
      (payment 20 2 1 10000 (Some 1000) (Some 9000)) = Ok d2 /\
    transactions d1 !! 30%N = Some t1 /\ transactions d2 !! 30%N = Some t2 /\
    total_amount t1 = total_amount t2 /\
    platform_commission t1 = 5000 /\ platform_commission t2 = 1000 /\
    teacher_amount t1 = 1 /\ teacher_amount t2 = 9000.
Proof.
  eexists. eexists. eexists. eexists.
  split; [vm_compute; reflexivity|]. split; [vm_compute; reflexivity|].
  split; [vm_compute; reflexivity|]. split; [vm_compute; reflexivity|].
  repeat split.
Qed.

(** C2 as amended. In part_001 the outcome of an INSERT or UPDATE of a
    transaction, i.e. the whole store it leaves or the error it raises, does
    not depend on the values of the column type the caller supplies for
    platform_commission and teacher_amount: two writes that differ only there
    are indistinguishable. In part_000, which has no trigger, an accepted
    INSERT stores the two values as supplied. *)
Theorem supplied_amounts_never_observable (c : caller) (d : db) (id : uuid)
  (NEW : new_transaction) (set : new_transaction -> new_transaction)
  (pc ta pc' ta' : option Z) :
  numeric_10_2 pc -> numeric_10_2 ta -> numeric_10_2 pc' -> numeric_10_2 ta' ->
  insert_transaction Rev001 c d id (supply NEW pc ta) =
    insert_transaction Rev001 c d id (supply NEW pc' ta') /\
  update_transaction Rev001 c d id (fun n => supply (set n) pc ta) =
    update_transaction Rev001 c d id (fun n => supply (set n) pc' ta') /\
  (forall d', insert_transaction Rev000 c d id (supply NEW pc ta) = Ok d' ->
     exists t, transactions d' !! id = Some t /\
               Some (platform_commission t) = pc /\ Some (teacher_amount t) = ta).
Proof.
  intros _ _ _ _. split; [|split].
  - unfold insert_transaction. simpl transactions_before_row.
    rewrite !calculate_transaction_amounts_supply. reflexivity.
  - unfold update_transaction.
    destruct (policies_expand Rev001 c t_transactions Update); [|reflexivity].
    simpl. destruct (transactions d !! id) as [old|]; [|reflexivity].
    destruct (transactions_modify Rev001 c d && transactions_select Rev001 c d old);
      [|reflexivity].
    simpl transactions_before_row.
    rewrite !calculate_transaction_amounts_supply. reflexivity.
  - intros d' H. unfold insert_transaction in H. simpl in H. invert_ok.
    match goal with Hrow : transactions_not_null _ = Ok _ |- _ =>
      unfold transactions_not_null in Hrow; simpl in Hrow;
      destruct pc as [pcv|]; [|discriminate Hrow];
      destruct ta as [tav|]; [|discriminate Hrow];
      injection Hrow as <- end.
    eexists. simpl. rewrite lookup_insert_eq. split; [reflexivity|]. auto.
Qed.

(** Student 2 pays 100.00 and supplies 0.01 and 0.02, or nothing. *)
Lemma supplied_amounts_never_observable_witness :
  insert_transaction Rev001 (authenticated 2) (scenario_db Rev001) 30
    (supply (payment 20 2 1 10000 None None) (Some 1) (Some 2)) =
  insert_transaction Rev001 (authenticated 2) (scenario_db Rev001) 30
    (supply (payment 20 2 1 10000 None None) None None).
Proof.
  apply (supplied_amounts_never_observable (authenticated 2) (scenario_db Rev001)
           30 (payment 20 2 1 10000 None None) (fun n => n)
           (Some 1) (Some 2) None None);
    intros x Hx; try discriminate Hx; injection Hx as <-; simpl; lia.
Defined.

(** ** transactions: who may read and write *)

Lemma has_key_true {A} (m : gmap N A) k : has_key m k = true <-> is_Some (m !! k).
Proof.
  unfold has_key. destruct (m !! k); split; intros H;
    eauto; try discriminate; destruct H; discriminate.
Qed.

Lemma has_key_false {A} (m : gmap N A) k : has_key m k = false <-> m !! k = None.
Proof. unfold has_key. destruct (m !! k); split; intros H; done. Qed.

(** C8, the failing input. In part_001 the policy "System can insert
    transactions" is WITH CHECK (true): student 2, who is no admin, inserts a
    transaction and the row is stored. *)
Theorem student_insert_into_transactions_accepted :
  is_admin (authenticated 2) (scenario_db Rev001) = false /\
  rls_exempt (authenticated 2) = false /\
  exists d',
    insert_transaction Rev001 (authenticated 2) (scenario_db Rev001) 30
      (payment 20 2 1 10000 None None) = Ok d' /\
    is_Some (transactions d' !! 30%N).
Proof.
  split; [vm_compute; reflexivity|]. split; [reflexivity|].
  eexists. split; [vm_compute; reflexivity|]. vm_compute. eauto.
Qed.

(** Not even a caller without identity is turned away by part_001. *)
Example anon_insert_into_transactions_accepted :
  exists d',
    insert_transaction Rev001 anon (scenario_db Rev001) 30
      (payment 20 2 1 10000 None None) = Ok d'.
Proof. eexists. vm_compute. reflexivity. Qed.

(** part_000 does what the claim says for INSERT: whoever is neither exempt
    nor an admin is refused. *)
Lemma part_000_insert_transaction_denied c d id NEW :
  rls_exempt c = false -> is_admin c d = false ->
  insert_transaction Rev000 c d id NEW = Err insufficient_privilege.
Proof.
  intros Hc Ha. unfold insert_transaction, transactions_insert_check.
  rewrite policies_expand_part_000. simpl. rewrite Hc, Ha. reflexivity.
Qed.

(** ** lessons: the public listing *)

Lemma select_lessons_part_001 c d :
  rls_exempt c = false ->
  select_lessons Rev001 c d = Err infinite_recursion /\
  fetchStats_lessons Rev001 c d = Err infinite_recursion.
Proof.
  intros Hc. unfold select_lessons, fetchStats_lessons.
  rewrite policies_expand_part_001; [split; reflexivity | exact Hc|].
  left. split; [auto | discriminate].
Qed.

(** C7, the failing input. In part_001 the policy "Admins can view all
    lessons" reads profiles, whose admin policies read profiles again: every
    SELECT on lessons by a caller under row security fails with 42P17. Lesson
    10 of the worked store is active, and neither a visitor without identity
    nor student 2 nor its teacher 1 obtains a listing; the row is there, as
    the owner of the tables sees. *)
Theorem active_lessons_unreadable_in_part_001 :
  (is_active <$> lessons (scenario_db Rev001) !! 10%N) = Some true /\
  select_lessons Rev001 anon (scenario_db Rev001) = Err infinite_recursion /\
  fetchStats_lessons Rev001 (authenticated 2) (scenario_db Rev001)
    = Err infinite_recursion /\
  select_lessons Rev001 (authenticated 1) (scenario_db Rev001)
    = Err infinite_recursion /\
  (exists m, select_lessons Rev001 table_owner (scenario_db Rev001) = Ok m /\
             is_Some (m !! 10%N)).
Proof.
  split; [vm_compute; reflexivity|].
  split; [vm_compute; reflexivity|].
  split; [vm_compute; reflexivity|].
  split; [vm_compute; reflexivity|].
  eexists. split; [vm_compute; reflexivity|]. vm_compute. eauto.
Qed.

(** ** bookings *)

(** C6, the counterexample. Lesson 11 is inactive and belongs to teacher 1;
    student 2 books it, naming user 3 as the teacher and 'confirmed' as the
    status, and the row is stored as supplied. *)
Lemma booking_of_inactive_lesson_accepted :
  (is_active <$> lessons (scenario_db Rev001) !! 11%N) = Some false /\
  (l_teacher_id <$> lessons (scenario_db Rev001) !! 11%N) = Some 1%N /\
  exists d' b,
    insert_booking Rev001 (authenticated 2) (scenario_db Rev001) 25
      {| bv_lesson_id := 11; bv_student_id := 2; bv_teacher_id := 3;
         bv_scheduled_at := 60; bv_status := Some confirmed;
         bv_meeting_link := None; bv_notes := None |} 12 = Ok d' /\
    bookings d' !! 25%N = Some b /\
    b_lesson_id b = 11%N /\ b_teacher_id b = 3%N /\ status b = confirmed.
Proof.
  split; [vm_compute; reflexivity|]. split; [vm_compute; reflexivity|].
  eexists. eexists. split; [vm_compute; reflexivity|].
  split; [vm_compute; reflexivity|]. repeat split.
Qed.

(** C6 as amended. In both revisions an INSERT into bookings by a signed-in
    user is accepted exactly when the row names the caller as its student,
    the primary key is free, and the lesson, the student and the teacher it
    refers to exist; the lesson's is_active flag is not consulted. The stored
    row has the status the caller supplied, 'pending' when none was supplied,
    and the teacher id the caller supplied. *)
Theorem booking_insert_accepted_iff (rev : revision) (u : uuid) (d : db)
  (id : uuid) (v : booking_values) (now : timestamptz) :
  ((exists d', insert_booking rev (authenticated u) d id v now = Ok d') <->
   bv_student_id v = u /\ bookings d !! id = None /\
   is_Some (lessons d !! bv_lesson_id v) /\
   is_Some (profiles d !! bv_student_id v) /\
   is_Some (profiles d !! bv_teacher_id v)) /\
  (forall d', insert_booking rev (authenticated u) d id v now = Ok d' ->
   exists b, bookings d' !! id = Some b /\
     b_student_id b = u /\
     b_lesson_id b = bv_lesson_id v /\
     b_teacher_id b = bv_teacher_id v /\
     status b = COALESCE (bv_status v) pending /\
     (bv_status v = None -> status b = pending)).
Proof.
  assert (Hinv : forall d', insert_booking rev (authenticated u) d id v now = Ok d' ->
    bv_student_id v = u /\ bookings d !! id = None /\
    bookings_fk d (new_booking v now) = true /\
    d' = with_bookings d (<[id := new_booking v now]> (bookings d))).
  { intros d' H. unfold insert_booking in H.
    apply ensure_Ok in H as (_ & H).
    apply ensure_Ok in H as (Hp & H).
    apply ensure_Ok in H as (Hk & H).
    apply ensure_Ok in H as (Hf & H).
    injection H as <-.
    unfold bookings_insert_check, is_uid in Hp. simpl in Hp.
    apply bool_decide_eq_true_1 in Hp.
    apply negb_true_iff, has_key_false in Hk. auto. }
  split; [split|].
  - intros [d' H]. apply Hinv in H as (Hu & Hk & Hf & _).
    unfold bookings_fk in Hf. simpl in Hf.
    apply andb_true_iff in Hf as [Hf H3]. apply andb_true_iff in Hf as [H1 H2].
    rewrite !has_key_true in *. auto.
  - intros (Hu & Hk & H1 & H2 & H3). eexists. unfold insert_booking.
    rewrite policies_expand_insert by auto.
    unfold bookings_insert_check, is_uid. simpl.
    rewrite bool_decide_eq_true_2 by exact Hu. simpl.
    apply has_key_false in Hk. rewrite Hk. simpl.
    apply has_key_true in H1, H2, H3. unfold bookings_fk. simpl.
    rewrite H1, H2, H3. simpl. reflexivity.
  - intros d' H. apply Hinv in H as (Hu & _ & _ & ->).
    exists (new_booking v now). simpl. rewrite lookup_insert_eq.
    repeat split; try assumption. intros ->. reflexivity.
Qed.

(** Student 2 books the inactive lesson 11 of teacher 1 and leaves the
    status to its default. *)
Lemma booking_insert_accepted_iff_witness :
  exists b,
    bookings
      (commit Rev000 (authenticated 2) 12 (scenario_db Rev000)
         (InsertBooking 25 (booking_of 11 2 1))) !! 25%N = Some b /\
    b_student_id b = 2%N /\ b_lesson_id b = 11%N /\ b_teacher_id b = 1%N /\
    status b = pending /\ (@None booking_status = None -> status b = pending).
Proof.
  apply (proj2 (booking_insert_accepted_iff Rev000 2 (scenario_db Rev000) 25
                  (booking_of 11 2 1) 12)).
  vm_compute. reflexivity.
Defined.

(** ** profiles: identity bootstrap *)

Lemma cast_user_type_Some s u :
  cast_user_type s = Some u ->
  s = "teacher"%string \/ s = "student"%string \/ s = "admin"%string.
Proof.
  unfold cast_user_type.
  destruct (String.eqb s "teacher") eqn:E1; [apply String.eqb_eq in E1; auto|].
  destruct (String.eqb s "student") eqn:E2; [apply String.eqb_eq in E2; auto|].
  destruct (String.eqb s "admin") eqn:E3; [apply String.eqb_eq in E3; auto|].
  discriminate.
Qed.

Lemma varchar_fits n s : (char_length s <= n)%nat -> varchar n s = Ok s.
Proof.
  intros H. unfold varchar. apply Nat.leb_le in H. rewrite H. reflexivity.
Qed.

Lemma email_taken_false rev d e :
  (rev = Rev001 -> forall k q, profiles d !! k = Some q -> email q <> e) ->
  email_taken rev d None e = false.
Proof.
  intros H. destruct rev; [reflexivity|]. simpl.
  destruct (existsb _ _) eqn:E; [|reflexivity].
  apply existsb_exists in E as ([k q] & Hin & Hq).
  apply list_elem_of_In, elem_of_map_to_list in Hin.
  simpl in Hq. apply String.eqb_eq in Hq.
  exfalso. exact (H eq_refl k q Hin Hq).
Qed.

Lemma new_profile_Ok rev NEW now e u :
  au_email NEW = Some e ->
  cast_user_type (COALESCE (raw_user_type NEW) "student") = Some u ->
  (rev = Rev000 ->
   (char_length e <= 255)%nat /\
   (char_length (COALESCE (raw_full_name NEW) (default_full_name rev)) <= 100)%nat) ->
  new_profile rev NEW now =
    Ok {| email := e;
          full_name := COALESCE (raw_full_name NEW) (default_full_name rev);
          p_user_type := u; is_verified := false; rating := 0;
          total_students := 0; total_lessons := 0;
          p_created_at := now; p_updated_at := now |}.
Proof.
  intros He Hu Hlen. unfold new_profile. rewrite He. destruct rev.
  - destruct (Hlen eq_refl) as [Hle Hln].
    rewrite (varchar_fits 255 e Hle). cbn [obind].
    rewrite (varchar_fits 100 _ Hln). cbn [obind].
    rewrite varchar_fits.
    + cbn [obind]. rewrite Hu. reflexivity.
    + destruct (cast_user_type_Some _ _ Hu) as [-> | [-> | ->]];
        apply Nat.leb_le; reflexivity.
  - rewrite Hu. reflexivity.
Qed.

Lemma handle_new_user_duplicate rev d NEW now :
  is_Some (profiles d !! au_id NEW) ->
  exists err, handle_new_user rev d NEW now = Err err.
Proof.
  intros Hdup. unfold handle_new_user.
  destruct (new_profile rev NEW now) as [row|err]; simpl; [|eauto].
  apply has_key_true in Hdup. rewrite Hdup. simpl. eauto.
Qed.

(** C5, the counterexample. The id 7 is fresh, the metadata asks for the
    user type 'moderator': part_001 fails on the cast to the enum, part_000
    on the CHECK constraint, and no profile is created. *)
Lemma bootstrap_of_fresh_id_rejected :
  profiles empty_db !! 7%N = None /\
  handle_new_user Rev001 empty_db (user 7 "m@example.org" "moderator") 1
    = Err invalid_text_representation /\
  handle_new_user Rev000 empty_db (user 7 "m@example.org" "moderator") 1
    = Err check_violation.
Proof. repeat split; vm_compute; reflexivity. Qed.

(** In part_001 a fresh id is also rejected when its email is the one of a
    stored profile (email TEXT UNIQUE). *)
Example bootstrap_with_known_email_rejected :
  profiles (scenario_db Rev001) !! 9%N = None /\
  handle_new_user Rev001 (scenario_db Rev001) (user 9 "t1@example.org" "student") 20
    = Err unique_violation.
Proof. split; vm_compute; reflexivity. Qed.

(** C5 as amended. Identity bootstrap for a fresh id succeeds and adds
    exactly one profile, keyed by that id, when the event carries an email,
    its metadata user_type is absent or one of teacher, student, admin, and
    the columns accept the values: in part_000 the email and the name fit
    VARCHAR(255) and VARCHAR(100), in part_001 no stored profile has the
    email. Any later event for the same id is rejected and leaves the store
    as it was; the same event delivered again fails with the uniqueness
    conflict; the profile stays stored as it was written. Under part_000
    every caller reads it; under part_001 the owner of the tables reads it,
    and the SELECT of every caller under row security, the profile's owner
    included, fails with 42P17. *)
Theorem identity_bootstrap_once (rev : revision) (d : db) (NEW : auth_user)
  (now : timestamptz) (e : string) (u : user_type) :
  profiles d !! au_id NEW = None ->
  au_email NEW = Some e ->
  cast_user_type (COALESCE (raw_user_type NEW) "student") = Some u ->
  (rev = Rev000 ->
   (char_length e <= 255)%nat /\
   (char_length (COALESCE (raw_full_name NEW) (default_full_name rev)) <= 100)%nat) ->
  (rev = Rev001 -> forall k q, profiles d !! k = Some q -> email q <> e) ->
  exists d' p,
    handle_new_user rev d NEW now = Ok d' /\
    profiles d' = <[au_id NEW := p]> (profiles d) /\
    size (profiles d') = S (size (profiles d)) /\
    email p = e /\
    full_name p = COALESCE (raw_full_name NEW) (default_full_name rev) /\
    p_user_type p = u /\ rating p = 0 /\
    (forall c NEW2 now2, au_id NEW2 = au_id NEW ->
       (exists err, handle_new_user rev d' NEW2 now2 = Err err) /\
       commit rev c now2 d' (NewUser NEW2) = d') /\
    (forall now2, handle_new_user rev d' NEW now2 = Err unique_violation) /\
    profiles d' !! au_id NEW = Some p /\
    (forall c, rev = Rev000 \/ rls_exempt c = true ->
       exists m, select_profiles rev c d' = Ok m /\ m !! au_id NEW = Some p) /\
    (forall c, rev = Rev001 -> rls_exempt c = false ->
       select_profiles rev c d' = Err infinite_recursion).
Proof.
  intros Hfresh He Hu Hlen Hmail.
  pose proof (new_profile_Ok rev NEW now e u He Hu Hlen) as Hrow.
  eexists. eexists. split.
  { unfold handle_new_user. rewrite Hrow. simpl obind.
    apply has_key_false in Hfresh. rewrite Hfresh. simpl obind.
    rewrite (email_taken_false rev d e Hmail). simpl. reflexivity. }
  simpl. split; [reflexivity|].
  split; [apply map_size_insert_None; exact Hfresh|].
  do 4 (split; [reflexivity|]).
  match goal with |- context [<[au_id NEW := ?p]> (profiles d)] => set (p0 := p) end.
  assert (Hdup : forall NEW2 now2, au_id NEW2 = au_id NEW ->
            exists err, handle_new_user rev
              (with_profiles d (<[au_id NEW := p0]> (profiles d))) NEW2 now2 = Err err).
  { intros NEW2 now2 Hid. apply handle_new_user_duplicate.
    simpl. rewrite Hid, lookup_insert_eq. eauto. }
  split; [|split; [|split; [|split]]].
  - intros c NEW2 now2 Hid. split; [apply Hdup; exact Hid|].
    unfold commit. simpl execute.
    destruct (Hdup NEW2 now2 Hid) as [err ->]. reflexivity.
  - intros now2. unfold handle_new_user.
    rewrite (new_profile_Ok rev NEW now2 e u He Hu Hlen). simpl.
    unfold has_key. rewrite lookup_insert_eq. reflexivity.
  - apply lookup_insert_eq.
  - intros c Hc. unfold select_profiles.
    assert (He' : policies_expand rev c t_profiles Select = true).
    { destruct Hc as [-> | Hc];
        [apply policies_expand_part_000 | apply policies_expand_exempt, Hc]. }
    rewrite He'. eexists. split; [reflexivity|].
    apply map_lookup_filter_Some. simpl. rewrite lookup_insert_eq.
    split; [reflexivity|]. unfold profiles_select.
    destruct Hc as [-> | ->]; [apply orb_true_r | reflexivity].
  - intros c -> Hc. unfold select_profiles.
    rewrite policies_expand_part_001; [reflexivity | exact Hc|].
    left. split; [auto | discriminate].
Qed.

(** The first event for id 9 on the worked store of part_001. *)
Lemma identity_bootstrap_once_witness :
  exists d' p,
    handle_new_user Rev001 (scenario_db Rev001)
      (user 9 "s9@example.org" "student") 20 = Ok d' /\
    profiles d' = <[9%N := p]> (profiles (scenario_db Rev001)) /\
    size (profiles d') = S (size (profiles (scenario_db Rev001))) /\
    email p = "s9@example.org"%string /\
    full_name p = default_full_name Rev001 /\
    p_user_type p = student /\ rating p = 0 /\
    (forall c NEW2 now2, au_id NEW2 = 9%N ->
       (exists err, handle_new_user Rev001 d' NEW2 now2 = Err err) /\
       commit Rev001 c now2 d' (NewUser NEW2) = d') /\
    (forall now2, handle_new_user Rev001 d'
                    (user 9 "s9@example.org" "student") now2 = Err unique_violation) /\
    profiles d' !! 9%N = Some p /\
    (forall c, Rev001 = Rev000 \/ rls_exempt c = true ->
       exists m, select_profiles Rev001 c d' = Ok m /\ m !! 9%N = Some p) /\
    (forall c, Rev001 = Rev001 -> rls_exempt c = false ->
       select_profiles Rev001 c d' = Err infinite_recursion).
Proof.
  apply (identity_bootstrap_once Rev001 (scenario_db Rev001)
           (user 9 "s9@example.org" "student") 20 "s9@example.org" student).
  - vm_compute. reflexivity.
  - reflexivity.
  - reflexivity.
  - discriminate.
  - intros _ k q Hq Heq.
    assert (Hin : (k, q) ∈ map_to_list (profiles (scenario_db Rev001)))
      by (apply elem_of_map_to_list; exact Hq).
    assert (Hall : forallb (fun kp : N * profile =>
                     negb (String.eqb (email kp.2) "s9@example.org"))
                   (map_to_list (profiles (scenario_db Rev001))) = true)
      by (vm_compute; reflexivity).
    rewrite forallb_forall in Hall. apply list_elem_of_In in Hin.
    specialize (Hall _ Hin). simpl in Hall. rewrite Heq in Hall.
    rewrite String.eqb_refl in Hall. discriminate.
Defined.

(** ** reviews: the average *)

Lemma sum_Z_bounds xs :
  Forall (fun x => 1 <= x <= 5) xs ->
  Z.of_nat (length xs) <= sum_Z xs <= 5 * Z.of_nat (length xs).
Proof.
  induction 1 as [|x xs Hx _ IH]; simpl; [lia|].
  unfold sum_Z in *. simpl. lia.
Qed.

Lemma Qdiv_Qmake s p : (inject_Z s / inject_Z (Zpos p) == s # p)%Q.
Proof. unfold Qeq, Qdiv, Qmult, Qinv, inject_Z. simpl. lia. Qed.

Lemma AVG_Some xs :
  xs <> [] ->
  exists q, AVG xs = Some q /\ (q == sum_Z xs # Pos.of_nat (length xs))%Q.
Proof.
  intros Hne. destruct xs as [|x xs]; [congruence|].
  eexists. split; [reflexivity|].
  replace (Z.of_nat (length (x :: xs))) with (Zpos (Pos.of_nat (length (x :: xs)))).
  - apply Qdiv_Qmake.
  - simpl length. rewrite <- Pos.of_nat_succ. reflexivity.
Qed.

Lemma numeric_round2_close q :
  (Qabs (numeric2 (numeric_round 2 q) - q) <= 1 # 200)%Q.
Proof.
  destruct q as [n d]. destruct (Z_lt_le_dec n 0) as [Hn|Hn].
  - rewrite numeric_round2_neg by exact Hn.
    pose proof (Z.div_mod (200 * - n + Z.pos d) (2 * Z.pos d) ltac:(lia)) as Hdm.
    pose proof (Z.mod_pos_bound (200 * - n + Z.pos d) (2 * Z.pos d) ltac:(lia)) as Hm.
    set (r := (200 * - n + Z.pos d) / (2 * Z.pos d)) in *.
    unfold numeric2, Qle, Qminus, Qplus, Qopp, Qabs. simpl.
    rewrite Pos2Z.inj_mul. nia.
  - rewrite numeric_round2_Qmake by exact Hn.
    pose proof (Z.div_mod (200 * n + Z.pos d) (2 * Z.pos d) ltac:(lia)) as Hdm.
    pose proof (Z.mod_pos_bound (200 * n + Z.pos d) (2 * Z.pos d) ltac:(lia)) as Hm.
    set (r := (200 * n + Z.pos d) / (2 * Z.pos d)) in *.
    unfold numeric2, Qle, Qminus, Qplus, Qopp, Qabs. simpl.
    rewrite Pos2Z.inj_mul. nia.
Qed.

Lemma teacher_ratings_checked d tid :
  reviews_checked d -> Forall (fun x => 1 <= x <= 5) (teacher_ratings d tid).
Proof.
  unfold reviews_checked, teacher_ratings. intros H.
  apply Forall_map. apply Forall_forall. intros r Hr.
  apply list_elem_of_filter in Hr as [_ Hr].
  rewrite Forall_forall in H. specialize (H r Hr).
  unfold reviews_check in H. apply andb_true_iff in H as [H1 H2].
  apply Z.leb_le in H1, H2. lia.
Qed.

Lemma rating_of_reviews_empty d tid :
  teacher_ratings d tid = [] -> rating_of_reviews d tid = Ok 0.
Proof. intros H. unfold rating_of_reviews. rewrite H. reflexivity. Qed.

Lemma rating_of_reviews_round d tid r :
  rating_of_reviews d tid = Ok r ->
  r = numeric_round 2 (COALESCE (AVG (teacher_ratings d tid)) 0%Q).
Proof.
  unfold rating_of_reviews, coerce_numeric. intros H.
  apply ensure_Ok in H as [_ H]. congruence.
Qed.

Lemma rating_of_reviews_range d tid :
  reviews_checked d ->
  exists r, rating_of_reviews d tid = Ok r /\ 0 <= r <= 500.
Proof.
  intros Hc. pose proof (teacher_ratings_checked d tid Hc) as Hxs.
  unfold rating_of_reviews.
  destruct (teacher_ratings d tid) as [|x xs] eqn:E.
  { exists 0. split; [reflexivity|lia]. }
  destruct (AVG_Some (x :: xs) ltac:(discriminate)) as (q & Hq & Hqe).
  rewrite Hq. simpl COALESCE.
  pose proof (sum_Z_bounds _ Hxs) as Hs.
  set (s := sum_Z (x :: xs)) in *.
  set (p := Pos.of_nat (length (x :: xs))) in *.
  assert (Hp : Z.of_nat (length (x :: xs)) = Z.pos p).
  { unfold p. simpl length. rewrite <- Pos.of_nat_succ. reflexivity. }
  rewrite Hp in Hs.
  assert (Hr : numeric_round 2 q = (200 * s + Z.pos p) / (2 * Z.pos p)).
  { rewrite Hqe. apply numeric_round2_Qmake. lia. }
  assert (Hb : 100 <= (200 * s + Z.pos p) / (2 * Z.pos p) <= 500).
  { split.
    - apply Z.div_le_lower_bound; lia.
    - assert ((200 * s + Z.pos p) / (2 * Z.pos p) < 501); [|lia].
      apply Z.div_lt_upper_bound; lia. }
  exists ((200 * s + Z.pos p) / (2 * Z.pos p)). split; [|lia].
  apply coerce_numeric_Ok; [exact Hr|]. change (10 ^ Z.of_nat 3) with 1000. lia.
Qed.

(** ** profiles: UPDATE *)

Lemma profiles_columns_Ok rev p p' :
  profiles_columns rev p = Ok p' -> p' = p /\ Z.abs (rating p) < 1000.
Proof.
  unfold profiles_columns. intros H. apply ensure_Ok in H as [Hr H].
  apply Z.ltb_lt in Hr. change (10 ^ 3) with 1000 in Hr.
  destruct rev.
  - apply ensure_Ok in H as [_ H]. split; [congruence|exact Hr].
  - split; [congruence|exact Hr].
Qed.

Lemma update_profile_Ok rev c d id set now d' :
  update_profile rev c d id set now = Ok d' ->
  d' = d \/
  exists old NEW,
    profiles d !! id = Some old /\
    profiles_update rev c d id && profiles_select rev c d id old = true /\
    set old = Ok NEW /\
    d' = with_profiles d (<[id := before_update rev NEW now]> (profiles d)).
Proof.
  unfold update_profile. intros H. apply ensure_Ok in H as [_ H].
  destruct (profiles d !! id) as [old|]; [|left; congruence].
  destruct (profiles_update rev c d id && profiles_select rev c d id old) eqn:Hv;
    [|left; congruence].
  right. apply obind_Ok in H as (NEW & Hset & H).
  apply obind_Ok in H as (NEW' & Hcol & H).
  apply ensure_Ok in H as [_ H].
  apply profiles_columns_Ok in Hcol as [-> _].
  exists old, NEW. repeat split; congruence.
Qed.

Lemma update_profile_applied rev c d id set now d' old :
  profiles d !! id = Some old ->
  profiles_update rev c d id && profiles_select rev c d id old = true ->
  update_profile rev c d id set now = Ok d' ->
  exists NEW,
    set old = Ok NEW /\
    d' = with_profiles d (<[id := before_update rev NEW now]> (profiles d)).
Proof.
  unfold update_profile. intros -> -> H. apply ensure_Ok in H as [_ H].
  apply obind_Ok in H as (NEW & Hset & H).
  apply obind_Ok in H as (NEW' & Hcol & H).
  apply ensure_Ok in H as [_ H].
  apply profiles_columns_Ok in Hcol as [-> _].
  exists NEW. split; congruence.
Qed.

(** In part_001 an UPDATE of profiles is completed for the owner of the
    tables only. *)
Lemma update_profile_part_001 c d id set now :
  rls_exempt c = false ->
  update_profile Rev001 c d id set now = Err infinite_recursion.
Proof.
  intros Hc. unfold update_profile.
  rewrite policies_expand_part_001; [reflexivity | exact Hc|].
  left. split; [auto | discriminate].
Qed.

Lemma update_profile_exempt c d id set now d' :
  update_profile Rev001 c d id set now = Ok d' -> rls_exempt c = true.
Proof.
  intros H. destruct (rls_exempt c) eqn:Hc; [reflexivity|].
  rewrite update_profile_part_001 in H by exact Hc. discriminate.
Qed.

Lemma profiles_update_select c d id p :
  profiles_update Rev001 c d id = true -> profiles_select Rev001 c d id p = true.
Proof.
  unfold profiles_update, profiles_select.
  destruct (rls_exempt c); [reflexivity|]. simpl.
  destruct (is_uid c id), (is_admin c d); simpl; intros H;
    try discriminate; rewrite ?orb_true_r; reflexivity.
Qed.

(** ** reviews: what a write does *)

Lemma find_review_Some d id old :
  find_review d id = Some old -> In old (reviews d) /\ r_id old = id.
Proof.
  unfold find_review. intros H. apply find_some in H as [Hin Hid].
  apply bool_decide_eq_true_1 in Hid. auto.
Qed.

Lemma replace_review_In id NEW rs old :
  In old rs -> r_id old = id -> In NEW (replace_review id NEW rs).
Proof.
  intros Hin Hid. unfold replace_review. apply in_map_iff.
  exists old. split; [|exact Hin].
  rewrite bool_decide_eq_true_2 by exact Hid. reflexivity.
Qed.

Lemma replace_review_ids id NEW rs :
  r_id NEW = id -> map r_id (replace_review id NEW rs) = map r_id rs.
Proof.
  intros Hid. unfold replace_review. rewrite map_map. apply map_ext.
  intros r. destruct (bool_decide (r_id r = id)) eqn:E; [|reflexivity].
  apply bool_decide_eq_true_1 in E. congruence.
Qed.

Lemma replace_review_checked id NEW rs :
  Forall (fun r => reviews_check r = true) rs ->
  reviews_check NEW = true ->
  Forall (fun r => reviews_check r = true) (replace_review id NEW rs).
Proof.
  intros Hrs HN. unfold replace_review. apply Forall_map.
  eapply Forall_impl; [exact Hrs|].
  intros r Hr. simpl. destruct (bool_decide (r_id r = id)); assumption.
Qed.

Lemma review_write_inv rev c now d NEW d' :
  review_write rev c now d NEW d' ->
  exists rs,
    reviews_check NEW = true /\
    is_Some (profiles d !! r_teacher_id NEW) /\
    In NEW rs /\
    (rs = reviews d ++ [NEW] \/ rs = replace_review (r_id NEW) NEW (reviews d)) /\
    reviews_after_row rev INSERT c (with_reviews d rs) NEW now = Ok d'.
Proof.
  intros [NEW0 d0 H | id old set d0 Hold Hvis H].
  - unfold insert_review in H. invert_ok.
    exists (reviews d ++ [NEW0]). split; [assumption|].
    match goal with Hf : reviews_fk _ _ = true |- _ =>
      unfold reviews_fk in Hf; apply andb_true_iff in Hf as [_ Hf];
      apply has_key_true in Hf end.
    split; [assumption|]. split; [apply in_or_app; right; left; reflexivity|].
    split; [left; reflexivity | exact H].
  - unfold update_review in H. apply ensure_Ok in H as [_ H].
    rewrite Hold, Hvis in H. invert_ok.
    destruct (find_review_Some _ _ _ Hold) as [Hin Hid].
    exists (replace_review id (with_r_id (set old) id) (reviews d)).
    split; [assumption|].
    match goal with Hf : reviews_fk _ _ = true |- _ =>
      unfold reviews_fk in Hf; apply andb_true_iff in Hf as [_ Hf];
      apply has_key_true in Hf end.
    split; [assumption|].
    split; [eapply replace_review_In; eassumption|].
    split; [right; reflexivity|].
    rewrite <- H. destruct rev; reflexivity.
Qed.

Lemma update_review_Ok rev c d id set now d' :
  update_review rev c d id set now = Ok d' ->
  d' = d \/
  exists old,
    find_review d id = Some old /\
    reviews_check (with_r_id (set old) id) = true /\
    reviews_after_row rev UPDATE c
      (with_reviews d (replace_review id (with_r_id (set old) id) (reviews d)))
      (with_r_id (set old) id) now = Ok d'.
Proof.
  intros H. unfold update_review in H. apply ensure_Ok in H as [_ H].
  destruct (find_review d id) as [old|] eqn:Hold; [|left; congruence].
  destruct (reviews_update rev c old); [|left; congruence].
  right. invert_ok. exists old. auto.
Qed.

Lemma reviews_after_row_frame rev op c d NEW now d' :
  reviews_after_row rev op c d NEW now = Ok d' ->
  reviews d' = reviews d /\ bookings d' = bookings d /\
  lessons d' = lessons d /\ transactions d' = transactions d.
Proof.
  destruct rev; simpl; intros H; [injection H as <-; auto|].
  destruct op; simpl in H; [| |injection H as <-; auto];
    unfold update_teacher_rating in H;
    apply update_profile_Ok in H as [-> | (old & p & _ & _ & _ & ->)]; auto.
Qed.

(** ** C3: the rating of the reviewed teacher *)

(** C3, the counterexample. Teacher 1 has the ratings 1 and 1 for the
    bookings 20 and 21; a rating of 2 for booking 22 is inserted. The insert
    succeeds, the ratings stored for teacher 1 are 1, 1, 2, their mean is
    4/3, and the stored rating is 1.33. *)
Lemma stored_rating_is_not_the_mean :
  exists d' p q,
    insert_review Rev001 table_owner
      (run Rev001 (scenario_db Rev001) two_reviews) third_review 14 = Ok d' /\
    profiles d' !! 1%N = Some p /\
    teacher_ratings d' 1 = [1; 1; 2] /\
    AVG (teacher_ratings d' 1) = Some q /\
    (q == 4 # 3)%Q /\
    rating p = 133 /\
    ~ (numeric2 (rating p) == q)%Q.
Proof.
  eexists. eexists. eexists.
  split; [vm_compute; reflexivity|].
  split; [vm_compute; reflexivity|].
  split; [vm_compute; reflexivity|].
  split; [vm_compute; reflexivity|].
  split; [reflexivity|].
  split; [reflexivity|].
  vm_compute. discriminate.
Qed.

(** In part_001 a write of a review is completed for the owner of the
    tables only: the trigger's UPDATE of profiles is a statement of the
    writer. *)
Lemma review_write_exempt c now d NEW d' :
  review_write Rev001 c now d NEW d' -> rls_exempt c = true.
Proof.
  intros Hw. apply review_write_inv in Hw as (rs & _ & _ & _ & _ & Htrig).
  simpl in Htrig. unfold update_teacher_rating in Htrig.
  eapply update_profile_exempt. exact Htrig.
Qed.

(** C3 as amended. In part_001, after an INSERT or UPDATE of a review that
    succeeds, the rating of the teacher named by the review is the mean of
    all ratings stored for that teacher rounded to two decimals (half away
    from zero), hence within 0.005 of the mean, and the teacher's updated_at
    is the time of the write; the written review is among those ratings, so
    the trigger does not get to store the 0 of a teacher without reviews.
    Such a write succeeds for the owner of the tables only. *)
Theorem teacher_rating_is_rounded_mean (c : caller) (now : timestamptz)
  (d d' : db) (NEW : review) :
  review_write Rev001 c now d NEW d' ->
  rls_exempt c = true /\
  exists p q,
    profiles d' !! r_teacher_id NEW = Some p /\
    In (r_rating NEW) (teacher_ratings d' (r_teacher_id NEW)) /\
    AVG (teacher_ratings d' (r_teacher_id NEW)) = Some q /\
    rating p = numeric_round 2 q /\
    (Qabs (numeric2 (rating p) - q) <= 1 # 200)%Q /\
    p_updated_at p = now.
Proof.
  intros Hw. pose proof (review_write_exempt _ _ _ _ _ Hw) as Hc.
  split; [exact Hc|].
  apply review_write_inv in Hw as (rs & _ & [old Hold] & Hin & _ & Htrig).
  simpl in Htrig. unfold update_teacher_rating in Htrig.
  set (d1 := with_reviews d rs) in *.
  set (tid := r_teacher_id NEW) in *.
  assert (Hvis : profiles_update Rev001 c d1 tid && profiles_select Rev001 c d1 tid old = true).
  { unfold profiles_update, profiles_select. rewrite Hc. reflexivity. }
  apply (update_profile_applied Rev001 c d1 tid _ now d' old Hold Hvis) in Htrig
    as (p & Hset & ->).
  apply obind_Ok in Hset as (r & Hr & Hp). injection Hp as <-.
  assert (Hx : In (r_rating NEW) (teacher_ratings d1 tid)).
  { unfold teacher_ratings. apply in_map.
    apply list_elem_of_In, list_elem_of_filter.
    split; [reflexivity|]. apply list_elem_of_In. exact Hin. }
  assert (Hne : teacher_ratings d1 tid <> []).
  { intros Hnil. rewrite Hnil in Hx. destruct Hx. }
  destruct (AVG_Some _ Hne) as (q & Hq & _).
  apply rating_of_reviews_round in Hr. rewrite Hq in Hr. simpl in Hr.
  exists (handle_updated_at (set_rating old r now) now), q.
  split; [simpl; apply lookup_insert_eq|].
  split; [exact Hx|].
  split; [exact Hq|]. simpl.
  split; [exact Hr|]. split; [|reflexivity].
  rewrite Hr. apply numeric_round2_close.
Qed.

(** The third rating of teacher 1 on the worked store. *)
Lemma teacher_rating_is_rounded_mean_witness :
  rls_exempt table_owner = true /\
  exists p q,
    profiles
      (commit Rev001 table_owner 14
         (run Rev001 (scenario_db Rev001) two_reviews)
         (InsertReview third_review)) !! r_teacher_id third_review = Some p /\
    In (r_rating third_review)
       (teacher_ratings
          (commit Rev001 table_owner 14
             (run Rev001 (scenario_db Rev001) two_reviews)
             (InsertReview third_review)) (r_teacher_id third_review)) /\
    AVG (teacher_ratings
           (commit Rev001 table_owner 14
              (run Rev001 (scenario_db Rev001) two_reviews)
              (InsertReview third_review)) (r_teacher_id third_review)) = Some q /\
    rating p = numeric_round 2 q /\
    (Qabs (numeric2 (rating p) - q) <= 1 # 200)%Q /\
    p_updated_at p = 14.
Proof.
  apply (teacher_rating_is_rounded_mean table_owner 14
           (run Rev001 (scenario_db Rev001) two_reviews) _ third_review).
  apply review_insert. vm_compute. reflexivity.
Defined.

(** ** C4: who may insert a review *)

(** C4, the failing input. In part_000 the INSERT policy on reviews checks
    that the booking is completed but not whose booking it is: teacher 1,
    who is not the student of booking 20, names themself as the student and
    stores a rating of 5 for themself. *)
Theorem review_of_a_foreign_booking_accepted :
  (b_student_id <$> bookings (scenario_db Rev000) !! 20%N) = Some 2%N /\
  exists d',
    insert_review Rev000 (authenticated 1) (scenario_db Rev000)
      (review_of 40 20 1 1 5) 12 = Ok d' /\
    reviews d' = [review_of 40 20 1 1 5].
Proof.
  split; [vm_compute; reflexivity|].
  eexists. split; vm_compute; reflexivity.
Qed.

Lemma profiles_columns_part_001 p :
  Z.abs (rating p) < 1000 -> profiles_columns Rev001 p = Ok p.
Proof.
  intros H. unfold profiles_columns. apply Z.ltb_lt in H.
  change (10 ^ 3) with 1000. rewrite H. reflexivity.
Qed.

(** ** C9: reviews per booking *)





(** ** C10: the range of the rating *)

(** C10, the counterexample. No CHECK bounds the column rating. In part_000
    the UPDATE policy on profiles lets a user write every column of the own
    row: teacher 1 sets the own rating to 9.99, the largest value of
    DECIMAL(3,2). In part_001 the owner of the tables does the same. *)
Lemma teacher_sets_own_rating :
  (exists d' p,
     update_profile Rev000 (authenticated 1) (scenario_db Rev000) 1
       (fun p => Ok (set_rating p 999 (p_updated_at p))) 12 = Ok d' /\
     profiles d' !! 1%N = Some p /\
     p_user_type p = teacher /\ rating p = 999 /\ ~ (0 <= rating p <= 500)) /\
  (exists d' p,
     update_profile Rev001 table_owner (scenario_db Rev001) 1
       (fun p => Ok (set_rating p 999 (p_updated_at p))) 12 = Ok d' /\
     profiles d' !! 1%N = Some p /\
     p_user_type p = teacher /\ rating p = 999 /\ ~ (0 <= rating p <= 500)).
Proof.
  split; eexists; eexists;
    (split; [vm_compute; reflexivity|]);
    (split; [vm_compute; reflexivity|]);
    (split; [reflexivity|]); (split; [reflexivity|]); simpl; lia.
Qed.

Lemma new_profile_rating rev NEW now p :
  new_profile rev NEW now = Ok p -> rating p = 0.
Proof.
  unfold new_profile. destruct rev.
  - destruct (au_email NEW) as [e|]; intros H; invert_ok;
      try match goal with
          | H : match cast_user_type ?x with _ => _ end = Ok _ |- _ =>
              destruct (cast_user_type x); invert_ok
          end; try reflexivity;
      try match goal with H : not_null None = Ok _ |- _ => discriminate H end.
  - destruct (cast_user_type _); intros H; invert_ok. reflexivity.
Qed.

Lemma ratings_in_range_insert d id p :
  ratings_in_range d -> 0 <= rating p <= 500 ->
  ratings_in_range (with_profiles d (<[id := p]> (profiles d))).
Proof.
  intros Hd Hp id0 p0. simpl. rewrite lookup_insert.
  destruct (decide (id = id0)); [intros [= <-]; exact Hp | apply Hd].
Qed.

Lemma before_update_rating rev (p : profile) now :
  rating (before_update rev p now) = rating p.
Proof. destruct rev; reflexivity. Qed.

Lemma reviews_after_row_preserves rev op c d NEW now d' :
  reviews_checked d -> ratings_in_range d ->
  reviews_after_row rev op c d NEW now = Ok d' ->
  reviews_checked d' /\ ratings_in_range d'.
Proof.
  intros Hc Hr H. destruct rev; simpl in H; [injection H as <-; auto|].
  assert (Hu : d' = d \/ update_teacher_rating c d NEW now = Ok d').
  { destruct op; simpl in H; [auto | auto | left; congruence]. }
  clear H. destruct Hu as [-> | H]; [auto|].
  unfold update_teacher_rating in H.
  apply update_profile_Ok in H as [-> | (old & p & _ & _ & Hset & ->)]; [auto|].
  split; [exact Hc|].
  apply obind_Ok in Hset as (r & Hrr & Hp). injection Hp as <-.
  apply ratings_in_range_insert; [exact Hr|].
  destruct (rating_of_reviews_range d (r_teacher_id NEW) Hc) as (r' & Hr' & Hb).
  rewrite Hrr in Hr'. injection Hr' as <-. exact Hb.
Qed.

Lemma cascade_preserves gone_p gone_s gone_l gone_b d :
  reviews_checked d -> ratings_in_range d ->
  reviews_checked (cascade gone_p gone_s gone_l gone_b d) /\
  ratings_in_range (cascade gone_p gone_s gone_l gone_b d).
Proof.
  intros Hc Hr. split.
  - unfold reviews_checked, cascade. simpl. apply Forall_forall. intros r Hin.
    apply list_elem_of_filter in Hin as [_ Hin].
    unfold reviews_checked in Hc. rewrite Forall_forall in Hc. auto.
  - intros id p Hp. simpl in Hp. apply map_lookup_filter_Some in Hp as [Hp _].
    eapply Hr. exact Hp.
Qed.

(** Every statement that commits and does not itself assign the rating of
    a profile keeps the stored review ratings within 1..5 and the profile
    ratings within 0.00..5.00. *)
Lemma execute_preserves rev c now d s d' :
  reviews_checked d -> ratings_in_range d -> keeps_rating s ->
  execute rev c now d s = Ok d' ->
  reviews_checked d' /\ ratings_in_range d'.
Proof.
  intros Hc Hr Hk H.
  assert (Hsame : reviews_checked d /\ ratings_in_range d) by auto.
  destruct s; simpl in H.
  - (* NewUser *)
    unfold handle_new_user in H. invert_ok.
    split; [exact Hc|]. apply ratings_in_range_insert; [exact Hr|].
    match goal with Hn : new_profile _ _ _ = Ok _ |- _ =>
      rewrite (new_profile_rating _ _ _ _ Hn) end. lia.
  - (* UpdateProfile *)
    apply update_profile_Ok in H as [-> | (old & p & Hold & _ & Hset & ->)]; [auto|].
    split; [exact Hc|]. apply ratings_in_range_insert; [exact Hr|].
    rewrite before_update_rating, (Hk _ _ Hset). exact (Hr _ _ Hold).
  - (* InsertLesson *)
    unfold insert_lesson in H. step_inv H. exact Hsame.
  - (* UpdateLesson *)
    unfold update_lesson in H. step_inv H; exact Hsame.
  - (* InsertBooking *)
    unfold insert_booking in H. step_inv H. exact Hsame.
  - (* UpdateBookingStatus *)
    unfold update_booking_status in H. step_inv H; exact Hsame.
  - (* InsertTransaction *)
    unfold insert_transaction in H. invert_ok. exact Hsame.
  - (* UpdateTransaction *)
    unfold update_transaction in H. apply ensure_Ok in H as [_ H].
    destruct (transactions d !! id); [|injection H as <-; auto].
    destruct (_ && _); [|injection H as <-; auto]. invert_ok. exact Hsame.
  - (* DeleteTransaction *)
    unfold delete_transaction in H. step_inv H; exact Hsame.
  - (* InsertReview *)
    unfold insert_review in H. invert_ok.
    eapply reviews_after_row_preserves; [| |exact H].
    + unfold reviews_checked. simpl. apply Forall_app. split; [exact Hc|].
      constructor; [assumption|constructor].
    + exact Hr.
  - (* UpdateReview *)
    apply update_review_Ok in H as [-> | (old & _ & Hchk & Htrig)]; [auto|].
    eapply reviews_after_row_preserves; [| |exact Htrig].
    + unfold reviews_checked. simpl. apply replace_review_checked; assumption.
    + exact Hr.
  - (* InsertSubject *)
    apply obind_Ok in H as (ss & _ & H). injection H as <-. exact Hsame.
  - (* UpdateSubject *)
    apply obind_Ok in H as (ss & _ & H). injection H as <-. exact Hsame.
  - (* InsertLessonMaterial *)
    destruct rev; [|discriminate].
    apply obind_Ok in H as (ms & _ & H). injection H as <-. exact Hsame.
  - (* DeleteProfile *)
    unfold delete_profile in H. step_inv H;
      first [exact Hsame | apply cascade_preserves; assumption].
  - (* DeleteSubject *)
    unfold delete_subject in H. step_inv H;
      first [exact Hsame | apply cascade_preserves; assumption].
  - (* DeleteLesson *)
    unfold delete_lesson in H. step_inv H;
      first [exact Hsame | apply cascade_preserves; assumption].
  - (* DeleteBooking *)
    unfold delete_booking in H. step_inv H;
      first [exact Hsame | apply cascade_preserves; assumption].
  - (* DeleteReview *)
    unfold delete_review in H. step_inv H; [|exact Hsame].
    split; [|exact Hr]. unfold reviews_checked. simpl.
    apply Forall_forall. intros r Hin.
    apply list_elem_of_filter in Hin as [_ Hin].
    unfold reviews_checked in Hc. rewrite Forall_forall in Hc. auto.
  - (* DeleteLessonMaterial *)
    destruct rev; [|discriminate].
    unfold delete_lesson_material in H. step_inv H; exact Hsame.
Qed.

Lemma run_preserves rev h : forall d,
  reviews_checked d -> ratings_in_range d ->
  Forall (fun x => keeps_rating x.2) h ->
  reviews_checked (run rev d h) /\ ratings_in_range (run rev d h).
Proof.
  induction h as [|[[c now] s] h IH]; intros d Hc Hr Hk; simpl; [auto|].
  inversion Hk as [|? ? Hs Hh]; subst. simpl in Hs.
  unfold commit. destruct (execute rev c now d s) as [d'|err] eqn:E.
  - destruct (execute_preserves _ _ _ _ _ _ Hc Hr Hs E) as [Hc' Hr'].
    apply IH; assumption.
  - apply IH; assumption.
Qed.

(** C10 as amended. Starting from the empty store, after any history of
    statements none of which assigns the column rating of profiles itself
    (identity bootstraps, writes of lessons, bookings, transactions and
    reviews, and profile updates that leave rating alone), in either
    revision, every profile's rating lies in [0.00, 5.00]. *)
Theorem rating_stays_in_range (rev : revision)
  (h : list (caller * timestamptz * statement)) (id : uuid) (p : profile) :
  Forall (fun x => keeps_rating x.2) h ->
  profiles (run rev empty_db h) !! id = Some p ->
  0 <= rating p <= 500.
Proof.
  intros Hk Hp.
  assert (Hc0 : reviews_checked empty_db) by constructor.
  assert (Hr0 : ratings_in_range empty_db).
  { intros i q Hq. simpl in Hq. rewrite lookup_empty in Hq. discriminate. }
  destruct (run_preserves rev h empty_db Hc0 Hr0 Hk) as [_ Hr].
  exact (Hr id p Hp).
Qed.

(** The worked store followed by the three ratings of teacher 1. *)
Lemma rating_stays_in_range_witness :
  exists p,
    profiles
      (run Rev001 empty_db
         (scenario ++ two_reviews ++ [(table_owner, 14, InsertReview third_review)]))
      !! 1%N = Some p /\
    0 <= rating p <= 500.
Proof.
  eexists. split; [vm_compute; reflexivity|].
  eapply (rating_stays_in_range Rev001
            (scenario ++ two_reviews ++ [(table_owner, 14, InsertReview third_review)])
            1%N).
  - repeat constructor.
  - vm_compute. reflexivity.
Defined.

(** * Further properties of the schema *)

(** ** The commission trigger on any total *)

Lemma commission_round_neg t :
  t < 0 -> numeric_round 2 (numeric2 t * (10 # 100)) = - ((- t + 5) / 10).
Proof.
  intros Ht. unfold numeric2, Qmult. simpl Qnum. simpl Qden.
  rewrite numeric_round2_neg by lia.
  change (Z.pos (100 * 100)) with 10000. f_equal.
  replace (200 * - (t * 10) + 10000) with ((- t + 5) * 2000) by lia.
  change (2 * 10000) with (10 * 2000).
  apply Z.div_mul_cancel_r; lia.
Qed.

Lemma commission_round_sgn t :
  numeric_round 2 (numeric2 t * (10 # 100)) = Z.sgn t * ((Z.abs t + 5) / 10).
Proof.
  destruct (Z_lt_le_dec t 0) as [Hn|Hp].
  - rewrite commission_round_neg by exact Hn.
    rewrite Z.sgn_neg, Z.abs_neq by lia. lia.
  - rewrite commission_round by exact Hp.
    destruct (Z.eq_dec t 0) as [->|Hne]; [reflexivity|].
    rewrite Z.sgn_pos, Z.abs_eq by lia. lia.
Qed.

Lemma calculate_transaction_amounts_Ok NEW NEW' :
  calculate_transaction_amounts NEW = Ok NEW' ->
  exists c,
    c = numeric_round 2 (numeric2 (n_total_amount NEW) * (10 # 100)) /\
    NEW' = set_amounts NEW c (n_total_amount NEW - c).
Proof.
  unfold calculate_transaction_amounts, coerce_numeric. intros H.
  apply obind_Ok in H as (c & Hc & H). apply ensure_Ok in Hc as [_ Hc].
  injection Hc as Hc.
  apply obind_Ok in H as (t & Ht & H). apply ensure_Ok in Ht as [_ Ht].
  injection Ht as Ht. injection H as <-.
  rewrite numeric2_sub, numeric_round2_exact in Ht.
  exists c. split; [congruence|]. congruence.
Qed.

Lemma tenth_le t : 0 <= t -> 0 <= (t + 5) / 10 <= t.
Proof.
  intros Ht. split; [apply Z.div_pos; lia|].
  destruct (Z.eq_dec t 0) as [->|]; [reflexivity|].
  apply Z.div_le_upper_bound; lia.
Qed.

(** X1. The trigger accepts every total a NUMERIC(10,2) column can hold,
    of either sign; the commission is rounded away from zero symmetrically
    and the two derived amounts add up to the total. *)
Theorem amounts_add_up_for_any_total (NEW : new_transaction) :
  Z.abs (n_total_amount NEW) < 10 ^ 10 ->
  exists c t,
    calculate_transaction_amounts NEW = Ok (set_amounts NEW c t) /\
    c = Z.sgn (n_total_amount NEW) * ((Z.abs (n_total_amount NEW) + 5) / 10) /\
    c + t = n_total_amount NEW /\
    Z.abs c <= Z.abs (n_total_amount NEW) /\
    Z.abs t <= Z.abs (n_total_amount NEW).
Proof.
  intros Hr. set (t := n_total_amount NEW) in *.
  set (c := Z.sgn t * ((Z.abs t + 5) / 10)).
  pose proof (tenth_le (Z.abs t) (Z.abs_nonneg t)) as Hq.
  assert (Hc : Z.abs c <= Z.abs t /\ Z.abs (t - c) <= Z.abs t).
  { unfold c. set (q := (Z.abs t + 5) / 10) in *. clearbody q.
    destruct (Z_lt_le_dec t 0) as [Hn|Hp].
    - rewrite Z.sgn_neg by lia. lia.
    - destruct (Z.eq_dec t 0) as [E|Hne]; [rewrite E in *; simpl; lia|].
      rewrite Z.sgn_pos by lia. lia. }
  exists c, (t - c). split; [|repeat split; try lia; reflexivity].
  unfold calculate_transaction_amounts. fold t.
  rewrite (coerce_numeric_Ok 10 2 _ c);
    [|apply commission_round_sgn | change (10 ^ Z.of_nat 10) with (10 ^ 10); lia].
  simpl obind.
  rewrite (coerce_numeric_Ok 10 2 _ (t - c));
    [reflexivity | | change (10 ^ Z.of_nat 10) with (10 ^ 10); lia].
  rewrite numeric2_sub. apply numeric_round2_exact.
Qed.

(** A refund of 100.05. *)
Lemma amounts_add_up_for_any_total_witness :
  exists c t,
    calculate_transaction_amounts (payment 20 2 1 (-10005) None None)
      = Ok (set_amounts (payment 20 2 1 (-10005) None None) c t) /\
    c = Z.sgn (-10005) * ((Z.abs (-10005) + 5) / 10) /\
    c + t = -10005 /\
    Z.abs c <= Z.abs (-10005) /\ Z.abs t <= Z.abs (-10005).
Proof.
  apply (amounts_add_up_for_any_total (payment 20 2 1 (-10005) None None)).
  simpl. lia.
Defined.

(** X2. Over totals from 0 upward both derived amounts grow with the total:
    a larger payment never lowers the commission or the teacher's amount,
    and the commission never exceeds the teacher's amount. *)
Theorem split_is_monotone (NEW1 NEW2 : new_transaction) (c1 t1 c2 t2 : Z) :
  0 <= n_total_amount NEW1 <= n_total_amount NEW2 ->
  calculate_transaction_amounts NEW1 = Ok (set_amounts NEW1 c1 t1) ->
  calculate_transaction_amounts NEW2 = Ok (set_amounts NEW2 c2 t2) ->
  c1 <= c2 /\ t1 <= t2 /\ 0 <= c1 <= t1 /\ t1 <= n_total_amount NEW1.
Proof.
  intros Hle H1 H2.
  apply calculate_transaction_amounts_Ok in H1 as (c1' & Hc1 & E1).
  apply calculate_transaction_amounts_Ok in H2 as (c2' & Hc2 & E2).
  assert (c1 = c1' /\ t1 = n_total_amount NEW1 - c1') as [-> ->].
  { apply (f_equal n_platform_commission) in E1 as Ea.
    apply (f_equal n_teacher_amount) in E1 as Eb. simpl in Ea, Eb.
    split; congruence. }
  assert (c2 = c2' /\ t2 = n_total_amount NEW2 - c2') as [-> ->].
  { apply (f_equal n_platform_commission) in E2 as Ea.
    apply (f_equal n_teacher_amount) in E2 as Eb. simpl in Ea, Eb.
    split; congruence. }
  rewrite commission_round in Hc1, Hc2 by lia. subst c1' c2'.
  set (a := n_total_amount NEW1) in *. set (b := n_total_amount NEW2) in *.
  Z.div_mod_to_equations. lia.
Qed.

(** Totals 100.00 and 100.05. *)
Lemma split_is_monotone_witness :
  exists c1 t1 c2 t2,
    calculate_transaction_amounts (payment 20 2 1 10000 None None)
      = Ok (set_amounts (payment 20 2 1 10000 None None) c1 t1) /\
    calculate_transaction_amounts (payment 20 2 1 10005 None None)
      = Ok (set_amounts (payment 20 2 1 10005 None None) c2 t2) /\
    c1 <= c2 /\ t1 <= t2 /\ 0 <= c1 <= t1 /\ t1 <= 10000.
Proof.
  exists 1000, 9000, 1001, 9004.
  split; [vm_compute; reflexivity|]. split; [vm_compute; reflexivity|].
  apply (split_is_monotone (payment 20 2 1 10000 None None)
           (payment 20 2 1 10005 None None) 1000 9000 1001 9004).
  - simpl. lia.
  - vm_compute. reflexivity.
  - vm_compute. reflexivity.
Defined.

Lemma transactions_not_null_amounts NEW c t row :
  transactions_not_null (set_amounts NEW c t) = Ok row ->
  total_amount row = n_total_amount NEW /\
  platform_commission row = c /\ teacher_amount row = t.
Proof. simpl. intros [= <-]. auto. Qed.

Lemma written_row_derived NEW NEW' row :
  calculate_transaction_amounts NEW = Ok NEW' ->
  transactions_not_null NEW' = Ok row ->
  total_amount row = n_total_amount NEW /\ amounts_derived row.
Proof.
  intros H Hrow. apply calculate_transaction_amounts_Ok in H as (c & Hc & ->).
  apply transactions_not_null_amounts in Hrow as (Ht & Hp & Ha).
  split; [exact Ht|]. unfold amounts_derived. rewrite Ht, Hp, Ha. auto.
Qed.

(** X3. In part_001 an UPDATE that leaves total_amount alone (a change of
    payment_status, say) leaves the two derived amounts of a row as the
    trigger had computed them, whatever the statement assigns to them. *)
Theorem update_keeping_total_keeps_amounts (c : caller) (d d' : db) (id : uuid)
  (old : transaction) (set : new_transaction -> new_transaction) :
  transactions d !! id = Some old ->
  amounts_derived old ->
  n_total_amount (set (as_new old)) = total_amount old ->
  update_transaction Rev001 c d id set = Ok d' ->
  exists row,
    transactions d' !! id = Some row /\
    total_amount row = total_amount old /\
    platform_commission row = platform_commission old /\
    teacher_amount row = teacher_amount old.
Proof.
  intros Hold [Hc Ht] Hset H. unfold update_transaction in H.
  apply ensure_Ok in H as [_ H]. rewrite Hold in H.
  destruct (transactions_modify Rev001 c d && transactions_select Rev001 c d old).
  - apply obind_Ok in H as (NEW' & HN & H).
    apply obind_Ok in H as (row & Hrow & H).
    apply ensure_Ok in H as [_ H]. injection H as <-.
    simpl in HN.
    destruct (written_row_derived _ _ _ HN Hrow) as (Htot & Hc' & Ht').
    exists row. simpl. rewrite lookup_insert_eq.
    split; [reflexivity|]. rewrite Hset in Htot.
    split; [exact Htot|]. rewrite Ht', Hc', Htot. rewrite <- Hc. auto.
  - injection H as <-. exists old. auto.
Qed.

(** The payment of 100.00 is marked completed by the owner of the tables,
    who also tries to set the commission to 0. *)
Lemma update_keeping_total_keeps_amounts_witness :
  exists row,
    transactions
      (run Rev001 (scenario_db Rev001)
         [(authenticated 2, 10, InsertTransaction 30 (payment 20 2 1 10000 None None));
          (table_owner, 11, UpdateTransaction 30
             (fun n => payment 20 2 1 (n_total_amount n) (Some 0) (n_teacher_amount n)))])
      !! 30%N = Some row /\
    total_amount row = 10000 /\
    platform_commission row = 1000 /\ teacher_amount row = 9000.
Proof.
  apply (update_keeping_total_keeps_amounts table_owner
           (run Rev001 (scenario_db Rev001)
              [(authenticated 2, 10,
                InsertTransaction 30 (payment 20 2 1 10000 None None))])
           _ 30%N
           {| t_booking_id := 20; t_student_id := 2; t_teacher_id := 1;
              total_amount := 10000; platform_commission := 1000;
              teacher_amount := 9000; t_payment_status := pay_pending;
              payment_method := Some "card"; transaction_ref := None;
              t_created_at := 10 |}
           (fun n => payment 20 2 1 (n_total_amount n) (Some 0) (n_teacher_amount n))).
  - vm_compute. reflexivity.
  - split; vm_compute; reflexivity.
  - reflexivity.
  - vm_compute. reflexivity.
Defined.

(** ** What a committed statement changes *)

Lemma is_Some_insert {A} (m : gmap N A) k v j :
  is_Some (m !! j) -> is_Some (<[k := v]> m !! j).
Proof.
  intros H. rewrite lookup_insert. destruct (decide (k = j)); [eauto|exact H].
Qed.

Ltac grows_solve :=
  repeat split; simpl; intros ? ?; try assumption; apply is_Some_insert; assumption.

Lemma lessons_fk_grows d d' l :
  grows d d' -> lessons_fk d l = true -> lessons_fk d' l = true.
Proof.
  intros (Hp & Hs & _). unfold lessons_fk.
  rewrite !andb_true_iff, !has_key_true. intros [H1 H2]. auto.
Qed.

Lemma bookings_fk_grows d d' b :
  grows d d' -> bookings_fk d b = true -> bookings_fk d' b = true.
Proof.
  intros (Hp & _ & Hl & _). unfold bookings_fk.
  rewrite !andb_true_iff, !has_key_true. intros [[H1 H2] H3]. auto.
Qed.

Lemma transactions_fk_grows d d' t :
  grows d d' -> transactions_fk d t = true -> transactions_fk d' t = true.
Proof.
  intros (Hp & _ & _ & Hb). unfold transactions_fk.
  rewrite !andb_true_iff, !has_key_true. intros [[H1 H2] H3]. auto.
Qed.

Lemma reviews_fk_grows d d' r :
  grows d d' -> reviews_fk d r = true -> reviews_fk d' r = true.
Proof.
  intros (Hp & _ & _ & Hb). unfold reviews_fk.
  rewrite !andb_true_iff, !has_key_true. intros [[H1 H2] H3]. auto.
Qed.

Lemma materials_fk_grows d d' (m : lesson_material) :
  grows d d' -> has_key (lessons d) (m_lesson_id m) = true ->
  has_key (lessons d') (m_lesson_id m) = true.
Proof. intros (_ & _ & Hl & _). rewrite !has_key_true. apply Hl. Qed.

Lemma lookup_insert_cases {A} (m : gmap N A) k v j x :
  <[k := v]> m !! j = Some x -> (j = k /\ x = v) \/ m !! j = Some x.
Proof.
  rewrite lookup_insert. destruct (decide (k = j)) as [->|].
  - intros [= <-]. auto.
  - auto.
Qed.

(** A row written with its references checked, or a row deleted to which
    nothing refers, keeps the references of the store. *)
Lemma grows_foreign_keys d d' :
  grows d d' ->
  (forall id l, lessons d' !! id = Some l ->
     lessons d !! id = Some l \/ lessons_fk d l = true) ->
  (forall id b, bookings d' !! id = Some b ->
     bookings d !! id = Some b \/ bookings_fk d b = true) ->
  (forall id t, transactions d' !! id = Some t ->
     transactions d !! id = Some t \/ transactions_fk d t = true) ->
  (forall r, r ∈ reviews d' -> r ∈ reviews d \/ reviews_fk d r = true) ->
  (forall id m, lesson_materials d' !! id = Some m ->
     lesson_materials d !! id = Some m \/
     has_key (lessons d) (m_lesson_id m) = true) ->
  foreign_keys_hold d -> foreign_keys_hold d'.
Proof.
  intros Hg Hl' Hb' Ht' Hr' Hm' (Hl & Hb & Ht & Hr & Hm).
  rewrite Forall_forall in Hr.
  split; [|split; [|split; [|split]]].
  - intros id l Hj. apply (lessons_fk_grows d); [exact Hg|].
    destruct (Hl' _ _ Hj); eauto.
  - intros id b Hj. apply (bookings_fk_grows d); [exact Hg|].
    destruct (Hb' _ _ Hj); eauto.
  - intros id t Hj. apply (transactions_fk_grows d); [exact Hg|].
    destruct (Ht' _ _ Hj); eauto.
  - apply Forall_forall. intros r Hin. apply (reviews_fk_grows d); [exact Hg|].
    destruct (Hr' _ Hin); eauto.
  - intros id m Hj. apply (materials_fk_grows d); [exact Hg|].
    destruct (Hm' _ _ Hj); eauto.
Qed.

Lemma has_key_filter {A} (g : uuid -> bool) (m : gmap N A) k :
  has_key m k = true -> g k = false ->
  has_key (filter (fun kx : N * A => g kx.1 = false) m) k = true.
Proof.
  rewrite !has_key_true. intros [x Hx] Hg. exists x.
  apply map_lookup_filter_Some. auto.
Qed.

Lemma lesson_stays gone_p gone_s gone_l d k :
  has_key (lessons d) k = true -> lesson_gone gone_p gone_s gone_l d k = false ->
  has_key (lessons (cascade gone_p gone_s gone_l nobody d)) k = true /\
  forall gone_b, has_key (lessons (cascade gone_p gone_s gone_l gone_b d)) k = true.
Proof.
  rewrite has_key_true. intros [l Hl] Hg. unfold lesson_gone in Hg.
  rewrite Hl in Hg.
  assert (H : forall gone_b,
            has_key (lessons (cascade gone_p gone_s gone_l gone_b d)) k = true).
  { intros gone_b. apply has_key_true. exists l. simpl.
    apply map_lookup_filter_Some. auto. }
  split; [apply H | exact H].
Qed.

Lemma booking_stays gone_p gone_s gone_l gone_b d k :
  has_key (bookings d) k = true ->
  booking_gone gone_p gone_s gone_l gone_b d k = false ->
  has_key (bookings (cascade gone_p gone_s gone_l gone_b d)) k = true.
Proof.
  rewrite !has_key_true. intros [b Hb] Hg. unfold booking_gone in Hg.
  rewrite Hb in Hg. exists b. simpl. apply map_lookup_filter_Some. auto.
Qed.

(** A deletion with its cascade leaves no reference dangling. *)
Lemma cascade_foreign_keys gone_p gone_s gone_l gone_b d :
  foreign_keys_hold d -> foreign_keys_hold (cascade gone_p gone_s gone_l gone_b d).
Proof.
  intros (Hl & Hb & Ht & Hr & Hm).
  assert (Hprof : forall k, has_key (profiles d) k = true -> gone_p k = false ->
            has_key (profiles (cascade gone_p gone_s gone_l gone_b d)) k = true).
  { intros k. apply has_key_filter. }
  split; [|split; [|split; [|split]]].
  - intros id l Hj. simpl in Hj. apply map_lookup_filter_Some in Hj as [Hj Hg].
    simpl in Hg. unfold lesson_goes in Hg.
    apply orb_false_iff in Hg as [Hg Hs]. apply orb_false_iff in Hg as [_ Hp].
    specialize (Hl _ _ Hj). unfold lessons_fk in *.
    apply andb_true_iff in Hl as [H1 H2]. apply andb_true_iff. split.
    + apply Hprof; assumption.
    + simpl. apply has_key_filter; assumption.
  - intros id b Hj. simpl in Hj. apply map_lookup_filter_Some in Hj as [Hj Hg].
    simpl in Hg. unfold booking_goes in Hg.
    apply orb_false_iff in Hg as [Hg Hpt]. apply orb_false_iff in Hg as [Hg Hps].
    apply orb_false_iff in Hg as [_ Hlg].
    specialize (Hb _ _ Hj). unfold bookings_fk in *.
    apply andb_true_iff in Hb as [Hb H3]. apply andb_true_iff in Hb as [H1 H2].
    rewrite !andb_true_iff. repeat split.
    + apply (lesson_stays _ _ _ _ _ H1 Hlg).
    + apply Hprof; assumption.
    + apply Hprof; assumption.
  - intros id t Hj. simpl in Hj. apply map_lookup_filter_Some in Hj as [Hj Hg].
    simpl in Hg.
    apply orb_false_iff in Hg as [Hg Hpt]. apply orb_false_iff in Hg as [Hbg Hps].
    specialize (Ht _ _ Hj). unfold transactions_fk in *.
    apply andb_true_iff in Ht as [Ht H3]. apply andb_true_iff in Ht as [H1 H2].
    rewrite !andb_true_iff. repeat split.
    + apply booking_stays; assumption.
    + apply Hprof; assumption.
    + apply Hprof; assumption.
  - apply Forall_forall. intros r Hin. simpl in Hin.
    apply list_elem_of_filter in Hin as [Hg Hin].
    apply orb_false_iff in Hg as [Hg Hpt]. apply orb_false_iff in Hg as [Hbg Hps].
    rewrite Forall_forall in Hr. specialize (Hr _ Hin). unfold reviews_fk in *.
    apply andb_true_iff in Hr as [Hr H3]. apply andb_true_iff in Hr as [H1 H2].
    rewrite !andb_true_iff. repeat split.
    + apply booking_stays; assumption.
    + apply Hprof; assumption.
    + apply Hprof; assumption.
  - intros id m Hj. simpl in Hj. apply map_lookup_filter_Some in Hj as [Hj Hg].
    simpl in Hg. apply (lesson_stays _ _ _ _ _ (Hm _ _ Hj) Hg).
Qed.

Lemma change_foreign_keys d d' :
  change d d' -> foreign_keys_hold d -> foreign_keys_hold d'.
Proof.
  intros Hch Hfk.
  destruct Hch; try (apply cascade_foreign_keys; exact Hfk);
    (apply (grows_foreign_keys d); [grows_solve| | | | | |exact Hfk]);
    simpl; intros;
    repeat match goal with
    | H : <[_ := _]> _ !! _ = Some _ |- _ =>
        apply lookup_insert_cases in H as [[_ ->]|H]
    | H : delete _ _ !! _ = Some _ |- _ => apply lookup_delete_Some in H as [_ H]
    | H : _ ∈ _ ++ [_] |- _ =>
        apply elem_of_app in H as [H|H]; [|apply list_elem_of_singleton in H as ->]
    | H : _ ∈ filter _ _ |- _ => apply list_elem_of_filter in H as [_ H]
    end; auto.
  (* an UPDATE of a review *)
  unfold replace_review in *.
  match goal with H : _ ∈ map _ _ |- _ =>
    apply list_elem_of_In, in_map_iff in H as (r0 & Hr0 & Hin) end.
  destruct (bool_decide (r_id r0 = r_id NEW)); subst; [auto|].
  left. apply list_elem_of_In. exact Hin.
Qed.

Lemma has_review_false d id :
  has_review d id = false -> ~ In id (map r_id (reviews d)).
Proof.
  unfold has_review. intros H Hin. apply in_map_iff in Hin as (r & Hid & Hin).
  assert (existsb (fun r => bool_decide (r_id r = id)) (reviews d) = true).
  { apply existsb_exists. exists r. split; [exact Hin|].
    apply bool_decide_eq_true_2. exact Hid. }
  congruence.
Qed.

Lemma filter_keeps_reviews (P : review -> Prop) `{!forall r, Decision (P r)} rs :
  Forall (fun r => reviews_check r = true) rs /\ NoDup (map r_id rs) ->
  Forall (fun r => reviews_check r = true) (filter P rs) /\
  NoDup (map r_id (filter P rs)).
Proof.
  induction rs as [|a rs IH]; [auto|]. intros [Hc Hu].
  apply Forall_cons in Hc as [Ha Hc]. simpl in Hu.
  apply NoDup_cons in Hu as [Hn Hu].
  destruct (IH (conj Hc Hu)) as [IHc IHu].
  rewrite filter_cons. destruct (decide (P a)); [|auto].
  split; [constructor; assumption|]. simpl. apply NoDup_cons. split; [|exact IHu].
  intros Hin. apply Hn. apply list_elem_of_In in Hin.
  apply in_map_iff in Hin as (r & Hr & Hin).
  apply list_elem_of_In, list_elem_of_filter in Hin as [_ Hin].
  apply list_elem_of_In. apply in_map_iff. exists r.
  split; [exact Hr|]. apply list_elem_of_In. exact Hin.
Qed.

Lemma change_reviews d d' :
  change d d' ->
  reviews_checked d /\ review_keys_unique d ->
  reviews_checked d' /\ review_keys_unique d'.
Proof.
  unfold reviews_checked, review_keys_unique.
  intros Hch [Hc Hu]. destruct Hch; simpl; try (split; assumption).
  - split.
    + apply Forall_app. split; [exact Hc|]. constructor; [assumption|constructor].
    + rewrite map_app. simpl. apply NoDup_app.
      split; [exact Hu|]. split.
      * intros x Hx Hx'. apply list_elem_of_singleton in Hx' as ->.
        apply list_elem_of_In in Hx. eapply has_review_false; eassumption.
      * apply NoDup_singleton.
  - split.
    + apply replace_review_checked; assumption.
    + rewrite replace_review_ids by reflexivity. exact Hu.
  - apply filter_keeps_reviews. auto.
  - apply filter_keeps_reviews. auto.
Qed.

Lemma change_store_ok d d' : change d d' -> store_ok d -> store_ok d'.
Proof.
  intros Hch (Hf & Hc & Hu). split; [eapply change_foreign_keys; eassumption|].
  eapply change_reviews; eauto.
Qed.

Lemma changes_store_ok d d' : rtc change d d' -> store_ok d -> store_ok d'.
Proof.
  induction 1 as [|d d1 d' Hch _ IH]; [auto|].
  intros Hok. apply IH. eapply change_store_ok; eassumption.
Qed.

Lemma update_profile_changes rev c d id set now d' :
  update_profile rev c d id set now = Ok d' -> rtc change d d'.
Proof.
  intros H. apply update_profile_Ok in H as [-> | (old & p & _ & _ & _ & ->)].
  - apply rtc_refl.
  - apply rtc_once. constructor.
Qed.

Lemma reviews_after_row_changes rev op c d NEW now d' :
  reviews_after_row rev op c d NEW now = Ok d' -> rtc change d d'.
Proof.
  destruct rev; simpl; intros H; [injection H as <-; apply rtc_refl|].
  destruct op; simpl in H;
    [eapply update_profile_changes; exact H
    |eapply update_profile_changes; exact H
    |injection H as <-; apply rtc_refl].
Qed.

Lemma insert_subject_Ok rev c d ss id NEW ss' :
  insert_subject rev c d ss id NEW = Ok ss' -> exists row, ss' = <[id := row]> ss.
Proof. unfold insert_subject. intros H. invert_ok. eauto. Qed.

Lemma update_subject_Ok rev c d ss id set ss' :
  update_subject rev c d ss id set = Ok ss' ->
  ss' = ss \/ exists row, ss' = <[id := row]> ss.
Proof. unfold update_subject. intros H. step_inv H; eauto. Qed.

Lemma insert_lesson_material_Ok c d ms id NEW ms' :
  insert_lesson_material c d ms id NEW = Ok ms' ->
  exists row, ms' = <[id := row]> ms /\
              has_key (lessons d) (m_lesson_id row) = true.
Proof. unfold insert_lesson_material. intros H. invert_ok. eauto. Qed.

(** Every committed statement is a sequence of such steps, each with its
    foreign keys checked (an UPDATE of a booking's status keeps the
    references of the row it finds). *)
Lemma execute_changes rev c now d s d' :
  foreign_keys_hold d ->
  execute rev c now d s = Ok d' -> rtc change d d'.
Proof.
  intros Hfk H. destruct s; simpl in H.
  - unfold handle_new_user in H. invert_ok. apply rtc_once. constructor.
  - eapply update_profile_changes; exact H.
  - unfold insert_lesson in H. invert_ok. apply rtc_once. constructor. assumption.
  - unfold update_lesson in H. step_inv H; try apply rtc_refl.
    apply rtc_once. constructor. assumption.
  - unfold insert_booking in H. invert_ok. apply rtc_once. constructor. assumption.
  - unfold update_booking_status in H. apply ensure_Ok in H as [_ H].
    destruct (bookings d !! id) as [old|] eqn:Hold; [|injection H as <-; apply rtc_refl].
    destruct (_ && _); injection H as <-; [|apply rtc_refl].
    apply rtc_once. constructor.
    destruct Hfk as (_ & Hb & _). specialize (Hb _ _ Hold).
    destruct rev; exact Hb.
  - unfold insert_transaction in H. invert_ok. apply rtc_once. constructor. assumption.
  - unfold update_transaction in H. apply ensure_Ok in H as [_ H].
    destruct (transactions d !! id); [|injection H as <-; apply rtc_refl].
    destruct (_ && _); [|injection H as <-; apply rtc_refl]. invert_ok.
    apply rtc_once. constructor. assumption.
  - unfold delete_transaction in H. step_inv H; try apply rtc_refl.
    apply rtc_once. constructor.
  - unfold insert_review in H. invert_ok.
    eapply rtc_l; [|eapply reviews_after_row_changes; exact H].
    constructor; try assumption.
    match goal with Hn : negb _ = true |- _ => apply negb_true_iff in Hn; exact Hn end.
  - unfold update_review in H. apply ensure_Ok in H as [_ H].
    destruct (find_review d id) as [old|]; [|injection H as <-; apply rtc_refl].
    destruct (reviews_update rev c old); [|injection H as <-; apply rtc_refl].
    invert_ok.
    eapply rtc_l; [|eapply reviews_after_row_changes; exact H].
    apply (change_review_replace d (with_r_id (set old) id)); assumption.
  - apply obind_Ok in H as (ss & Hss & H). injection H as <-.
    apply insert_subject_Ok in Hss as [row ->]. apply rtc_once. constructor.
  - apply obind_Ok in H as (ss & Hss & H). injection H as <-.
    apply update_subject_Ok in Hss as [-> | [row ->]].
    + destruct d; apply rtc_refl.
    + apply rtc_once. constructor.
  - destruct rev; [|discriminate].
    apply obind_Ok in H as (ms & Hms & H). injection H as <-.
    apply insert_lesson_material_Ok in Hms as (row & -> & Hl).
    apply rtc_once. constructor. exact Hl.
  - unfold delete_profile in H. step_inv H; try apply rtc_refl.
    apply rtc_once. constructor.
  - unfold delete_subject in H. step_inv H; try apply rtc_refl.
    apply rtc_once. constructor.
  - unfold delete_lesson in H. step_inv H; try apply rtc_refl.
    apply rtc_once. constructor.
  - unfold delete_booking in H. step_inv H; try apply rtc_refl.
    apply rtc_once. constructor.
  - unfold delete_review in H. step_inv H; try apply rtc_refl.
    apply rtc_once. constructor.
  - destruct rev; [|discriminate].
    unfold delete_lesson_material in H. step_inv H; try apply rtc_refl.
    apply rtc_once. constructor.
Qed.

Lemma run_store_ok rev h : forall d, store_ok d -> store_ok (run rev d h).
Proof.
  induction h as [|[[c now] s] h IH]; intros d Hok; simpl; [exact Hok|].
  apply IH. unfold commit.
  destruct (execute rev c now d s) as [d'|err] eqn:E; [|exact Hok].
  eapply changes_store_ok; [|exact Hok].
  eapply execute_changes; [apply Hok | exact E].
Qed.

Lemma empty_store_ok : store_ok empty_db.
Proof.
  repeat split; simpl; try (intros ? ? H; rewrite lookup_empty in H; discriminate);
    constructor.
Qed.

(** ** Invariants of every history *)

(** X4. Whatever statements have run since the empty store, in either
    revision, every stored review carries a rating from 1 to 5. *)
Theorem stored_ratings_between_1_and_5 (rev : revision)
  (h : list (caller * timestamptz * statement)) (r : review) :
  In r (reviews (run rev empty_db h)) -> 1 <= r_rating r <= 5.
Proof.
  intros Hin.
  destruct (run_store_ok rev h empty_db empty_store_ok) as (_ & Hc & _).
  unfold reviews_checked in Hc. rewrite Forall_forall in Hc.
  apply list_elem_of_In in Hin. specialize (Hc r Hin).
  unfold reviews_check in Hc. apply andb_true_iff in Hc as [H1 H2].
  apply Z.leb_le in H1, H2. lia.
Qed.

Lemma stored_ratings_between_1_and_5_witness :
  1 <= r_rating third_review <= 5.
Proof.
  apply (stored_ratings_between_1_and_5 Rev001 full_history third_review).
  vm_compute. auto.
Defined.

Lemma NoDup_map_eq {A B} (f : A -> B) (l : list A) x y :
  NoDup (map f l) -> In x l -> In y l -> f x = f y -> x = y.
Proof.
  induction l as [|a l IH]; simpl; intros Hnd Hx Hy Hf; [destruct Hx|].
  apply NoDup_cons in Hnd as [Ha Hnd].
  assert (Hin : forall z, In z l -> f z ∈ map f l).
  { intros z Hz. apply list_elem_of_In, in_map, Hz. }
  destruct Hx as [->|Hx], Hy as [->|Hy].
  - reflexivity.
  - exfalso. apply Ha. rewrite Hf. apply Hin, Hy.
  - exfalso. apply Ha. rewrite <- Hf. apply Hin, Hx.
  - apply IH; assumption.
Qed.

(** X5. The primary key of reviews: in every store reached from the empty
    one no two stored reviews share an id, although a statement may supply the
    id itself. *)
Theorem review_ids_never_repeat (rev : revision)
  (h : list (caller * timestamptz * statement)) (r1 r2 : review) :
  In r1 (reviews (run rev empty_db h)) ->
  In r2 (reviews (run rev empty_db h)) ->
  r_id r1 = r_id r2 -> r1 = r2.
Proof.
  intros H1 H2 Hid.
  destruct (run_store_ok rev h empty_db empty_store_ok) as (_ & _ & Hu).
  eapply NoDup_map_eq; eassumption.
Qed.

(** A second review under the id 40 is refused, so the one found is the
    first. *)
Lemma review_ids_never_repeat_witness :
  In (review_of 40 20 2 1 1)
     (reviews (run Rev001 empty_db
                 (full_history ++
                  [(table_owner, 15, InsertReview (review_of 40 21 3 1 5))]))) /\
  review_of 40 20 2 1 1 = review_of 40 20 2 1 1.
Proof.
  split; [vm_compute; auto|].
  apply (review_ids_never_repeat Rev001
           (full_history ++ [(table_owner, 15, InsertReview (review_of 40 21 3 1 5))])
           (review_of 40 20 2 1 1) (review_of 40 20 2 1 1)).
  - vm_compute. auto.
  - vm_compute. auto.
  - reflexivity.
Defined.

(** X6. Referential integrity: in every store reached from the empty one
    by inserts, updates and deletes with their cascades, in either revision,
    every row that a lesson, a booking, a transaction, a review or a lesson
    material refers to exists. *)
Theorem foreign_keys_never_dangle (rev : revision)
  (h : list (caller * timestamptz * statement)) :
  (forall id l, lessons (run rev empty_db h) !! id = Some l ->
     is_Some (profiles (run rev empty_db h) !! l_teacher_id l) /\
     is_Some (subjects (run rev empty_db h) !! l_subject_id l)) /\
  (forall id b, bookings (run rev empty_db h) !! id = Some b ->
     is_Some (lessons (run rev empty_db h) !! b_lesson_id b) /\
     is_Some (profiles (run rev empty_db h) !! b_student_id b) /\
     is_Some (profiles (run rev empty_db h) !! b_teacher_id b)) /\
  (forall id t, transactions (run rev empty_db h) !! id = Some t ->
     is_Some (bookings (run rev empty_db h) !! t_booking_id t) /\
     is_Some (profiles (run rev empty_db h) !! t_student_id t) /\
     is_Some (profiles (run rev empty_db h) !! t_teacher_id t)) /\
  (forall r, In r (reviews (run rev empty_db h)) ->
     is_Some (bookings (run rev empty_db h) !! r_booking_id r) /\
     is_Some (profiles (run rev empty_db h) !! r_student_id r) /\
     is_Some (profiles (run rev empty_db h) !! r_teacher_id r)) /\
  (forall id m, lesson_materials (run rev empty_db h) !! id = Some m ->
     is_Some (lessons (run rev empty_db h) !! m_lesson_id m)).
Proof.
  destruct (run_store_ok rev h empty_db empty_store_ok) as (Hf & _ & _).
  destruct Hf as (Hl & Hb & Ht & Hr & Hm).
  split; [|split; [|split; [|split]]].
  - intros id l Hlk. specialize (Hl id l Hlk).
    unfold lessons_fk in Hl. rewrite !andb_true_iff, !has_key_true in Hl. tauto.
  - intros id b Hlk. specialize (Hb id b Hlk).
    unfold bookings_fk in Hb. rewrite !andb_true_iff, !has_key_true in Hb. tauto.
  - intros id t Hlk. specialize (Ht id t Hlk).
    unfold transactions_fk in Ht. rewrite !andb_true_iff, !has_key_true in Ht. tauto.
  - intros r Hin. rewrite Forall_forall in Hr.
    apply list_elem_of_In in Hin. specialize (Hr r Hin).
    unfold reviews_fk in Hr. rewrite !andb_true_iff, !has_key_true in Hr. tauto.
  - intros id m Hlk. apply has_key_true. eapply Hm. exact Hlk.
Qed.

Lemma execute_transactions rev c now d s d' :
  execute rev c now d s = Ok d' ->
  forall id t, transactions d' !! id = Some t ->
    transactions d !! id = Some t \/
    exists NEW NEW',
      transactions_before_row rev NEW = Ok NEW' /\
      transactions_not_null NEW' = Ok t.
Proof.
  intros H id0 t Hlk. destruct s; simpl in H.
  - unfold handle_new_user in H. invert_ok. auto.
  - apply update_profile_Ok in H as [-> | (old & p & _ & _ & _ & ->)]; auto.
  - unfold insert_lesson in H. invert_ok. auto.
  - unfold update_lesson in H. step_inv H; auto.
  - unfold insert_booking in H. invert_ok. auto.
  - unfold update_booking_status in H. step_inv H; auto.
  - unfold insert_transaction in H. invert_ok. simpl in Hlk.
    apply lookup_insert_cases in Hlk as [[_ ->]|Hlk]; [right; eauto|auto].
  - unfold update_transaction in H. apply ensure_Ok in H as [_ H].
    destruct (transactions d !! id); [|injection H as <-; auto].
    destruct (_ && _); [|injection H as <-; auto]. invert_ok. simpl in Hlk.
    apply lookup_insert_cases in Hlk as [[_ ->]|Hlk]; [right; eauto|auto].
  - unfold delete_transaction in H. step_inv H; auto.
    simpl in Hlk. apply lookup_delete_Some in Hlk as [_ Hlk]. auto.
  - unfold insert_review in H. invert_ok.
    apply reviews_after_row_frame in H as (_ & _ & _ & Ht).
    rewrite Ht in Hlk. auto.
  - apply update_review_Ok in H as [-> | (old & _ & _ & Htrig)]; [auto|].
    apply reviews_after_row_frame in Htrig as (_ & _ & _ & Ht).
    rewrite Ht in Hlk. auto.
  - apply obind_Ok in H as (ss & _ & H). injection H as <-. auto.
  - apply obind_Ok in H as (ss & _ & H). injection H as <-. auto.
  - destruct rev; [|discriminate].
    apply obind_Ok in H as (ms & _ & H). injection H as <-. auto.
  - unfold delete_profile in H. step_inv H; auto.
    simpl in Hlk. apply map_lookup_filter_Some in Hlk as [Hlk _]. auto.
  - unfold delete_subject in H. step_inv H; auto.
    simpl in Hlk. apply map_lookup_filter_Some in Hlk as [Hlk _]. auto.
  - unfold delete_lesson in H. step_inv H; auto.
    simpl in Hlk. apply map_lookup_filter_Some in Hlk as [Hlk _]. auto.
  - unfold delete_booking in H. step_inv H; auto.
    simpl in Hlk. apply map_lookup_filter_Some in Hlk as [Hlk _]. auto.
  - unfold delete_review in H. step_inv H; auto.
  - destruct rev; [|discriminate].
    unfold delete_lesson_material in H. step_inv H; auto.
Qed.

Lemma run_ledger h : forall d,
  (forall id t, transactions d !! id = Some t -> amounts_derived t) ->
  forall id t, transactions (run Rev001 d h) !! id = Some t -> amounts_derived t.
Proof.
  induction h as [|[[c now] s] h IH]; intros d Hd; simpl; [exact Hd|].
  apply IH. unfold commit.
  destruct (execute Rev001 c now d s) as [d'|err] eqn:E; [|exact Hd].
  intros id t Hlk.
  destruct (execute_transactions _ _ _ _ _ _ E id t Hlk)
    as [Hold | (NEW & NEW' & HN & Hrow)]; [eapply Hd; exact Hold|].
  simpl in HN. eapply written_row_derived; eassumption.
Qed.

(** X7. The ledger invariant of part_001: in every store reached from the
    empty one, every stored transaction has the commission round(total * 0.10)
    and the teacher amount total - commission, whatever the statements
    supplied and in whatever order inserts, updates and deletes ran. *)
Theorem ledger_amounts_always_derived
  (h : list (caller * timestamptz * statement)) (id : uuid) (t : transaction) :
  transactions (run Rev001 empty_db h) !! id = Some t ->
  amounts_derived t /\
  platform_commission t + teacher_amount t = total_amount t.
Proof.
  intros Hlk.
  assert (Hd : amounts_derived t).
  { eapply (run_ledger h empty_db); [|exact Hlk].
    intros i x Hx. simpl in Hx. rewrite lookup_empty in Hx. discriminate. }
  split; [exact Hd|]. destruct Hd as [_ Ht]. lia.
Qed.

Lemma ledger_amounts_always_derived_witness :
  exists t,
    transactions
      (run Rev001 empty_db
         (scenario ++
          [(authenticated 2, 10, InsertTransaction 30 (payment 20 2 1 10005 (Some 1) None));
           (table_owner, 11, UpdateTransaction 30
              (fun n => payment 20 2 1 (-335) (Some 7) (Some 8)))])) !! 30%N
    = Some t /\
    amounts_derived t /\
    platform_commission t + teacher_amount t = total_amount t.
Proof.
  eexists. split; [vm_compute; reflexivity|].
  eapply (ledger_amounts_always_derived
            (scenario ++
             [(authenticated 2, 10,
               InsertTransaction 30 (payment 20 2 1 10005 (Some 1) None));
              (table_owner, 11, UpdateTransaction 30
                 (fun n => payment 20 2 1 (-335) (Some 7) (Some 8)))]) 30%N).
  vm_compute. reflexivity.
Defined.

(** ** Who may read and write what *)



(** X9. part_000 has no trigger on transactions: an INSERT under row
    security is accepted exactly when the caller is an admin, both derived
    columns are supplied, the key is free and the references exist, and then
    the commission and the teacher amount are stored as supplied. *)
Theorem part_000_stores_what_the_admin_supplies (c : caller) (d : db)
  (id : uuid) (NEW : new_transaction) :
  rls_exempt c = false ->
  ((exists d', insert_transaction Rev000 c d id NEW = Ok d') <->
   is_admin c d = true /\
   is_Some (n_platform_commission NEW) /\ is_Some (n_teacher_amount NEW) /\
   transactions d !! id = None /\
   is_Some (bookings d !! n_booking_id NEW) /\
   is_Some (profiles d !! n_student_id NEW) /\
   is_Some (profiles d !! n_teacher_id NEW)) /\
  (forall d', insert_transaction Rev000 c d id NEW = Ok d' ->
   exists t, transactions d' !! id = Some t /\
     total_amount t = n_total_amount NEW /\
     Some (platform_commission t) = n_platform_commission NEW /\
     Some (teacher_amount t) = n_teacher_amount NEW).
Proof.
  intros Hc.
  assert (Hinv : forall d', insert_transaction Rev000 c d id NEW = Ok d' ->
    exists pc ta,
      is_admin c d = true /\ n_platform_commission NEW = Some pc /\
      n_teacher_amount NEW = Some ta /\ transactions d !! id = None /\
      transactions_fk d
        {| t_booking_id := n_booking_id NEW; t_student_id := n_student_id NEW;
           t_teacher_id := n_teacher_id NEW; total_amount := n_total_amount NEW;
           platform_commission := pc; teacher_amount := ta;
           t_payment_status := n_payment_status NEW;
           payment_method := n_payment_method NEW;
           transaction_ref := n_transaction_ref NEW;
           t_created_at := n_created_at NEW |} = true /\
      exists t, transactions d' !! id = Some t /\
        total_amount t = n_total_amount NEW /\
        platform_commission t = pc /\ teacher_amount t = ta).
  { intros d' H. unfold insert_transaction in H. simpl in H.
    apply ensure_Ok in H as [_ H]. apply ensure_Ok in H as [Hp H].
    unfold transactions_insert_check in Hp. rewrite Hc in Hp. simpl in Hp.
    apply obind_Ok in H as (row & Hrow & H).
    apply ensure_Ok in H as [Hk H]. apply ensure_Ok in H as [Hf H].
    injection H as <-. unfold transactions_not_null in Hrow.
    destruct (n_platform_commission NEW) as [pc|]; [|discriminate].
    destruct (n_teacher_amount NEW) as [ta|]; [|discriminate].
    injection Hrow as <-. exists pc, ta.
    apply negb_true_iff, has_key_false in Hk.
    repeat split; try assumption.
    eexists. simpl. rewrite lookup_insert_eq. repeat split. }
  split; [split|].
  - intros [d' H]. apply Hinv in H as (pc & ta & Ha & -> & -> & Hk & Hf & _).
    unfold transactions_fk in Hf. simpl in Hf.
    rewrite !andb_true_iff, !has_key_true in Hf. intuition eauto.
  - intros (Ha & [pc Hpc] & [ta Hta] & Hk & Hb & Hs & Ht).
    eexists. unfold insert_transaction, transactions_insert_check.
    rewrite policies_expand_part_000. simpl.
    rewrite Hc, Ha. simpl. unfold transactions_not_null. rewrite Hpc, Hta.
    simpl. apply has_key_false in Hk. rewrite Hk. simpl.
    unfold transactions_fk. simpl. apply has_key_true in Hb, Hs, Ht.
    rewrite Hb, Hs, Ht. simpl. reflexivity.
  - intros d' H. apply Hinv in H as (pc & ta & _ & -> & -> & _ & _ & t & Hlk & H1 & H2 & H3).
    exists t. repeat split; congruence.
Qed.

(** Admin 3 records a payment of 100.00 with a commission of 50.00. *)
Lemma part_000_stores_what_the_admin_supplies_witness :
  exists t,
    transactions
      (commit Rev000 (authenticated 3) 10 (scenario_db Rev000)
         (InsertTransaction 30 (payment 20 2 1 10000 (Some 5000) (Some 1)))) !! 30%N
    = Some t /\
    total_amount t = 10000 /\
    Some (platform_commission t) = Some 5000 /\
    Some (teacher_amount t) = Some 1.
Proof.
  apply (proj2 (part_000_stores_what_the_admin_supplies (authenticated 3)
                  (scenario_db Rev000) 30
                  (payment 20 2 1 10000 (Some 5000) (Some 1)) eq_refl)).
  vm_compute. reflexivity.
Defined.

(** X10. bookings under row security. In part_000 a SELECT returns exactly
    the bookings of which the caller is the student or the teacher; part_000
    has no admin policy on bookings. In part_001 every SELECT on bookings
    fails with 42P17. *)
Theorem bookings_visible_to_participants (c : caller) (d : db) :
  rls_exempt c = false ->
  (exists m, select_bookings Rev000 c d = Ok m /\
     forall id b, m !! id = Some b <->
       bookings d !! id = Some b /\
       (is_uid c (b_student_id b) = true \/ is_uid c (b_teacher_id b) = true)) /\
  select_bookings Rev001 c d = Err infinite_recursion.
Proof.
  intros Hc. split.
  - unfold select_bookings. rewrite policies_expand_part_000.
    eexists. split; [reflexivity|]. intros id b.
    rewrite map_lookup_filter_Some. unfold bookings_select. simpl.
    rewrite Hc. simpl. rewrite !orb_true_iff. tauto.
  - unfold select_bookings.
    rewrite policies_expand_part_001; [reflexivity | exact Hc|].
    left. split; [auto | discriminate].
Qed.

(** Admin 3 does not see booking 20 of student 2 in part_000. *)
Lemma bookings_visible_to_participants_witness :
  exists m, select_bookings Rev000 (authenticated 3) (scenario_db Rev000) = Ok m /\
            m !! 20%N = None /\ is_Some (m !! 21%N).
Proof.
  destruct (bookings_visible_to_participants (authenticated 3)
              (scenario_db Rev000) eq_refl) as [(m & Hm & Hiff) _].
  exists m. split; [exact Hm|]. split.
  - destruct (m !! 20%N) as [b|] eqn:E; [|reflexivity].
    apply Hiff in E as [Hb [Hs | Ht]].
    + vm_compute in Hb. injection Hb as <-. vm_compute in Hs. discriminate.
    + vm_compute in Hb. injection Hb as <-. vm_compute in Ht. discriminate.
  - eexists. apply Hiff. split; [vm_compute; reflexivity|].
    left. vm_compute. reflexivity.
Defined.

(** X11. The status of a booking is not guarded by any transition rule. In
    part_000 its student or its teacher can set any of the four statuses from
    any other, also back from completed or cancelled, the other columns
    staying as they are; a caller under row security who is neither, an admin
    included, changes nothing. In part_001 the UPDATE fails with 42P17 for
    every caller under row security; for the owner of the tables it is
    carried out and updated_at is set to the time of the statement. *)
Theorem booking_status_is_free_for_participants (c : caller)
  (d : db) (id : uuid) (b : booking) (s : booking_status) (now : timestamptz) :
  bookings d !! id = Some b ->
  (is_uid c (b_student_id b) = true \/ is_uid c (b_teacher_id b) = true ->
   exists d' b',
     update_booking_status Rev000 c d id s now = Ok d' /\
     bookings d' !! id = Some b' /\ status b' = s /\
     b_lesson_id b' = b_lesson_id b /\ b_student_id b' = b_student_id b /\
     b_teacher_id b' = b_teacher_id b /\ scheduled_at b' = scheduled_at b /\
     b_created_at b' = b_created_at b /\ b_updated_at b' = b_updated_at b) /\
  (rls_exempt c = false -> is_uid c (b_student_id b) = false ->
   is_uid c (b_teacher_id b) = false ->
   update_booking_status Rev000 c d id s now = Ok d) /\
  (rls_exempt c = false ->
   update_booking_status Rev001 c d id s now = Err infinite_recursion) /\
  (rls_exempt c = true ->
   exists d' b',
     update_booking_status Rev001 c d id s now = Ok d' /\
     bookings d' !! id = Some b' /\ status b' = s /\ b_updated_at b' = now).
Proof.
  intros Hb. split; [|split; [|split]].
  - intros Hpart. unfold update_booking_status.
    rewrite policies_expand_part_000. simpl. rewrite Hb.
    assert (Hv : bookings_update c b && bookings_select Rev000 c d b = true).
    { unfold bookings_update, bookings_select.
      destruct Hpart as [-> | ->]; destruct (rls_exempt c); simpl;
        rewrite ?orb_true_r; reflexivity. }
    rewrite Hv. eexists. eexists. split; [reflexivity|]. simpl.
    rewrite lookup_insert_eq. repeat split.
  - intros Hc Hs Ht. unfold update_booking_status, bookings_update.
    rewrite policies_expand_part_000. simpl. rewrite Hb, Hc, Hs, Ht. reflexivity.
  - intros Hc. unfold update_booking_status.
    rewrite policies_expand_part_001; [reflexivity | exact Hc|].
    left. split; [auto | discriminate].
  - intros Hc. unfold update_booking_status, bookings_update, bookings_select.
    rewrite policies_expand_exempt by exact Hc. simpl. rewrite Hb, Hc. simpl.
    eexists. eexists. split; [reflexivity|]. simpl.
    rewrite lookup_insert_eq. repeat split.
Qed.

(** Student 2 sets the completed booking 20 back to pending in part_000. *)
Lemma booking_status_is_free_for_participants_witness :
  exists d' b',
    update_booking_status Rev000 (authenticated 2) (scenario_db Rev000) 20
      pending 30 = Ok d' /\
    bookings d' !! 20%N = Some b' /\ status b' = pending.
Proof.
  destruct (booking_status_is_free_for_participants (authenticated 2)
              (scenario_db Rev000) 20
              {| b_lesson_id := 10; b_student_id := 2; b_teacher_id := 1;
                 scheduled_at := 50; status := completed; meeting_link := None;
                 notes := None; b_created_at := 6; b_updated_at := 6 |}
              pending 30) as [H _]; [vm_compute; reflexivity|].
  destruct H as (d' & b' & H1 & H2 & H3 & _); [left; reflexivity|].
  exists d', b'. auto.
Defined.

(** X12. lessons under row security. In part_000 a SELECT returns exactly
    the lessons that are active or taught by the caller, so that an inactive
    lesson is hidden from everyone but its teacher by the policies alone. In
    part_001 every SELECT on lessons fails with 42P17. *)
Theorem lessons_visible_iff (c : caller) (d : db) :
  rls_exempt c = false ->
  (exists m, select_lessons Rev000 c d = Ok m /\
     forall id l, m !! id = Some l <->
       lessons d !! id = Some l /\
       (is_active l = true \/ is_uid c (l_teacher_id l) = true)) /\
  select_lessons Rev001 c d = Err infinite_recursion.
Proof.
  intros Hc. split; [|apply select_lessons_part_001; exact Hc].
  unfold select_lessons. rewrite policies_expand_part_000.
  eexists. split; [reflexivity|]. intros id l.
  rewrite map_lookup_filter_Some. unfold lessons_select. simpl.
  rewrite Hc. simpl. rewrite !orb_true_iff. tauto.
Qed.

(** The inactive lesson 11 is hidden from student 2 and shown to teacher 1. *)
Lemma lessons_visible_iff_witness :
  (exists m, select_lessons Rev000 (authenticated 2) (scenario_db Rev000) = Ok m /\
             m !! 11%N = None /\ is_Some (m !! 10%N)) /\
  (exists m, select_lessons Rev000 (authenticated 1) (scenario_db Rev000) = Ok m /\
             is_Some (m !! 11%N)).
Proof.
  split.
  - destruct (lessons_visible_iff (authenticated 2) (scenario_db Rev000) eq_refl)
      as [(m & Hm & Hiff) _].
    exists m. split; [exact Hm|]. split.
    + destruct (m !! 11%N) as [l|] eqn:E; [|reflexivity].
      apply Hiff in E as [Hl [Ha | Ht]].
      * vm_compute in Hl. injection Hl as <-. discriminate.
      * vm_compute in Hl. injection Hl as <-. vm_compute in Ht. discriminate.
    + eexists. apply Hiff. split; [vm_compute; reflexivity|]. left. reflexivity.
  - destruct (lessons_visible_iff (authenticated 1) (scenario_db Rev000) eq_refl)
      as [(m & Hm & Hiff) _].
    exists m. split; [exact Hm|].
    eexists. apply Hiff. split; [vm_compute; reflexivity|].
    right. vm_compute. reflexivity.
Defined.

Lemma before_update_teacher rev (l : lesson) now :
  l_teacher_id (before_update rev l now) = l_teacher_id l.
Proof. destruct rev; reflexivity. Qed.



(** X14. Deactivating a lesson in part_000: when its teacher sets is_active
    to false, the lesson is no longer among the active lessons HomePage
    counts for any caller, it is hidden by the policies from every caller
    under row security other than the teacher, it stays readable by the
    teacher, and the active lessons counted otherwise are as before. *)
Theorem deactivated_lesson_leaves_the_listing (u : uuid)
  (d : db) (id : uuid) (old : lesson) (now : timestamptz) :
  lessons d !! id = Some old ->
  l_teacher_id old = u ->
  is_Some (profiles d !! u) ->
  is_Some (subjects d !! l_subject_id old) ->
  exists d',
    update_lesson Rev000 (authenticated u) d id (fun l => with_is_active l false) now
      = Ok d' /\
    (forall c, exists m, fetchStats_lessons Rev000 c d' = Ok m /\ m !! id = None) /\
    (forall c, rls_exempt c = false -> is_uid c u = false ->
       exists m, select_lessons Rev000 c d' = Ok m /\ m !! id = None) /\
    (exists m, select_lessons Rev000 (authenticated u) d' = Ok m /\
               is_Some (m !! id)) /\
    (forall c j m m', j <> id ->
       fetchStats_lessons Rev000 c d = Ok m ->
       fetchStats_lessons Rev000 c d' = Ok m' -> m' !! j = m !! j).
Proof.
  intros Hold Hu Hp Hsub.
  set (NEW := with_is_active old false).
  assert (Hw : forall l, l_teacher_id l = u -> lessons_write (authenticated u) l = true).
  { intros l Hl. unfold lessons_write, is_uid. simpl.
    apply bool_decide_eq_true_2. exact Hl. }
  assert (Hs : forall d0 l, l_teacher_id l = u ->
            lessons_select Rev000 (authenticated u) d0 l = true).
  { intros d0 l Hl. unfold lessons_select, is_uid. simpl.
    rewrite (bool_decide_eq_true_2 _ Hl). apply orb_true_r. }
  exists (with_lessons d (<[id := NEW]> (lessons d))).
  split; [|split; [|split; [|split]]].
  - unfold update_lesson. rewrite policies_expand_part_000. simpl.
    rewrite Hold, (Hw _ Hu), (Hs d _ Hu). simpl. fold NEW.
    rewrite (Hw NEW Hu). simpl. unfold lessons_fk. simpl. rewrite Hu.
    apply has_key_true in Hp, Hsub. rewrite Hp, Hsub. reflexivity.
  - intros c. unfold fetchStats_lessons. rewrite policies_expand_part_000.
    eexists. split; [reflexivity|].
    match goal with |- ?m !! id = None =>
      destruct (m !! id) as [l|] eqn:E; [|reflexivity] end.
    apply map_lookup_filter_Some in E as [E Ha].
    apply map_lookup_filter_Some in E as [E _]. simpl in E, Ha.
    rewrite lookup_insert_eq in E. injection E as <-. discriminate.
  - intros c Hc Hcu. unfold select_lessons. rewrite policies_expand_part_000.
    eexists. split; [reflexivity|].
    match goal with |- ?m !! id = None =>
      destruct (m !! id) as [l|] eqn:E; [|reflexivity] end.
    apply map_lookup_filter_Some in E as [E Hv]. simpl in E, Hv.
    rewrite lookup_insert_eq in E. injection E as <-.
    unfold lessons_select in Hv. simpl in Hv. rewrite Hc, Hu, Hcu in Hv.
    discriminate.
  - unfold select_lessons. rewrite policies_expand_part_000.
    eexists. split; [reflexivity|]. exists NEW.
    apply map_lookup_filter_Some. simpl. rewrite lookup_insert_eq.
    split; [reflexivity|]. apply Hs. exact Hu.
  - intros c j m m' Hj Hm Hm'. unfold fetchStats_lessons in Hm, Hm'.
    rewrite policies_expand_part_000 in Hm, Hm'. simpl in Hm, Hm'.
    injection Hm as <-. injection Hm' as <-.
    apply option_eq. intros l. rewrite !map_lookup_filter_Some. simpl.
    rewrite lookup_insert_ne by congruence. reflexivity.
Qed.

(** Teacher 1 deactivates lesson 10. *)
Lemma deactivated_lesson_leaves_the_listing_witness :
  exists d',
    update_lesson Rev000 (authenticated 1) (scenario_db Rev000) 10
      (fun l => with_is_active l false) 30 = Ok d' /\
    (forall c, exists m, fetchStats_lessons Rev000 c d' = Ok m /\ m !! 10%N = None) /\
    (forall c, rls_exempt c = false -> is_uid c 1 = false ->
       exists m, select_lessons Rev000 c d' = Ok m /\ m !! 10%N = None) /\
    (exists m, select_lessons Rev000 (authenticated 1) d' = Ok m /\
               is_Some (m !! 10%N)) /\
    (forall c j m m', j <> 10%N ->
       fetchStats_lessons Rev000 c (scenario_db Rev000) = Ok m ->
       fetchStats_lessons Rev000 c d' = Ok m' -> m' !! j = m !! j).
Proof.
  apply (deactivated_lesson_leaves_the_listing 1 (scenario_db Rev000) 10
           (lesson_of 1 true) 30).
  - vm_compute. reflexivity.
  - reflexivity.
  - vm_compute. eauto.
  - vm_compute. eauto.
Defined.

Lemma select_profiles_part_000 c d : select_profiles Rev000 c d = Ok (profiles d).
Proof.
  unfold select_profiles. rewrite policies_expand_part_000. simpl. f_equal.
  apply map_filter_id. intros i x _. unfold profiles_select. simpl.
  apply orb_true_r.
Qed.

Lemma select_profiles_part_001 c d :
  rls_exempt c = false -> select_profiles Rev001 c d = Err infinite_recursion.
Proof.
  intros Hc. unfold select_profiles.
  rewrite policies_expand_part_001; [reflexivity | exact Hc|].
  left. split; [auto | discriminate].
Qed.

(** X15. profiles under row security. In part_000 a SELECT returns every
    profile to every caller. In part_001 every SELECT on profiles fails with
    42P17, also for the own profile. *)
Theorem profiles_visible_iff (c : caller) (d : db) :
  rls_exempt c = false ->
  select_profiles Rev000 c d = Ok (profiles d) /\
  select_profiles Rev001 c d = Err infinite_recursion.
Proof.
  intros Hc. split;
    [apply select_profiles_part_000 | apply select_profiles_part_001; exact Hc].
Qed.

(** Student 2 asks for the profiles in part_001. *)
Lemma profiles_visible_iff_witness :
  select_profiles Rev001 (authenticated 2) (scenario_db Rev001)
  = Err infinite_recursion.
Proof.
  apply (profiles_visible_iff (authenticated 2) (scenario_db Rev001) eq_refl).
Defined.

(** X16. Who writes a profile. In part_000 an UPDATE of a profile by a
    caller under row security who is not its owner changes nothing, whatever
    its SET clause, for admins too. In part_001 every UPDATE on profiles by a
    caller under row security fails with 42P17, the owner's included. *)
Theorem profiles_written_by_owner_only (c : caller) (d : db)
  (id : uuid) (set : profile -> outcome profile) (now : timestamptz) :
  rls_exempt c = false ->
  (is_uid c id = false -> update_profile Rev000 c d id set now = Ok d) /\
  update_profile Rev001 c d id set now = Err infinite_recursion.
Proof.
  intros Hc. split; [|apply update_profile_part_001; exact Hc].
  intros Hu. unfold update_profile, profiles_update.
  rewrite policies_expand_part_000, Hc, Hu. simpl.
  destruct (profiles d !! id); reflexivity.
Qed.

(** Admin 3 cannot change the row of teacher 1 in part_000. *)
Lemma profiles_written_by_owner_only_witness :
  update_profile Rev000 (authenticated 3) (scenario_db Rev000) 1
    (fun p => Ok (set_rating p 500 0)) 30 = Ok (scenario_db Rev000).
Proof.
  apply (proj1 (profiles_written_by_owner_only (authenticated 3)
                  (scenario_db Rev000) 1 (fun p => Ok (set_rating p 500 0)) 30
                  eq_refl)).
  vm_compute. reflexivity.
Defined.

(** X17. In part_000 the UPDATE policy on profiles covers every column,
    user_type included: any signed-in user whose row satisfies the column
    types can set the own user_type to admin, passes the admin test of the
    policies on subjects and transactions from then on, and no other row
    changes. *)
Theorem any_user_can_become_admin (u : uuid) (d : db)
  (p : profile) (now : timestamptz) :
  profiles d !! u = Some p ->
  Z.abs (rating p) < 1000 ->
  (char_length (email p) <= 255)%nat ->
  (char_length (full_name p) <= 100)%nat ->
  exists d',
    update_profile Rev000 (authenticated u) d u
      (fun p => Ok (with_user_type p admin)) now = Ok d' /\
    is_admin (authenticated u) d' = true /\
    subjects_write (authenticated u) d' = true /\
    transactions_insert_check Rev000 (authenticated u) d' = true /\
    (forall j, j <> u -> profiles d' !! j = profiles d !! j) /\
    subjects d' = subjects d /\
    lessons d' = lessons d /\ bookings d' = bookings d /\
    transactions d' = transactions d /\ reviews d' = reviews d.
Proof.
  intros Hp Hr H1 H2.
  set (NEW := with_user_type p admin).
  exists (with_profiles d (<[u := NEW]> (profiles d))).
  assert (Ha : is_admin (authenticated u)
                 (with_profiles d (<[u := NEW]> (profiles d))) = true).
  { unfold is_admin. simpl. rewrite lookup_insert_eq. reflexivity. }
  split; [|split; [exact Ha|split; [|split; [|split]]]].
  - unfold update_profile, profiles_update, profiles_select, is_uid.
    rewrite policies_expand_part_000. simpl. rewrite Hp.
    rewrite !(bool_decide_eq_true_2 (u = u)) by reflexivity. simpl.
    fold NEW. unfold profiles_columns. simpl.
    change (10 ^ 3) with 1000. apply Z.ltb_lt in Hr. rewrite Hr. simpl.
    apply Nat.leb_le in H1, H2. rewrite H1, H2. simpl.
    rewrite String.eqb_refl. reflexivity.
  - unfold subjects_write. rewrite Ha. reflexivity.
  - unfold transactions_insert_check. rewrite Ha. reflexivity.
  - intros j Hj. simpl. apply lookup_insert_ne. congruence.
  - repeat split.
Qed.

(** Student 2 of the worked store. *)
Lemma any_user_can_become_admin_witness :
  exists d',
    update_profile Rev000 (authenticated 2) (scenario_db Rev000) 2
      (fun p => Ok (with_user_type p admin)) 30 = Ok d' /\
    is_admin (authenticated 2) d' = true /\
    subjects_write (authenticated 2) d' = true /\
    transactions_insert_check Rev000 (authenticated 2) d' = true /\
    (forall j, j <> 2%N -> profiles d' !! j = profiles (scenario_db Rev000) !! j) /\
    subjects d' = subjects (scenario_db Rev000) /\
    lessons d' = lessons (scenario_db Rev000) /\
    bookings d' = bookings (scenario_db Rev000) /\
    transactions d' = transactions (scenario_db Rev000) /\
    reviews d' = reviews (scenario_db Rev000).
Proof.
  apply (any_user_can_become_admin 2 (scenario_db Rev000)
           {| email := "s1@example.org"; full_name := "User";
              p_user_type := student; is_verified := false; rating := 0;
              total_students := 0; total_lessons := 0;
              p_created_at := 2; p_updated_at := 2 |} 30).
  - vm_compute. reflexivity.
  - simpl. lia.
  - apply Nat.leb_le. reflexivity.
  - apply Nat.leb_le. reflexivity.
Defined.

(** X18. Stored reviews are changed by their author only: in part_000,
    which declares no UPDATE policy on reviews, an UPDATE by any caller under
    row security changes nothing; in part_001 the same holds for every caller
    who is not the student of the addressed review. *)
Theorem reviews_updated_by_author_only (rev : revision) (c : caller) (d : db)
  (id : uuid) (set : review -> review) (now : timestamptz) :
  rls_exempt c = false ->
  rev = Rev000 \/
    (forall old, find_review d id = Some old -> is_uid c (r_student_id old) = false) ->
  update_review rev c d id set now = Ok d.
Proof.
  intros Hc Hrev. unfold update_review.
  rewrite policies_expand_reviews by discriminate. simpl.
  destruct (find_review d id) as [old|]; [|reflexivity].
  unfold reviews_update. rewrite Hc. simpl.
  destruct Hrev as [-> | Hno]; [reflexivity|].
  rewrite (Hno old eq_refl). destruct rev; reflexivity.
Qed.

(** Teacher 1 tries to raise the rating student 2 gave. *)
Lemma reviews_updated_by_author_only_witness :
  update_review Rev001 (authenticated 1)
    (run Rev001 (scenario_db Rev001) two_reviews) 40
    (fun r => review_of 40 20 2 1 5) 30
  = Ok (run Rev001 (scenario_db Rev001) two_reviews).
Proof.
  apply reviews_updated_by_author_only; [reflexivity|].
  right. intros old Hold. vm_compute in Hold. injection Hold as <-.
  vm_compute. reflexivity.
Defined.

(** X19. A review write touches one profile at most: after an accepted
    INSERT or UPDATE of a review every profile other than the one of the
    teacher named by the NEW row is as before, and so are lessons, bookings
    and transactions. In particular the teacher an UPDATE moves a review away
    from keeps the old rating. *)
Theorem review_write_touches_one_profile (rev : revision) (c : caller)
  (now : timestamptz) (d d' : db) (NEW : review) :
  review_write rev c now d NEW d' ->
  (forall j, j <> r_teacher_id NEW -> profiles d' !! j = profiles d !! j) /\
  lessons d' = lessons d /\ bookings d' = bookings d /\
  transactions d' = transactions d.
Proof.
  intros Hw. apply review_write_inv in Hw as (rs & _ & _ & _ & _ & Htrig).
  pose proof (reviews_after_row_frame _ _ _ _ _ _ _ Htrig) as (_ & Hb & Hl & Ht).
  split; [|auto].
  intros j Hj. destruct rev; simpl in Htrig.
  - injection Htrig as <-. reflexivity.
  - unfold update_teacher_rating in Htrig.
    apply update_profile_Ok in Htrig as [-> | (old & p & _ & _ & _ & ->)];
      [reflexivity|].
    simpl. apply lookup_insert_ne. congruence.
Qed.

(** The owner of the tables moves review 40 from teacher 1 to user 3:
    the row of teacher 1 is not recomputed. *)
Lemma review_write_touches_one_profile_witness :
  let d := run Rev001 (scenario_db Rev001) two_reviews in
  let d' := commit Rev001 table_owner 30 d
              (UpdateReview 40 (fun r => review_of 40 20 2 3 1)) in
  teacher_ratings d 1 <> teacher_ratings d' 1 /\
  profiles d' !! 1%N = profiles d !! 1%N.
Proof.
  intros d d'. split; [vm_compute; discriminate|].
  apply (review_write_touches_one_profile Rev001 table_owner 30 d d'
           (with_r_id (review_of 40 20 2 3 1) 40)); [|discriminate].
  apply (review_update Rev001 table_owner 30 d 40 (review_of 40 20 2 1 1)
           (fun r => review_of 40 20 2 3 1)).
  - vm_compute. reflexivity.
  - reflexivity.
  - vm_compute. reflexivity.
Defined.

(** X20. Reviews in part_001 under row security. The INSERT policy on
    reviews reads bookings, whose policies read profiles, and
    update_teacher_stats is declared without SECURITY DEFINER, so that its
    UPDATE of profiles runs with the rights of whoever writes the review.
    For a caller under row security every INSERT into reviews fails with
    42P17, and an UPDATE that reaches a review of the caller's own is never
    carried out: it fails, with 42P17 when the new row passes the policy, the
    CHECK and the foreign keys. *)
Theorem part_001_reviews_closed_under_row_security (c : caller) (d : db)
  (now : timestamptz) :
  rls_exempt c = false ->
  (forall NEW, insert_review Rev001 c d NEW now = Err infinite_recursion) /\
  (forall id old set, find_review d id = Some old ->
     is_uid c (r_student_id old) = true ->
     exists e, update_review Rev001 c d id set now = Err e) /\
  (forall id old set, find_review d id = Some old ->
     is_uid c (r_student_id old) = true ->
     is_uid c (r_student_id (set old)) = true ->
     reviews_check (with_r_id (set old) id) = true ->
     reviews_fk d (with_r_id (set old) id) = true ->
     update_review Rev001 c d id set now = Err infinite_recursion).
Proof.
  intros Hc.
  assert (Htrig : forall d0 NEW,
            reviews_after_row Rev001 UPDATE c d0 NEW now = Err infinite_recursion).
  { intros d0 NEW. simpl. unfold update_teacher_rating.
    apply update_profile_part_001. exact Hc. }
  split; [|split].
  - intros NEW. unfold insert_review.
    rewrite policies_expand_part_001; [reflexivity | exact Hc|].
    right. right. auto.
  - intros id old set Hold Hown. unfold update_review.
    rewrite policies_expand_reviews by discriminate. simpl.
    rewrite Hold. unfold reviews_update at 1. rewrite Hc, Hown. simpl.
    destruct (reviews_update Rev001 c (with_r_id (set old) id));
      [|eexists; reflexivity].
    destruct (reviews_check (with_r_id (set old) id)); [|eexists; reflexivity].
    destruct (reviews_fk d (with_r_id (set old) id)); [|eexists; reflexivity].
    cbv iota. rewrite Htrig. eexists. reflexivity.
  - intros id old set Hold Hown Hnew Hchk Hfk. unfold update_review.
    rewrite policies_expand_reviews by discriminate. simpl.
    rewrite Hold. unfold reviews_update. rewrite Hc, Hown. simpl.
    simpl in Hnew. rewrite Hnew, Hchk, Hfk. cbv iota. apply Htrig.
Qed.

(** Student 2 rates teacher 1 for the own completed booking 20. *)
Lemma part_001_reviews_closed_under_row_security_witness :
  insert_review Rev001 (authenticated 2) (scenario_db Rev001)
    (review_of 40 20 2 1 4) 12 = Err infinite_recursion.
Proof.
  apply (part_001_reviews_closed_under_row_security (authenticated 2)
           (scenario_db Rev001) 12 eq_refl).
Defined.

Lemma sum_Z_replicate n k : sum_Z (replicate n k) = Z.of_nat n * k.
Proof. induction n as [|n IH]; unfold sum_Z in *; simpl; [reflexivity | lia]. Qed.

(** X21. A teacher whose reviews all carry the same rating k is rated
    exactly k.00 by the trigger's query. *)
Theorem equal_ratings_give_that_rating (d : db) (tid : uuid) (n : nat) (k : Z) :
  teacher_ratings d tid = replicate (S n) k ->
  0 <= k <= 5 ->
  rating_of_reviews d tid = Ok (100 * k).
Proof.
  intros Hxs Hk. unfold rating_of_reviews. rewrite Hxs.
  destruct (AVG_Some (replicate (S n) k) ltac:(discriminate)) as (q & Hq & Hqe).
  rewrite Hq. simpl COALESCE. apply coerce_numeric_Ok.
  - rewrite Hqe, sum_Z_replicate, length_replicate.
    assert (He : (Z.of_nat (S n) * k # Pos.of_nat (S n) == numeric2 (100 * k))%Q).
    { unfold numeric2, Qeq. simpl Qnum. simpl Qden.
      replace (Z.pos (Pos.of_nat (S n))) with (Z.of_nat (S n))
        by (rewrite <- Pos.of_nat_succ; lia).
      lia. }
    rewrite He. apply numeric_round2_exact.
  - change (10 ^ Z.of_nat 3) with 1000. lia.
Qed.

(** Teacher 1 after two ratings of 1. *)
Lemma equal_ratings_give_that_rating_witness :
  rating_of_reviews (run Rev001 (scenario_db Rev001) two_reviews) 1 = Ok 100.
Proof.
  apply (equal_ratings_give_that_rating _ 1 1 1); [vm_compute; reflexivity | lia].
Defined.


(** X23. The review gate is in the student's own hands: a signed-in user
    can insert a booking that is already completed, through the INSERT policy
    that looks at student_id only, in both revisions. In part_000 the user can
    then review it at once, and the teacher named by the review need not be
    the teacher of the booking; in part_001 that review fails with 42P17. *)
Theorem student_alone_opens_the_review_gate (u : uuid)
  (d : db) (bid : uuid) (v : booking_values) (NEW : review)
  (now now' : timestamptz) :
  bv_student_id v = u -> bv_status v = Some completed ->
  has_key (bookings d) bid = false ->
  bookings_fk d (new_booking v now) = true ->
  r_booking_id NEW = bid -> r_student_id NEW = u ->
  is_Some (profiles d !! r_teacher_id NEW) ->
  1 <= r_rating NEW <= 5 ->
  has_review d (r_id NEW) = false ->
  exists d1 d2,
    (forall rev, insert_booking rev (authenticated u) d bid v now = Ok d1) /\
    insert_review Rev000 (authenticated u) d1 NEW now' = Ok d2 /\
    reviews d2 = reviews d ++ [NEW] /\
    insert_review Rev001 (authenticated u) d1 NEW now' = Err infinite_recursion.
Proof.
  intros Hvs Hvst Hfree Hfk Hrb Hrs Hpt Hr Hk.
  set (b := new_booking v now).
  set (d1 := with_bookings d (<[bid := b]> (bookings d))).
  assert (Hb : bookings d1 !! r_booking_id NEW = Some b).
  { rewrite Hrb. simpl. apply lookup_insert_eq. }
  assert (Hbs : b_student_id b = u) by exact Hvs.
  assert (Hst : status b = completed) by (simpl; rewrite Hvst; reflexivity).
  assert (Hpu : is_Some (profiles d !! u)).
  { unfold bookings_fk in Hfk. apply andb_true_iff in Hfk as [Hfk _].
    apply andb_true_iff in Hfk as [_ Hfk]. apply has_key_true in Hfk.
    simpl in Hfk. rewrite Hvs in Hfk. exact Hfk. }
  exists d1, (with_reviews d1 (reviews d1 ++ [NEW])).
  split; [|split; [|split; [reflexivity|]]].
  - intros rev. unfold insert_booking. cbv zeta.
    rewrite policies_expand_insert by auto. rewrite Hfk, Hfree.
    unfold bookings_insert_check, is_uid. simpl.
    rewrite Hvs, bool_decide_eq_true_2 by reflexivity. reflexivity.
  - unfold insert_review, reviews_insert_check, bookings_select, is_uid.
    rewrite policies_expand_part_000.
    simpl auth_uid. simpl rls_exempt. rewrite Hb, Hbs, Hrs, Hst.
    rewrite !(bool_decide_eq_true_2 (u = u)) by reflexivity.
    rewrite (bool_decide_eq_true_2 (completed = completed)) by reflexivity.
    simpl. unfold reviews_check.
    replace (1 <=? r_rating NEW) with true by (symmetry; apply Z.leb_le; lia).
    replace (r_rating NEW <=? 5) with true by (symmetry; apply Z.leb_le; lia).
    simpl.
    change (has_review d1 (r_id NEW)) with (has_review d (r_id NEW)).
    rewrite Hk. simpl. unfold reviews_fk. rewrite Hrs.
    change (profiles d1) with (profiles d).
    apply has_key_true in Hpu, Hpt. rewrite Hpu, Hpt.
    unfold has_key. rewrite Hb. reflexivity.
  - unfold insert_review.
    rewrite policies_expand_part_001; [reflexivity | reflexivity|].
    right. right. auto.
Qed.

(** Student 2 books lesson 10 as completed and rates user 3, who teaches
    nothing. *)
Lemma student_alone_opens_the_review_gate_witness :
  exists d1 d2,
    (forall rev, insert_booking rev (authenticated 2) (scenario_db Rev000) 29
       {| bv_lesson_id := 10; bv_student_id := 2; bv_teacher_id := 1;
          bv_scheduled_at := 50; bv_status := Some completed;
          bv_meeting_link := None; bv_notes := None |} 30 = Ok d1) /\
    insert_review Rev000 (authenticated 2) d1 (review_of 49 29 2 3 1) 31 = Ok d2 /\
    reviews d2 = reviews (scenario_db Rev000) ++ [review_of 49 29 2 3 1] /\
    insert_review Rev001 (authenticated 2) d1 (review_of 49 29 2 3 1) 31
    = Err infinite_recursion.
Proof.
  apply student_alone_opens_the_review_gate;
    try reflexivity; try (vm_compute; reflexivity).
  - vm_compute. eauto.
  - simpl. lia.
Defined.

(** ** Deletions *)

(** X24. Every foreign key is ON DELETE CASCADE, and the cascade asks no
    policy. In part_000 a teacher who deletes an own lesson removes with it
    the bookings of that lesson, the transactions of those bookings and their
    reviews, although no policy lets the teacher delete from bookings,
    transactions or reviews; the other lessons, the profiles and the subjects
    stay. In part_001 the DELETE fails with 42P17. *)
Theorem own_lesson_deleted_with_its_payments (u : uuid) (d : db) (id : uuid)
  (l : lesson) :
  lessons d !! id = Some l ->
  l_teacher_id l = u ->
  (exists d',
     delete_lesson Rev000 (authenticated u) d id = Ok d' /\
     lessons d' !! id = None /\
     (forall k b, bookings d !! k = Some b -> b_lesson_id b = id ->
        bookings d' !! k = None /\
        (forall j t, transactions d !! j = Some t -> t_booking_id t = k ->
           transactions d' !! j = None) /\
        (forall r, In r (reviews d') -> r_booking_id r <> k)) /\
     (forall k l', k <> id -> lessons d !! k = Some l' ->
        lessons d' !! k = Some l') /\
     profiles d' = profiles d /\ subjects d' = subjects d) /\
  delete_lesson Rev001 (authenticated u) d id = Err infinite_recursion.
Proof.
  intros Hl Hu. split.
  - exists (cascade nobody nobody (only id) nobody d).
    assert (Hgone : lesson_gone nobody nobody (only id) d id = true).
    { unfold lesson_gone, lesson_goes, only. rewrite Hl.
      rewrite bool_decide_eq_true_2 by reflexivity. reflexivity. }
    split; [|split; [|split; [|split; [|split]]]].
    + unfold delete_lesson. rewrite policies_expand_part_000. simpl.
      rewrite Hl. unfold lessons_delete, lessons_select, is_uid. simpl.
      rewrite (bool_decide_eq_true_2 _ Hu), orb_true_r. reflexivity.
    + simpl. apply eq_None_not_Some. intros [x E].
      apply map_lookup_filter_Some in E as [E Hf]. simpl in Hf.
      rewrite Hl in E. injection E as <-.
      unfold lesson_goes, only in Hf.
      rewrite bool_decide_eq_true_2 in Hf by reflexivity. discriminate.
    + intros k b Hb Hbl.
      assert (Hbg : booking_gone nobody nobody (only id) nobody d k = true).
      { unfold booking_gone, booking_goes. rewrite Hb, Hbl, Hgone.
        rewrite orb_true_r. reflexivity. }
      split; [|split].
      * simpl. apply eq_None_not_Some. intros [x E].
        apply map_lookup_filter_Some in E as [E Hf]. simpl in Hf.
        rewrite Hb in E. injection E as <-.
        unfold booking_goes in Hf. rewrite Hbl, Hgone, orb_true_r in Hf.
        discriminate.
      * intros j t Ht Htb. simpl.
        apply eq_None_not_Some. intros [x E].
        apply map_lookup_filter_Some in E as [E Hf]. simpl in Hf.
        rewrite Ht in E. injection E as <-.
        rewrite Htb, Hbg in Hf. discriminate.
      * intros r Hr Hrb. simpl in Hr.
        apply list_elem_of_In, list_elem_of_filter in Hr as [Hf _].
        rewrite Hrb, Hbg in Hf. discriminate.
    + intros k l' Hk Hl'. simpl. apply map_lookup_filter_Some.
      split; [exact Hl'|]. simpl. unfold lesson_goes, only, nobody.
      rewrite bool_decide_eq_false_2 by exact Hk. reflexivity.
    + simpl. apply map_filter_id. intros; reflexivity.
    + simpl. apply map_filter_id. intros; reflexivity.
  - unfold delete_lesson.
    rewrite policies_expand_part_001; [reflexivity | reflexivity|].
    left. split; [auto | discriminate].
Qed.

(** Admin 3 records a payment for booking 20 of lesson 10; teacher 1 then
    deletes lesson 10, and the payment is gone. *)
Lemma own_lesson_deleted_with_its_payments_witness :
  let d := run Rev000 (scenario_db Rev000)
             [(authenticated 3, 10,
               InsertTransaction 30 (payment 20 2 1 10000 (Some 1000) (Some 9000)))] in
  is_Some (transactions d !! 30%N) /\
  exists d',
    delete_lesson Rev000 (authenticated 1) d 10 = Ok d' /\
    transactions d' !! 30%N = None.
Proof.
  intros d. split; [vm_compute; eauto|].
  destruct (own_lesson_deleted_with_its_payments 1 d 10 (lesson_of 1 true))
    as [(d' & Hd' & _ & Hb & _) _].
  - vm_compute. reflexivity.
  - reflexivity.
  - exists d'. split; [exact Hd'|].
    destruct (Hb 20%N
                {| b_lesson_id := 10; b_student_id := 2; b_teacher_id := 1;
                   scheduled_at := 50; status := completed; meeting_link := None;
                   notes := None; b_created_at := 6; b_updated_at := 6 |})
      as (_ & Ht & _).
    + vm_compute. reflexivity.
    + reflexivity.
    + destruct (transactions d !! 30%N) as [t|] eqn:E.
      * apply (Ht 30%N t E). vm_compute in E. injection E as <-. reflexivity.
      * vm_compute in E. discriminate.
Defined.

(** X25. update_teacher_stats is a trigger AFTER INSERT OR UPDATE, and
    neither revision declares a DELETE policy on reviews: a DELETE on reviews
    raises no error, removes nothing for a caller under row security, removes
    the addressed review for the owner of the tables, and leaves every
    profile as it was, so that the teacher keeps a rating computed with the
    deleted review. *)
Theorem deleted_review_keeps_rating (rev : revision) (c : caller) (d : db)
  (id : uuid) :
  exists d',
    delete_review rev c d id = Ok d' /\
    profiles d' = profiles d /\
    (rls_exempt c = false -> d' = d) /\
    (rls_exempt c = true ->
     forall r, In r (reviews d') <-> In r (reviews d) /\ r_id r <> id).
Proof.
  unfold delete_review. rewrite policies_expand_reviews by discriminate. simpl.
  destruct (rls_exempt c); eexists; (split; [reflexivity|]);
    (split; [reflexivity|]); split; try discriminate; try reflexivity.
  intros _ r. simpl. rewrite <- !list_elem_of_In, list_elem_of_filter. tauto.
Qed.

(** The only review of teacher 1 is deleted in part_001: the rating 1.00
    stays. *)
Lemma deleted_review_keeps_rating_witness :
  let d := run Rev001 (scenario_db Rev001)
             [(table_owner, 12, InsertReview (review_of 40 20 2 1 1))] in
  exists d',
    delete_review Rev001 table_owner d 40 = Ok d' /\
    teacher_ratings d' 1 = [] /\
    rating <$> profiles d' !! 1%N = Some 100.
Proof.
  intros d.
  destruct (deleted_review_keeps_rating Rev001 table_owner d 40)
    as (d' & H & Hp & _ & _).
  exists d'. split; [exact H|]. split.
  - vm_compute in H. injection H as <-. reflexivity.
  - rewrite Hp. vm_compute. reflexivity.
Defined.

(** ** The landing page *)

(** X26. HomePage.fetchStats counts what the queries return. In part_000
    the counters are those of the whole tables for every caller: the teachers,
    the students, the active lessons and the subjects. In part_001, for a
    visitor under row security, signed in or not, the three queries on
    profiles and lessons fail with 42P17 and the page shows 0 teachers, 0
    students and 0 lessons whatever is stored; the subjects are counted. *)
Theorem stats_count_the_visible_rows (c : caller) (d : db) (ss : gmap N subject) :
  (totalTeachers (fetchStats Rev000 c d ss)
     = size (filter (fun kp : N * profile => p_user_type kp.2 = teacher) (profiles d)) /\
   totalStudents (fetchStats Rev000 c d ss)
     = size (filter (fun kp : N * profile => p_user_type kp.2 = student) (profiles d)) /\
   totalLessons (fetchStats Rev000 c d ss)
     = size (filter (fun kl : N * lesson => is_active kl.2 = true) (lessons d)) /\
   totalSubjects (fetchStats Rev000 c d ss) = size ss) /\
  (rls_exempt c = false ->
   totalTeachers (fetchStats Rev001 c d ss) = 0%nat /\
   totalStudents (fetchStats Rev001 c d ss) = 0%nat /\
   totalLessons (fetchStats Rev001 c d ss) = 0%nat /\
   totalSubjects (fetchStats Rev001 c d ss) = size ss).
Proof.
  assert (Hsub : forall rev, select_subjects rev c ss = Ok ss).
  { intros rev. unfold select_subjects.
    assert (He : policies_expand rev c t_subjects Select = true).
    { unfold policies_expand. destruct (rls_exempt c), rev; reflexivity. }
    rewrite He. simpl. f_equal. apply map_filter_id. auto. }
  split.
  - unfold fetchStats, profiles_of_type. simpl. rewrite select_profiles_part_000, Hsub. simpl.
    repeat split.
    unfold fetchStats_lessons. rewrite policies_expand_part_000. simpl.
    f_equal. apply map_eq. intros k. apply option_eq. intros l.
    rewrite !map_lookup_filter_Some. simpl. unfold lessons_select. simpl.
    split; [tauto|]. intros [Hl Ha]. rewrite Ha, orb_true_r. auto.
  - intros Hc. unfold fetchStats, profiles_of_type. simpl.
    rewrite (select_profiles_part_001 c d Hc), Hsub. simpl.
    unfold fetchStats_lessons.
    rewrite policies_expand_part_001; [auto | exact Hc|].
    left. split; [auto | discriminate].
Qed.

(** A visitor of the worked store of part_001, which holds one teacher. *)
Lemma stats_count_the_visible_rows_witness :
  totalTeachers (fetchStats Rev001 anon (scenario_db Rev001)
                   (subjects (scenario_db Rev001))) = 0%nat /\
  totalSubjects (fetchStats Rev001 anon (scenario_db Rev001)
                   (subjects (scenario_db Rev001))) = 1%nat /\
  totalTeachers (fetchStats Rev000 anon (scenario_db Rev000)
                   (subjects (scenario_db Rev000))) = 1%nat.
Proof.
  destruct (stats_count_the_visible_rows anon (scenario_db Rev001)
              (subjects (scenario_db Rev001))) as [_ H].
  destruct (H eq_refl) as (H1 & _ & _ & H4).
  split; [exact H1|]. split; [rewrite H4; vm_compute; reflexivity|].
  rewrite (proj1 (proj1 (stats_count_the_visible_rows anon (scenario_db Rev000)
                           (subjects (scenario_db Rev000))))).
  vm_compute. reflexivity.
Defined.

(** ** RegisterForm *)

(** X27. RegisterForm.handleSubmit: signUp is called exactly when the two
    passwords are equal, with the form's email and password and with the rest
    of the form, password included, as user data; the page navigates to "/"
    exactly when signUp was called and returned; an alert is shown exactly
    when the passwords differ; and on every path the last thing done is
    setLoading(false). *)
Theorem handleSubmit_effects {number : Type} (fd : @formData number)
  (resolves : bool) :
  (forall e p u, signUp e p u ∈ handleSubmit fd resolves <->
     fd_password fd = fd_confirmPassword fd /\
     e = fd_email fd /\ p = fd_password fd /\ u = rest_of fd) /\
  ud_password (rest_of fd) = fd_password fd /\
  (forall path, navigate path ∈ handleSubmit fd resolves <->
     fd_password fd = fd_confirmPassword fd /\ resolves = true /\ path = "/") /\
  ((exists msg, alert msg ∈ handleSubmit fd resolves) <->
     fd_password fd <> fd_confirmPassword fd) /\
  last (handleSubmit fd resolves) = Some (setLoading false).
Proof.
  unfold handleSubmit.
  destruct (String.eqb_spec (fd_password fd) (fd_confirmPassword fd)) as [He | Hne];
    destruct resolves; simpl;
    (split; [|split; [reflexivity|split; [|split; [|reflexivity]]]]).
  all: try (intros e p u); try (intros path); split.
  all: try (intros [msg H]).
  all: try intros H.
  all: repeat match goal with
         | H : _ ∈ _ :: _ |- _ => apply elem_of_cons in H as [H | H]
         | H : _ ∈ [] |- _ => apply elem_of_nil in H; destruct H
         | H : _ /\ _ |- _ => destruct H
         end.
  all: try discriminate; try congruence.
  all: try (injection H as -> -> ->; auto).
  all: try (injection H as ->; auto).
  all: subst; try (eexists; set_solver); try set_solver.
Qed.

(** A form whose passwords agree, with a sign-up that fails. *)
Lemma handleSubmit_effects_witness :
  let fd := {| fd_email := "a@example.org"; fd_password := "secret";
               fd_confirmPassword := "secret"; fd_full_name := "A";
               fd_phone := "0"; fd_user_type := "student"; fd_bio := "";
               fd_experience_years := 0%Z; fd_hourly_rate := 0%Z |} in
  signUp "a@example.org" "secret" (rest_of fd) ∈ handleSubmit fd false /\
  ~ navigate "/" ∈ handleSubmit fd false.
Proof.
  intros fd. split.
  - apply (proj1 (handleSubmit_effects fd false)). repeat split.
  - intros H. apply (proj1 (proj2 (proj2 (handleSubmit_effects fd false)))) in H.
    destruct H as (_ & H & _). discriminate.
Defined.

(** ** subjects and lesson_materials *)

(** X28. subjects under row security. A SELECT returns the whole table in
    both revisions. In part_000 a caller who is no admin never gets an INSERT
    accepted, and an UPDATE by such a caller changes nothing. In part_001
    every INSERT and UPDATE on subjects fails with 42P17, for admins too. *)
Theorem subjects_written_by_admins_only (c : caller) (d : db)
  (ss : gmap N subject) (id : uuid) (NEW : subject) (set : subject -> subject) :
  rls_exempt c = false ->
  (forall rev, select_subjects rev c ss = Ok ss) /\
  (is_admin c d = false ->
   (forall ss', insert_subject Rev000 c d ss id NEW <> Ok ss') /\
   update_subject Rev000 c d ss id set = Ok ss) /\
  insert_subject Rev001 c d ss id NEW = Err infinite_recursion /\
  update_subject Rev001 c d ss id set = Err infinite_recursion.
Proof.
  intros Hc. split; [|split; [|split]].
  - intros rev. unfold select_subjects.
    assert (He : policies_expand rev c t_subjects Select = true).
    { unfold policies_expand. rewrite Hc. destruct rev; reflexivity. }
    rewrite He. simpl. f_equal. apply map_filter_id. auto.
  - intros Ha.
    assert (Hw : subjects_write c d = false).
    { unfold subjects_write. rewrite Hc, Ha. reflexivity. }
    split.
    + intros ss' H. unfold insert_subject in H.
      apply ensure_Ok in H as [_ H].
      apply obind_Ok in H as (row & _ & H). apply ensure_Ok in H as [H _].
      congruence.
    + unfold update_subject. rewrite policies_expand_part_000, Hw. simpl.
      destruct (ss !! id); reflexivity.
  - unfold insert_subject.
    rewrite policies_expand_part_001; [reflexivity | exact Hc|].
    right. left. auto.
  - unfold update_subject.
    rewrite policies_expand_part_001; [reflexivity | exact Hc|].
    right. left. auto.
Qed.

(** Admin 3 adds a subject in part_001. *)
Lemma subjects_written_by_admins_only_witness :
  insert_subject Rev001 (authenticated 3) (scenario_db Rev001)
    (subjects (scenario_db Rev001)) 101
    {| s_name := "Games"; s_description := None; icon_name := None;
       s_created_at := 30 |} = Err infinite_recursion.
Proof.
  apply (subjects_written_by_admins_only (authenticated 3) (scenario_db Rev001)
           (subjects (scenario_db Rev001)) 101
           {| s_name := "Games"; s_description := None; icon_name := None;
              s_created_at := 30 |} (fun s => s) eq_refl).
Defined.

Lemma subject_name_free ss except n :
  subject_name_taken Rev000 ss except n = false ->
  forall k s, ss !! k = Some s -> Some k <> except -> s_name s <> n.
Proof.
  unfold subject_name_taken. intros H k s Hk Hex Hn.
  assert (Ht : existsb (fun ks : N * subject =>
                 negb (bool_decide (Some ks.1 = except)) && String.eqb (s_name ks.2) n)
                 (map_to_list ss) = true).
  { apply existsb_exists. exists (k, s). split.
    - apply list_elem_of_In, elem_of_map_to_list. exact Hk.
    - simpl. rewrite (bool_decide_eq_false_2 _ Hex). simpl.
      apply String.eqb_eq. exact Hn. }
  congruence.
Qed.

Lemma names_unique_insert ss id row :
  names_unique ss ->
  (forall k s, ss !! k = Some s -> k <> id -> s_name s <> s_name row) ->
  names_unique (<[id := row]> ss).
Proof.
  intros Hu Hfree i j s t Hi Hj Hn.
  destruct (decide (i = id)) as [-> | Hi'], (decide (j = id)) as [-> | Hj'];
    [reflexivity | | |].
  - rewrite lookup_insert_eq in Hi. injection Hi as <-.
    rewrite lookup_insert_ne in Hj by congruence.
    exfalso. apply (Hfree j t Hj Hj'). congruence.
  - rewrite lookup_insert_eq in Hj. injection Hj as <-.
    rewrite lookup_insert_ne in Hi by congruence.
    exfalso. apply (Hfree i s Hi Hi'). congruence.
  - rewrite lookup_insert_ne in Hi, Hj by congruence. eauto.
Qed.

(** X29. The UNIQUE constraint of part_000 on subjects.name is kept by
    every accepted INSERT and UPDATE: no two rows carry the same name
    afterwards. *)
Theorem subject_names_stay_unique (c : caller) (d : db) (ss ss' : gmap N subject)
  (id : uuid) :
  names_unique ss ->
  (forall NEW, insert_subject Rev000 c d ss id NEW = Ok ss' -> names_unique ss') /\
  (forall set, update_subject Rev000 c d ss id set = Ok ss' -> names_unique ss').
Proof.
  intros Hu. split.
  - intros NEW H. unfold insert_subject in H.
    apply ensure_Ok in H as [_ H].
    apply obind_Ok in H as (row & _ & H).
    apply ensure_Ok in H as [_ H]. apply ensure_Ok in H as [_ H].
    apply ensure_Ok in H as [Hfree H]. injection H as <-.
    apply negb_true_iff in Hfree.
    apply names_unique_insert; [exact Hu|].
    intros k s Hk _. apply (subject_name_free _ _ _ Hfree k s Hk). discriminate.
  - intros set H. unfold update_subject in H.
    apply ensure_Ok in H as [_ H].
    destruct (ss !! id) as [old|]; [|injection H as <-; exact Hu].
    destruct (subjects_write c d); [|injection H as <-; exact Hu].
    apply obind_Ok in H as (row & _ & H).
    apply ensure_Ok in H as [Hfree H]. injection H as <-.
    apply negb_true_iff in Hfree.
    apply names_unique_insert; [exact Hu|].
    intros k s Hk Hne. apply (subject_name_free _ _ _ Hfree k s Hk). congruence.
Qed.

(** A second subject named Algebra is refused, so the premise of the
    insert never holds for it; a differently named one is stored. *)
Lemma subject_names_stay_unique_witness :
  names_unique
    (<[2%N := {| s_name := "Geometry"; s_description := None; icon_name := None;
                 s_created_at := 31 |}]>
       (<[1%N := {| s_name := "Algebra"; s_description := None; icon_name := None;
                    s_created_at := 30 |}]> ∅)).
Proof.
  apply (proj1 (subject_names_stay_unique table_owner empty_db
                  (<[1%N := {| s_name := "Algebra"; s_description := None;
                               icon_name := None; s_created_at := 30 |}]> ∅)
                  _ 2
                  ltac:(intros i j s t Hi Hj _;
                        apply lookup_insert_Some in Hi as [[<- _] | [_ Hi]];
                          [|rewrite lookup_empty in Hi; discriminate];
                        apply lookup_insert_Some in Hj as [[<- _] | [_ Hj]];
                          [reflexivity | rewrite lookup_empty in Hj; discriminate]))
          {| s_name := "Geometry"; s_description := None; icon_name := None;
             s_created_at := 31 |}).
  vm_compute. reflexivity.
Defined.

(** X30. lesson_materials (part_000): a row a signed-in user inserts
    belongs to a lesson that user teaches, under a key that was free, and
    nothing else in the table changes. *)
Theorem materials_inserted_by_the_lesson_teacher (u : uuid) (d : db)
  (ms ms' : gmap N lesson_material) (id : uuid) (NEW : lesson_material) :
  insert_lesson_material (authenticated u) d ms id NEW = Ok ms' ->
  (exists l, lessons d !! m_lesson_id NEW = Some l /\ l_teacher_id l = u) /\
  ms !! id = None /\
  exists row, ms' = <[id := row]> ms /\ m_lesson_id row = m_lesson_id NEW.
Proof.
  intros H. unfold insert_lesson_material in H.
  apply ensure_Ok in H as [_ H].
  apply obind_Ok in H as (row & Hrow & H).
  assert (Hl : m_lesson_id row = m_lesson_id NEW).
  { unfold lesson_materials_columns in Hrow.
    apply obind_Ok in Hrow as (t & _ & Hrow).
    apply obind_Ok in Hrow as (f & _ & Hrow).
    injection Hrow as <-. reflexivity. }
  apply ensure_Ok in H as [Hpol H]. apply ensure_Ok in H as [Hfree H].
  apply ensure_Ok in H as [_ H]. injection H as <-.
  split; [|split].
  - unfold lesson_materials_write in Hpol. simpl in Hpol. rewrite Hl in Hpol.
    destruct (lessons d !! m_lesson_id NEW) as [l|]; [|discriminate].
    apply andb_true_iff in Hpol as [_ Hu]. unfold is_uid in Hu. simpl in Hu.
    apply bool_decide_eq_true_1 in Hu. eauto.
  - apply has_key_false. apply negb_true_iff. exact Hfree.
  - eauto.
Qed.

(** Teacher 1 attaches a file to lesson 10. *)
Lemma materials_inserted_by_the_lesson_teacher_witness :
  exists l, lessons (scenario_db Rev000) !! 10%N = Some l /\ l_teacher_id l = 1%N.
Proof.
  apply (materials_inserted_by_the_lesson_teacher 1 (scenario_db Rev000) ∅
           (<[1%N := {| m_lesson_id := 10; m_title := "Notes"; file_url := None;
                        file_type := Some "pdf"; m_created_at := 30 |}]> ∅)
           1 {| m_lesson_id := 10; m_title := "Notes"; file_url := None;
                file_type := Some "pdf"; m_created_at := 30 |}).
  vm_compute. reflexivity.
Defined.
